(** * Screen-state classification and readiness orchestration

    A shallow embedding of the pixel-sampling classifier
    ([WestonController.detect_weston_screen_state], weston.py), of the
    lock check, unlock sequencer, main-game gate, startup tap sequence and
    [start_game] of [GameController] (rok_controller.py), and of the
    configuration store [UIConfig] (ui_config.py).

    Conventions of the embedding.
    - Python integers are [Z]; [//] is [Z.div] (floor).
    - A [try: ... except Exception] block is a computation in [Py.result]
      whose [Raise] outcome the wrapper maps to the handler's value.
    - JSON dictionaries read with [d.get(key, default)] are records whose
      leaves are [option]s; [None] is an absent key.  Entries are taken to
      have the type the code expects (integers, lists of integers).
    - The ratio thresholds are rationals and [count / total] is compared
      exactly.  For the default threshold 0.8 and fewer than 2^50 samples the
      binary64 comparison of the source gives the same answer.  The two
      binary64 products of the icon band are a parameter ([Scaling]).
    - What the host answers (processes, xwininfo, captures, activities) is
      data: a [Desktop] for one call of the classifier, a [Device] script
      for a run of the controller.
    - Clock readings and sleeps are integers in milliseconds, and the clock
      is advanced by [time.sleep] only: simulated time, in which a query of
      the device takes none. *)

From Stdlib Require Import ZArith QArith List String Bool Lia.
Import ListNotations.
Local Open Scope Z_scope.

(** ** Python helpers *)

Module Py.

(** Outcome of a block that may raise an [Exception]. *)
Inductive result (A : Type) : Type :=
| Ok (a : A)
| Raise.
Arguments Ok {A} a.
Arguments Raise {A}.

Definition bind {A B} (m : result A) (k : A -> result B) : result B :=
  match m with
  | Ok a => k a
  | Raise => Raise
  end.

(** [try: return body  except Exception: return handler] *)
Definition try_except {A} (body : result A) (handler : A) : A :=
  match body with
  | Ok a => a
  | Raise => handler
  end.

Definition raises {A} (m : result A) : Prop := m = Raise.

(** [d.get(key, default)] on an optional leaf. *)
Definition get {A} (leaf : option A) (default : A) : A :=
  match leaf with
  | Some v => v
  | None => default
  end.

(** [len(range(lo, hi, step))] for a non-zero step. *)
Definition range_len (lo hi step : Z) : Z :=
  if 0 <? step then (if lo <? hi then (hi - lo - 1) / step + 1 else 0)
  else (if hi <? lo then (lo - hi - 1) / (- step) + 1 else 0).

(** [range(lo, hi, step)]; a zero step is a [ValueError]. *)
Definition range (lo hi step : Z) : result (list Z) :=
  if step =? 0 then Raise
  else Ok (map (fun i => lo + Z.of_nat i * step)
               (seq 0 (Z.to_nat (range_len lo hi step)))).

(** [for a in l: s = body(a, s)], stopping at the first exception. *)
Fixpoint for_each {A S} (l : list A) (body : A -> S -> result S) (s : S)
  : result S :=
  match l with
  | [] => Ok s
  | a :: rest => bind (body a s) (for_each rest body)
  end.

(** [max(r, g, b)] and [min(r, g, b)] on integers. *)
Definition max3 (r g b : Z) : Z := Z.max (Z.max r g) b.
Definition min3 (r g b : Z) : Z := Z.min (Z.min r g) b.

(** [needle in hay] on strings. *)
Fixpoint contains (needle hay : string) : bool :=
  String.prefix needle hay ||
  match hay with
  | EmptyString => false
  | String _ rest => contains needle rest
  end.

End Py.

Notation "x <-? m ;; k" := (Py.bind m (fun x => k))
  (at level 100, m at next level, right associativity).

(** ** Frames *)

(** What [Image.getpixel] returns: an integer for single-band modes
    (1, L, P), a tuple of bands otherwise (LA, RGB, RGBA). *)
Inductive Pixel : Type :=
| Scalar (v : Z)
| Bands (bs : list Z).

Record Frame : Type := {
  size : Z * Z;                    (* screenshot.size = (width, height) *)
  getpixel : Z -> Z -> Pixel
}.

(** [0 <= x < screenshot.size[0] and 0 <= y < screenshot.size[1]] *)
Definition in_bounds (f : Frame) (x y : Z) : bool :=
  (0 <=? x) && (x <? fst (size f)) && (0 <=? y) && (y <? snd (size f)).

(** The third component bound by
    [r, g, b = pixel[0], pixel[1], pixel[2] if len(pixel) >= 3 else (0, 0, 0)]:
    the conditional covers the last component only, so a two-band pixel binds
    [b] to the tuple [(0, 0, 0)]. *)
Inductive Blue : Type :=
| BlueInt (b : Z)
| BlueTuple.

Definition unpack_rgb (p : Pixel) : Py.result (Z * Z * Blue) :=
  match p with
  | Scalar _ => Py.Raise                         (* int is not subscriptable *)
  | Bands (r :: g :: rest) =>
      Py.Ok (r, g, match rest with
                   | b :: _ => BlueInt b
                   | [] => BlueTuple
                   end)
  | Bands _ => Py.Raise                          (* IndexError *)
  end.

(** ** Configuration documents *)

Record Bound : Type := { b_min : option Z; b_max : option Z }.

Record ColorRange : Type := { cr_r : Bound; cr_g : Bound; cr_b : Bound }.

(** The literal fallbacks written at a call site, in the order
    r min, r max, g min, g max, b min, b max. *)
Record Fallback : Type := {
  fb_r_min : Z; fb_r_max : Z;
  fb_g_min : Z; fb_g_max : Z;
  fb_b_min : Z; fb_b_max : Z
}.

Definition black_fallback : Fallback := Build_Fallback 0 10 0 10 0 10.
Definition green_fallback : Fallback := Build_Fallback 130 145 125 140 125 135.
Definition blue_fallback : Fallback := Build_Fallback 0 50 60 140 110 170.

(** [rng.get("min", lo) <= v <= rng.get("max", hi)] *)
Definition within (rng : Bound) (lo hi v : Z) : bool :=
  (Py.get (b_min rng) lo <=? v) && (v <=? Py.get (b_max rng) hi).

(** The three-way conjunction of the source; [and] short-circuits, so the
    blue comparison is reached (and can raise) only when red and green pass. *)
Definition color_matches (cr : ColorRange) (fb : Fallback)
  (rgb : Z * Z * Blue) : Py.result bool :=
  let '(r, g, b) := rgb in
  if within (cr_r cr) (fb_r_min fb) (fb_r_max fb) r then
    if within (cr_g cr) (fb_g_min fb) (fb_g_max fb) g then
      match b with
      | BlueInt b => Py.Ok (within (cr_b cr) (fb_b_min fb) (fb_b_max fb) b)
      | BlueTuple => Py.Raise                    (* int <= tuple *)
      end
    else Py.Ok false
  else Py.Ok false.

Record Range : Type := {
  rg_min : option Z; rg_max : option Z; rg_step : option Z
}.

Record GridArea : Type := { x_range : Range; y_range : Range }.

Record BlackDetection : Type := {
  bd_sample_area : GridArea;
  bd_color_range : ColorRange;
  bd_ratio : option Q                            (* threshold.ratio *)
}.

Record BoxArea : Type := { ba_width : option Z; ba_height : option Z }.

Record UnlockDetection : Type := {
  ud_sample_area : BoxArea;
  ud_color_range : ColorRange;
  ud_min_pixels : option Z                       (* threshold.min_pixels *)
}.

Record Position : Type := { pos_x : option Z; pos_y : option Z }.

Record UnlockElement : Type := {
  ue_position : Position;
  ue_detection : UnlockDetection
}.

Record Geometry : Type := {
  geo_x : option Z; geo_y : option Z;
  geo_width : option Z; geo_height : option Z
}.

Record Step : Type := {
  action : option string;
  target : option string;
  wait_after : option Z                          (* milliseconds *)
}.

Record UnlockSequence : Type := {
  steps : list Step;
  max_attempts : option Z;
  verify_after_each : option bool
}.

(** ui_weston.json.  An element that is absent or an empty dictionary is
    [None]: both are false under [if black_config:]. *)
Record WestonConfig : Type := {
  display : option string;
  default_geometry : Geometry;
  black_screen : option BlackDetection;
  button_unlock : option UnlockElement;
  unlock_sequence : UnlockSequence
}.

Definition no_bound : Bound := Build_Bound None None.
Definition no_color_range : ColorRange := Build_ColorRange no_bound no_bound no_bound.
Definition no_range : Range := Build_Range None None None.
Definition no_black_detection : BlackDetection :=
  Build_BlackDetection (Build_GridArea no_range no_range) no_color_range None.
Definition no_unlock_detection : UnlockDetection :=
  Build_UnlockDetection (Build_BoxArea None None) no_color_range None.
Definition no_unlock_element : UnlockElement :=
  Build_UnlockElement (Build_Position None None) no_unlock_detection.
Definition no_geometry : Geometry := Build_Geometry None None None None.
Definition no_unlock_sequence : UnlockSequence := Build_UnlockSequence [] None None.

(** The empty document [{}]. *)
Definition empty_weston_config : WestonConfig :=
  Build_WestonConfig None no_geometry None None no_unlock_sequence.

(** ui_rok_button.json *)
Record MenuDetection : Type := {
  md_offsets : option (list Z);                  (* sample_area.offsets *)
  md_color_range : ColorRange;
  md_min_pixels : option Z
}.

Record RokButtonConfig : Type := {
  menu_position : Position;                      (* buttons.menu_main.position *)
  menu_detection : MenuDetection;                (* buttons.menu_main.detection *)
  tap_position : Position                        (* buttons.tap_to_start.tap_position *)
}.

Definition empty_rok_button_config : RokButtonConfig :=
  Build_RokButtonConfig (Build_Position None None)
    (Build_MenuDetection None no_color_range None) (Build_Position None None).

(** ** Region sampling *)

(** One sample of a counting loop: [acc] is [(matched, total)].  A point
    outside the frame changes neither counter. *)
Definition sample (f : Frame) (cr : ColorRange) (fb : Fallback)
  (x y : Z) (acc : Z * Z) : Py.result (Z * Z) :=
  if in_bounds f x y then
    rgb <-? unpack_rgb (getpixel f x y) ;;
    m <-? color_matches cr fb rgb ;;
    Py.Ok ((if m then fst acc + 1 else fst acc), snd acc + 1)
  else Py.Ok acc.

(** The nested loops [for dx in ...: for dy in ...:] around an anchor; the
    inner iterable is evaluated once per outer iteration. *)
Definition sample_offsets (f : Frame) (cr : ColorRange) (fb : Fallback)
  (ax ay : Z) (dxs dys : Py.result (list Z)) : Py.result (Z * Z) :=
  xs <-? dxs ;;
  Py.for_each xs
    (fun dx acc =>
       ys <-? dys ;;
       Py.for_each ys (fun dy acc' => sample f cr fb (ax + dx) (ay + dy) acc') acc)
    (0, 0).

(** [count / total > ratio], evaluated only when [total > 0].  The source
    divides and compares in binary64; here the quotient and the threshold
    are exact rationals. *)
Definition ratio_exceeds (count total : Z) (ratio : Q) : bool :=
  negb (Qle_bool (count # Z.to_pos total) ratio).

(** [range(x_range.get("min", -10), x_range.get("max", 11), x_range.get("step", 5))] *)
Definition grid_range (r : Range) : Py.result (list Z) :=
  Py.range (Py.get (rg_min r) (-10)) (Py.get (rg_max r) 11) (Py.get (rg_step r) 5).

(** [range(-(w // 2), (w // 2) + 1)] *)
Definition box_range (w : Z) : Py.result (list Z) :=
  Py.range (- (w / 2)) (w / 2 + 1) 1.

(** The window rectangle in root-window coordinates. *)
Record Window : Type := { win_x : Z; win_y : Z; win_w : Z; win_h : Z }.

Definition center_x (w : Window) : Z := win_x w + win_w w / 2.
Definition center_y (w : Window) : Z := win_y w + win_h w / 2.

(** Black-screen samples: (black_count, total_samples). *)
Definition black_samples (f : Frame) (det : BlackDetection) (w : Window)
  : Py.result (Z * Z) :=
  sample_offsets f (bd_color_range det) black_fallback (center_x w) (center_y w)
    (grid_range (x_range (bd_sample_area det)))
    (grid_range (y_range (bd_sample_area det))).

Definition black_rule (f : Frame) (det : BlackDetection) (w : Window)
  : Py.result bool :=
  c <-? black_samples f det w ;;
  Py.Ok ((0 <? snd c) && ratio_exceeds (fst c) (snd c) (Py.get (bd_ratio det) (8 # 10))).

(** Unlock-button samples around [(ux, uy)]: (green_count, lock_samples). *)
Definition lock_samples (f : Frame) (det : UnlockDetection) (ux uy : Z)
  : Py.result (Z * Z) :=
  sample_offsets f (ud_color_range det) green_fallback ux uy
    (box_range (Py.get (ba_width (ud_sample_area det)) 3))
    (box_range (Py.get (ba_height (ud_sample_area det)) 3)).

Definition lock_rule (f : Frame) (det : UnlockDetection) (ux uy : Z)
  : Py.result bool :=
  c <-? lock_samples f det ux uy ;;
  Py.Ok ((0 <? snd c) && (Py.get (ud_min_pixels det) 1 <=? fst c)).

(** [max(r, g, b) > 100 and (max(r, g, b) - min(r, g, b)) > 30]; comparing
    the tuple bound to [b] with an integer raises. *)
Definition colorful (rgb : Z * Z * Blue) : Py.result bool :=
  let '(r, g, b) := rgb in
  match b with
  | BlueInt b =>
      Py.Ok ((100 <? Py.max3 r g b) && (30 <? Py.max3 r g b - Py.min3 r g b))
  | BlueTuple => Py.Raise
  end.

Definition icon_sample (f : Frame) (x y : Z) (acc : Z * Z) : Py.result (Z * Z) :=
  if in_bounds f x y then
    rgb <-? unpack_rgb (getpixel f x y) ;;
    m <-? colorful rgb ;;
    Py.Ok ((if m then fst acc + 1 else fst acc), snd acc + 1)
  else Py.Ok acc.

(** The two binary64 products of the icon-band computation, truncated by
    [int]: [int(v * 0.3)] and [int(v * 0.7)].  The classifier is defined over
    any such pair, so that nothing proved about it depends on rounding. *)
Record Scaling : Type := {
  scale_03 : Z -> Z;
  scale_07 : Z -> Z
}.

(** Truncation of the exact products.  It agrees with binary64 at the
    default window size (1024 -> 307 and 716, 600 -> 420); binary64 is one
    less at a few sizes, for instance [int(90 * 0.7) = 62]. *)
Definition exact_scaling : Scaling :=
  {| scale_03 := fun v => Z.quot (v * 3) 10;
     scale_07 := fun v => Z.quot (v * 7) 10 |}.

(** ** The screen-state classifier (weston.py) *)

Inductive ScreenState : Type :=
| Empty | Loading | Loaded | Locked | Black | Unknown.

(** The strings the source returns. *)
Definition state_name (s : ScreenState) : string :=
  match s with
  | Empty => "empty" | Loading => "loading" | Loaded => "loaded"
  | Locked => "lock" | Black => "black" | Unknown => "unknown"
  end%string.

(** Check 1, skipped when the element is absent or empty ([if black_config:]). *)
Definition black_check (f : Frame) (cfg : WestonConfig) (w : Window)
  : Py.result bool :=
  match black_screen cfg with
  | Some det => black_rule f det w
  | None => Py.Ok false
  end.

(** Check 2, skipped when the element is absent or empty ([if unlock_config:]). *)
Definition lock_check (f : Frame) (cfg : WestonConfig) : Py.result bool :=
  match button_unlock cfg with
  | Some el =>
      lock_rule f (ue_detection el)
        (Py.get (pos_x (ue_position el)) 129)
        (Py.get (pos_y (ue_position el)) 104)
  | None => Py.Ok false
  end.

(** What the host reports during one call of the classifier. *)
Record Desktop : Type := {
  weston_running : bool;                         (* pgrep -x weston *)
  config_on_disk : WestonConfig;                 (* reload_config() *)
  xwininfo : Py.result (option Window);          (* geometry of the Weston line *)
  capture : Py.result (Z * option Frame);        (* returncode, decoded stdout *)
  waydroid_running : bool                        (* is_waydroid_running() *)
}.

(** [default_geom.get("x", 0)], ..., [default_geom.get("height", 600)] *)
Definition weston_default_window (cfg : WestonConfig) : Window :=
  let g := default_geometry cfg in
  Build_Window (Py.get (geo_x g) 0) (Py.get (geo_y g) 0)
               (Py.get (geo_width g) 1024) (Py.get (geo_height g) 600).

Section Classifier.

Variable fl : Scaling.

(** Icon-band samples: (colorful_count, icon_samples). *)
Definition icon_samples (f : Frame) (w : Window) : Py.result (Z * Z) :=
  let icon_area_y := win_y w + scale_07 fl (win_h w) in
  let icon_area_x_start := win_x w + scale_03 fl (win_w w) in
  let icon_area_x_end := win_x w + scale_07 fl (win_w w) in
  xs <-? Py.range icon_area_x_start icon_area_x_end 20 ;;
  Py.for_each xs
    (fun x acc =>
       dys <-? Py.range (-20) 21 10 ;;
       Py.for_each dys (fun dy acc' => icon_sample f x (icon_area_y + dy) acc') acc)
    (0, 0).

Definition loaded_rule (f : Frame) (w : Window) : Py.result bool :=
  c <-? icon_samples f w ;;
  Py.Ok ((0 <? snd c) && ratio_exceeds (fst c) (snd c) (1 # 10)).

(** Lines 392-495 of weston.py: classification of a decoded screenshot. *)
Definition classify (f : Frame) (cfg : WestonConfig) (w : Window)
  (session_running : bool) : Py.result ScreenState :=
  if negb session_running then Py.Ok Empty else
  black <-? black_check f cfg w ;;
  if black then Py.Ok Black else
  lock <-? lock_check f cfg ;;
  if lock then Py.Ok Locked else
  loaded <-? loaded_rule f w ;;
  Py.Ok (if loaded then Loaded else Loading).

Definition detect_body (d : Desktop) : Py.result ScreenState :=
  if negb (weston_running d) then Py.Ok Unknown else
  let cfg := config_on_disk d in
  found <-? xwininfo d ;;
  let w := Py.get found (weston_default_window cfg) in
  shot <-? capture d ;;
  if negb (fst shot =? 0) then Py.Ok Unknown else
  match snd shot with
  | None => Py.Raise                             (* Image.open fails *)
  | Some f => classify f cfg w (waydroid_running d)
  end.

Definition detect_weston_screen_state (d : Desktop) : ScreenState :=
  Py.try_except (detect_body d) Unknown.

End Classifier.

(** ** The configuration store (ui_config.py) *)

(** ui_rok_unit.json is loaded but none of its entries is read here. *)
Definition RokUnitConfig : Type := string.

(** [UIConfig._configs]: a dictionary with the keys "weston", "rok_button"
    and "rok_unit"; [None] is a key not (yet) present. *)
Record Configs : Type := {
  weston : option WestonConfig;
  rok_button : option RokButtonConfig;
  rok_unit : option RokUnitConfig
}.

Definition no_configs : Configs := Build_Configs None None None.

Definition get_weston_config (cs : Configs) : WestonConfig :=
  Py.get (weston cs) empty_weston_config.

Definition get_rok_button_config (cs : Configs) : RokButtonConfig :=
  Py.get (rok_button cs) empty_rok_button_config.

Definition get_weston_window_geometry (cs : Configs) : Window :=
  let g := default_geometry (get_weston_config cs) in
  Build_Window (Py.get (geo_x g) 5) (Py.get (geo_y g) 29)
               (Py.get (geo_width g) 1024) (Py.get (geo_height g) 600).

Definition get_unlock_button_position (cs : Configs) : Z * Z :=
  let pos := ue_position (Py.get (button_unlock (get_weston_config cs)) no_unlock_element) in
  (Py.get (pos_x pos) 129, Py.get (pos_y pos) 104).

Definition get_unlock_button_detection (cs : Configs) : UnlockDetection :=
  ue_detection (Py.get (button_unlock (get_weston_config cs)) no_unlock_element).

Definition get_black_screen_detection (cs : Configs) : BlackDetection :=
  Py.get (black_screen (get_weston_config cs)) no_black_detection.

Definition get_unlock_sequence (cs : Configs) : UnlockSequence :=
  unlock_sequence (get_weston_config cs).

Definition get_menu_button_position (cs : Configs) : Z * Z :=
  let pos := menu_position (get_rok_button_config cs) in
  (Py.get (pos_x pos) 990, Py.get (pos_y pos) 530).

Definition get_menu_button_detection (cs : Configs) : MenuDetection :=
  menu_detection (get_rok_button_config cs).

Definition get_tap_to_start_position (cs : Configs) : Z * Z :=
  let pos := tap_position (get_rok_button_config cs) in
  (Py.get (pos_x pos) 512, Py.get (pos_y pos) 284).

(** Outcome of [open(filepath)] followed by [json.load]. *)
Inductive File (A : Type) : Type :=
| Parsed (doc : A)
| NotFound                                       (* FileNotFoundError *)
| BadJson                                        (* json.JSONDecodeError *)
| Unreadable.                                    (* any other exception *)
Arguments Parsed {A} doc.
Arguments NotFound {A}.
Arguments BadJson {A}.
Arguments Unreadable {A}.

Record Disk : Type := {
  ui_weston_json : File WestonConfig;
  ui_rok_button_json : File RokButtonConfig;
  ui_rok_unit_json : File RokUnitConfig
}.

(** The value one iteration of [_load_all_configs] stores under its key: the
    document, [{}] for the two handled errors; other errors propagate. *)
Definition load_file {A} (f : File A) (empty : A) : Py.result A :=
  match f with
  | Parsed doc => Py.Ok doc
  | NotFound | BadJson => Py.Ok empty
  | Unreadable => Py.Raise
  end.

(** The keys of [config_files], in the order the loop visits them. *)
Inductive Key : Type := KWeston | KRokButton | KRokUnit.

Definition config_files : list (Key * string) :=
  [(KWeston, "ui_weston.json"); (KRokButton, "ui_rok_button.json");
   (KRokUnit, "ui_rok_unit.json")]%string.

(** One iteration of the loop: [self._configs[key] = ...]. *)
Definition load_config (d : Disk) (entry : Key * string) (s : Configs)
  : Py.result Configs :=
  match fst entry with
  | KWeston =>
      doc <-? load_file (ui_weston_json d) empty_weston_config ;;
      Py.Ok (Build_Configs (Some doc) (rok_button s) (rok_unit s))
  | KRokButton =>
      doc <-? load_file (ui_rok_button_json d) empty_rok_button_config ;;
      Py.Ok (Build_Configs (weston s) (Some doc) (rok_unit s))
  | KRokUnit =>
      doc <-? load_file (ui_rok_unit_json d) EmptyString ;;
      Py.Ok (Build_Configs (weston s) (rok_button s) (Some doc))
  end.

Definition _load_all_configs (d : Disk) (s : Configs) : Py.result Configs :=
  Py.for_each config_files (load_config d) s.

(** [reload()]: [self._configs = {}] followed by [_load_all_configs()]. *)
Definition reload (d : Disk) (old : Configs) : Py.result Configs :=
  _load_all_configs d no_configs.

(** The values [self._configs] takes after each iteration of the loop, up to
    the iteration that raises. *)
Fixpoint loading_states (d : Disk) (entries : list (Key * string)) (s : Configs)
  : list Configs :=
  match entries with
  | [] => []
  | e :: rest =>
      match load_config d e s with
      | Py.Ok s' => s' :: loading_states d rest s'
      | Py.Raise => []
      end
  end.

(** The successive values of [self._configs] while [reload()] runs, oldest
    first: the value before the call, the empty dictionary, then one value
    per store.  A reader of the shared [UIConfig] object that runs between
    two statements of [reload] reads one of them. *)
Definition reload_states (d : Disk) (old : Configs) : list Configs :=
  old :: no_configs :: loading_states d config_files no_configs.

(** ** The device, the clock and the log *)

(** Commands the controller dispatches, and the two checks it evaluates. *)
Inductive Action : Type :=
| X11Click (x y : Z)                             (* adb.x11_click(x, y) *)
| Tap (x y : Z)                                  (* adb.tap(x, y) *)
| StartApp (activity : option string)            (* adb.start_app *)
| StopApp                                        (* adb.stop_app *)
| StartScript                                    (* Popen(start-waydroid.sh) *)
| LockCheck                                      (* is_weston_locked() *)
| MainGameCheck.                                 (* is_in_main_game() *)

(** [now]: the clock in milliseconds.  [polls]: how many queries the device
    has answered.  [log]: what was done and when, newest first. *)
Record World : Type := {
  now : Z;
  polls : nat;
  log : list (Z * Action)
}.

(** What an X11 root-window inspection returns to [is_weston_locked]. *)
Record LockSnapshot : Type := {
  ls_xwininfo : Py.result (option Window);
  ls_capture : Py.result (Z * option Frame)
}.

(** The device as a script: the answer to the n-th query of a run. *)
Record Device : Type := {
  dev_pgrep_waydroid : nat -> Py.result bool;    (* returncode == 0 *)
  dev_script_exists : nat -> bool;
  dev_popen : nat -> Py.result unit;
  dev_waydroid_status : nat -> Py.result bool;   (* "RUNNING" in stdout *)
  dev_is_connected : nat -> bool;                (* adb.is_connected() *)
  dev_connect : nat -> bool;                     (* adb.connect() *)
  dev_lock_snapshot : nat -> LockSnapshot;
  dev_is_app_running : nat -> bool;              (* adb.is_app_running(pkg) *)
  dev_current_activity : nat -> option string;   (* adb.get_current_activity() *)
  dev_screenshot : nat -> option Frame           (* adb.screenshot() *)
}.

(** Computations that read the device, advance the clock and append to the
    log. *)
Definition M (A : Type) : Type := World -> A * World.

Definition ret {A} (a : A) : M A := fun w => (a, w).

Definition mbind {A B} (m : M A) (k : A -> M B) : M B :=
  fun w => let (a, w') := m w in k a w'.

Notation "x <- m ;; k" := (mbind m (fun x => k))
  (at level 100, m at next level, right associativity).
Notation "m ;;; k" := (mbind m (fun _ => k))
  (at level 100, right associativity).

(** [time.time()] *)
Definition clock : M Z := fun w => (now w, w).

(** [time.sleep(ms)] *)
Definition sleep (ms : Z) : M unit :=
  fun w => (tt, Build_World (now w + ms) (polls w) (log w)).

Definition emit (a : Action) : M unit :=
  fun w => (tt, Build_World (now w) (polls w) ((now w, a) :: log w)).

(** One query: the script's answer at the current index. *)
Definition query {A} (script : nat -> A) : M A :=
  fun w => (script (polls w), Build_World (now w) (S (polls w)) (log w)).

(** [for _ in range(n): body] *)
Fixpoint repeat_m (n : nat) (body : M unit) : M unit :=
  match n with
  | O => ret tt
  | S k => body ;;; repeat_m k body
  end.

(** ** GameController (rok_controller.py) *)

Definition PACKAGE_NAME : string := "com.lilithgames.rok.gpkr".
Definition TIMEOUT_APP_START : Z := 30.

(** [activity and PACKAGE_NAME in activity] *)
Definition focused (activity : option string) : bool :=
  match activity with
  | Some a => negb (String.eqb a EmptyString) && Py.contains PACKAGE_NAME a
  | None => false
  end.

(** The body of the [try] of [is_weston_locked] on one snapshot. *)
Definition weston_locked_body (cs : Configs) (snap : LockSnapshot)
  : Py.result bool :=
  let unlock_xy := get_unlock_button_position cs in
  let unlock_detection := get_unlock_button_detection cs in
  let black_detection := get_black_screen_detection cs in
  found <-? ls_xwininfo snap ;;
  let w := Py.get found (get_weston_window_geometry cs) in
  shot <-? ls_capture snap ;;
  if fst shot =? 0 then
    match snd shot with
    | None => Py.Raise                           (* Image.open fails *)
    | Some f =>
        black <-? black_rule f black_detection w ;;
        if black then Py.Ok true else
        lock <-? lock_rule f unlock_detection (fst unlock_xy) (snd unlock_xy) ;;
        if lock then Py.Ok true else Py.Ok false
    end
  else Py.Ok false.

Definition weston_locked_on (cs : Configs) (snap : LockSnapshot) : bool :=
  Py.try_except (weston_locked_body cs snap) false.

(** Menu-marker samples: (blue_count, total_samples). *)
Definition menu_samples (cs : Configs) (f : Frame) : Py.result (Z * Z) :=
  let menu_xy := get_menu_button_position cs in
  let det := get_menu_button_detection cs in
  let offsets := Py.get (md_offsets det) [-2; 0; 2] in
  sample_offsets f (md_color_range det) blue_fallback (fst menu_xy) (snd menu_xy)
    (Py.Ok offsets) (Py.Ok offsets).

(** Check 3 of [is_in_main_game] on the screenshot it obtained. *)
Definition menu_probe (cs : Configs) (shot : option Frame) : Py.result bool :=
  match shot with
  | Some f =>
      c <-? menu_samples cs f ;;
      Py.Ok ((0 <? snd c) && (Py.get (md_min_pixels (get_menu_button_detection cs)) 1 <=? fst c))
  | None => Py.Ok false
  end.

Section Controller.

Variable dev : Device.
Variable cs : Configs.

Definition x11_click (x y : Z) : M bool := emit (X11Click x y) ;;; ret true.
Definition tap (x y : Z) : M bool := emit (Tap x y) ;;; ret true.

(** [adb.start_app]: two shell commands around a two-second sleep; every
    exception is caught below it, so it returns [True]. *)
Definition start_app (activity : option string) : M bool :=
  emit (StartApp activity) ;;; sleep 2000 ;;; ret true.

Definition stop_app : M bool := emit StopApp ;;; ret true.

Definition check_game_running : M bool := query (dev_is_app_running dev).

Definition get_current_activity : M (option string) :=
  query (dev_current_activity dev).

Definition is_weston_locked : M bool :=
  emit LockCheck ;;;
  snap <- query (dev_lock_snapshot dev) ;;
  ret (weston_locked_on cs snap).

Definition is_in_main_game : M bool :=
  emit MainGameCheck ;;;
  running <- check_game_running ;;
  if negb running then ret false else
  activity <- get_current_activity ;;
  if negb (focused activity) then ret false else
  shot <- query (dev_screenshot dev) ;;
  ret (Py.try_except (menu_probe cs shot) false).

(** One step of the unlock sequence. *)
Definition run_step (s : Step) : M unit :=
  let w := get_weston_window_geometry cs in
  let unlock_xy := get_unlock_button_position cs in
  (if match action s with Some a => String.eqb a "click" | None => false end then
     if match target s with Some t => String.eqb t "center" | None => false end then
       x11_click (center_x w) (center_y w) ;;; ret tt
     else if match target s with Some t => String.eqb t "button_unlock" | None => false end then
       x11_click (fst unlock_xy) (snd unlock_xy) ;;; ret tt
     else ret tt
   else ret tt) ;;;
  let wait := Py.get (wait_after s) 0 in
  if 0 <? wait then sleep wait else ret tt.

Fixpoint run_steps (l : list Step) : M unit :=
  match l with
  | [] => ret tt
  | s :: rest => run_step s ;;; run_steps rest
  end.

(** The loop [for attempt in range(max_attempts)] with [n] iterations left;
    [true] is the early [return True] after a verification. *)
Fixpoint unlock_attempts (n : nat) : M bool :=
  match n with
  | O => ret false
  | S k =>
      run_steps (steps (get_unlock_sequence cs)) ;;;
      if Py.get (verify_after_each (get_unlock_sequence cs)) false then
        locked <- is_weston_locked ;;
        if negb locked then ret true else unlock_attempts k
      else unlock_attempts k
  end.

Definition _unlock_weston : M bool :=
  early <- unlock_attempts (Z.to_nat (Py.get (max_attempts (get_unlock_sequence cs)) 2)) ;;
  if early then ret true else
  locked <- is_weston_locked ;;
  ret (negb locked).

(** [tap_intervals], in milliseconds from [start_time]. *)
Definition tap_intervals : list Z :=
  [20000; 30000; 40000; 50000; 60000; 70000; 80000].

(** [for _ in range(n): if self.is_in_main_game(): return True; time.sleep(1)];
    [true] is the early return. *)
Fixpoint wait_checking (n : nat) : M bool :=
  match n with
  | O => ret false
  | S k =>
      found <- is_in_main_game ;;
      if found then ret true else sleep 1000 ;;; wait_checking k
  end.

(** The taps of one checkpoint: an X11 click, then three Android taps. *)
Definition tap_group : M unit :=
  let w := get_weston_window_geometry cs in
  let tap_xy := get_tap_to_start_position cs in
  x11_click (center_x w) (center_y w) ;;;
  sleep 300 ;;;
  repeat_m 3 (tap (fst tap_xy) (snd tap_xy) ;;; sleep 500).

(** [for target_time in tap_intervals: ...]; [true] is an early return. *)
Fixpoint tap_schedule (start_time : Z) (targets : list Z) : M bool :=
  match targets with
  | [] => ret false
  | target_time :: rest =>
      found <- is_in_main_game ;;
      if found then ret true else
      t <- clock ;;
      let elapsed := t - start_time in
      let wait_time := target_time - elapsed in
      found <- (if 0 <? wait_time then
                  found <- wait_checking (Z.to_nat (wait_time / 1000)) ;;
                  if found then ret true
                  else sleep (wait_time mod 1000) ;;; ret false
                else ret false) ;;
      if found then ret true else
      tap_group ;;; tap_schedule start_time rest
  end.

(** Lines 236-251: five X11 clicks, a pause, three Android taps. *)
Definition initial_burst : M unit :=
  repeat_m 5 (x11_click 517 329 ;;; sleep 500) ;;;
  sleep 2000 ;;;
  repeat_m 3 (tap 512 284 ;;; sleep 1000).

Definition _perform_startup_taps : M bool :=
  initial_burst ;;;
  start_time <- clock ;;
  found <- tap_schedule start_time tap_intervals ;;
  if found then ret true else is_in_main_game.

Definition is_waydroid_running : M bool :=
  r <- query (dev_pgrep_waydroid dev) ;;
  ret (Py.try_except r false).

(** The polling loop of [start_waydroid] with [n] iterations left. *)
Fixpoint await_waydroid (n : nat) : M (Py.result bool) :=
  match n with
  | O => ret (Py.Ok false)
  | S k =>
      sleep 1000 ;;;
      status <- query (dev_waydroid_status dev) ;;
      match status with
      | Py.Raise => ret Py.Raise
      | Py.Ok false => await_waydroid k
      | Py.Ok true =>
          sleep 5000 ;;;
          connected <- query (dev_is_connected dev) ;;
          if connected then ret (Py.Ok true) else
          connected' <- query (dev_connect dev) ;;
          if connected' then ret (Py.Ok true) else await_waydroid k
      end
  end.

Definition start_waydroid : M bool :=
  present <- query (dev_script_exists dev) ;;
  if negb present then ret false else
  started <- query (dev_popen dev) ;;
  match started with
  | Py.Raise => ret false
  | Py.Ok _ =>
      emit StartScript ;;;
      r <- await_waydroid 60 ;;
      ret (Py.try_except r false)
  end.

Definition ensure_waydroid_running : M bool :=
  running <- is_waydroid_running ;;
  if running then ret true else start_waydroid.

(** [while time.time() - start_time < timeout: ...], unrolled at most [fuel]
    times. *)
Fixpoint wait_for_game_ready_loop (fuel : nat) (start_time timeout : Z) : M bool :=
  match fuel with
  | O => ret false
  | S k =>
      t <- clock ;;
      if t - start_time <? timeout then
        running <- check_game_running ;;
        if negb running then sleep 2000 ;;; wait_for_game_ready_loop k start_time timeout
        else
          activity <- get_current_activity ;;
          if focused activity then ret true
          else sleep 2000 ;;; wait_for_game_ready_loop k start_time timeout
      else ret false
  end.

(** Every iteration that continues sleeps two seconds, so
    [timeout / 2 + 1] iterations exhaust a [timeout] of whole seconds. *)
Definition wait_for_game_ready (timeout : Z) : M bool :=
  start_time <- clock ;;
  wait_for_game_ready_loop (Z.to_nat (timeout / 2 + 1)) start_time (timeout * 1000).

Definition start_game (wait_for_ready auto_tap force_restart : bool) : M bool :=
  up <- ensure_waydroid_running ;;
  if negb up then ret false else
  locked <- is_weston_locked ;;
  (if locked then _unlock_weston else ret false) ;;;
  running <- check_game_running ;;
  if running && negb force_restart then
    activity <- get_current_activity ;;
    if focused activity then
      (if auto_tap then _perform_startup_taps else ret false) ;;;
      ret true
    else
      start_app (Some "com.harry.engine.MainActivity"%string) ;;;
      sleep 2000 ;;;
      (if auto_tap then _perform_startup_taps else ret false) ;;;
      ret true
  else
    stop_app ;;;
    sleep 2000 ;;;
    launched <- start_app None ;;
    if negb launched then ret false else
    if wait_for_ready then
      ready <- wait_for_game_ready TIMEOUT_APP_START ;;
      if negb ready then ret false else
      inside <- is_in_main_game ;;
      if inside then ret true else
      entered <- (if auto_tap then _perform_startup_taps else ret false) ;;
      if entered then ret true else
      (* final verification: for i in range(10) *)
      confirmed <- wait_checking 10 ;;
      if confirmed then ret true
      else ret true                              (* "Return True anyway" *)
    else ret true.

End Controller.

(** ** Vocabulary of the statements *)

(** The three detection rules of the classifier and the state each one
    reports when it matches. *)
Inductive Rule : Type := BlackRule | LockRule | IconRule.

Definition rule_state (r : Rule) : ScreenState :=
  match r with
  | BlackRule => Black
  | LockRule => Locked
  | IconRule => Loaded
  end.

(** The window the classifier samples in: the geometry xwininfo reported,
    else the configured default. *)
Definition sampled_window (d : Desktop) (found : option Window) : Window :=
  Py.get found (weston_default_window (config_on_disk d)).

(** (matched, total) of a rule on a frame; a rule that is skipped takes no
    sample. *)
Definition rule_samples (fl : Scaling) (f : Frame) (cfg : WestonConfig)
  (w : Window) (r : Rule) : Py.result (Z * Z) :=
  match r with
  | BlackRule =>
      match black_screen cfg with
      | Some det => black_samples f det w
      | None => Py.Ok (0, 0)
      end
  | LockRule =>
      match button_unlock cfg with
      | Some el =>
          lock_samples f (ue_detection el)
            (Py.get (pos_x (ue_position el)) 129)
            (Py.get (pos_y (ue_position el)) 104)
      | None => Py.Ok (0, 0)
      end
  | IconRule => icon_samples fl f w
  end.

(** A counter pair is sound when [0 <= matched <= total]. *)
Definition counters_ok (c : Z * Z) : Prop := 0 <= fst c <= snd c.

(** Concrete inputs used below. *)
Module Inputs.

Definition black_px : Pixel := Bands [0; 0; 0].
Definition white_px : Pixel := Bands [255; 255; 255].
Definition gray_px : Pixel := Bands [60; 60; 60].
Definition green_px : Pixel := Bands [135; 130; 130].

(** A black root window with a white column at x = 522: of the 25 default
    black-screen samples around (512, 300), the five with dx = 10 are white. *)
Definition frame_80 : Frame :=
  {| size := (1280, 800);
     getpixel := fun x _ => if x =? 522 then white_px else black_px |}.

(** A black root window (sleeping screen). *)
Definition frame_black : Frame :=
  {| size := (1280, 800); getpixel := fun _ _ => black_px |}.

(** A gray root window showing the green unlock button around (129, 104). *)
Definition frame_button : Frame :=
  {| size := (1280, 800);
     getpixel := fun x y =>
       if (127 <=? x) && (x <=? 131) && (102 <=? y) && (y <=? 106)
       then green_px else gray_px |}.

(** A grayscale (mode L) screenshot: [getpixel] returns integers. *)
Definition frame_mode_l : Frame :=
  {| size := (1280, 800); getpixel := fun _ _ => Scalar 0 |}.

(** A root window smaller than the default Weston window offset. *)
Definition frame_tiny : Frame :=
  {| size := (100, 100); getpixel := fun _ _ => black_px |}.

(** Both elements present, every entry left to its default. *)
Definition config_defaults : WestonConfig :=
  {| display := None; default_geometry := no_geometry;
     black_screen := Some no_black_detection;
     button_unlock := Some no_unlock_element;
     unlock_sequence := no_unlock_sequence |}.

(** The configuration [_load_config] falls back to: ["elements": {}]. *)
Definition config_fallback : WestonConfig :=
  {| display := Some ":10.0"%string;
     default_geometry := Build_Geometry (Some 0) (Some 0) (Some 1024) (Some 600);
     black_screen := None; button_unlock := None;
     unlock_sequence := no_unlock_sequence |}.

Definition desktop (cfg : WestonConfig) (f : Frame) (session : bool) : Desktop :=
  {| weston_running := true; config_on_disk := cfg;
     xwininfo := Py.Ok None; capture := Py.Ok (0, Some f);
     waydroid_running := session |}.

Definition gray_frame : Frame :=
  {| size := (1280, 800); getpixel := fun _ _ => gray_px |}.

(** An unlock sequence of two clicks, verified after each attempt. *)
Definition unlock_steps : UnlockSequence :=
  {| steps :=
       [ {| action := Some "click"; target := Some "center";
            wait_after := Some 500 |};
         {| action := Some "click"; target := Some "button_unlock";
            wait_after := Some 1000 |} ]%string;
     max_attempts := Some 2;
     verify_after_each := Some true |}.

Definition configs : Configs :=
  {| weston :=
       Some {| display := None; default_geometry := no_geometry;
               black_screen := Some no_black_detection;
               button_unlock := Some no_unlock_element;
               unlock_sequence := unlock_steps |};
     rok_button := Some empty_rok_button_config;
     rok_unit := Some EmptyString |}.

(** Waydroid is up, the desktop is unlocked (gray, no button), the game
    runs in the foreground, and its screen never shows the menu marker. *)
Definition device_no_menu : Device :=
  {| dev_pgrep_waydroid := fun _ => Py.Ok true;
     dev_script_exists := fun _ => true;
     dev_popen := fun _ => Py.Ok tt;
     dev_waydroid_status := fun _ => Py.Ok true;
     dev_is_connected := fun _ => true;
     dev_connect := fun _ => true;
     dev_lock_snapshot := fun _ =>
       Build_LockSnapshot (Py.Ok None) (Py.Ok (0, Some gray_frame));
     dev_is_app_running := fun _ => true;
     dev_current_activity := fun _ =>
       Some "com.lilithgames.rok.gpkr/com.harry.engine.MainActivity"%string;
     dev_screenshot := fun _ => Some gray_frame |}.

(** A game screen with the blue menu button around (990, 530). *)
Definition frame_menu : Frame :=
  {| size := (1024, 568);
     getpixel := fun x y =>
       if (985 <=? x) && (x <=? 995) && (525 <=? y) && (y <=? 535)
       then Bands [30; 100; 140; 255] else Bands [60; 60; 60; 255] |}.

(** The same device once the main screen is up. *)
Definition device_in_game : Device :=
  {| dev_pgrep_waydroid := fun _ => Py.Ok true;
     dev_script_exists := fun _ => true;
     dev_popen := fun _ => Py.Ok tt;
     dev_waydroid_status := fun _ => Py.Ok true;
     dev_is_connected := fun _ => true;
     dev_connect := fun _ => true;
     dev_lock_snapshot := fun _ =>
       Build_LockSnapshot (Py.Ok None) (Py.Ok (0, Some gray_frame));
     dev_is_app_running := fun _ => true;
     dev_current_activity := fun _ =>
       Some "com.lilithgames.rok.gpkr/com.harry.engine.MainActivity"%string;
     dev_screenshot := fun _ => Some frame_menu |}.

(** The same device behind a desktop that stays locked (black screen). *)
Definition device_locked : Device :=
  {| dev_pgrep_waydroid := fun _ => Py.Ok true;
     dev_script_exists := fun _ => true;
     dev_popen := fun _ => Py.Ok tt;
     dev_waydroid_status := fun _ => Py.Ok true;
     dev_is_connected := fun _ => true;
     dev_connect := fun _ => true;
     dev_lock_snapshot := fun _ =>
       Build_LockSnapshot (Py.Ok None) (Py.Ok (0, Some frame_black));
     dev_is_app_running := fun _ => true;
     dev_current_activity := fun _ => None;
     dev_screenshot := fun _ => None |}.

(** Three well-formed documents on disk. *)
Definition disk : Disk :=
  {| ui_weston_json := Parsed config_defaults;
     ui_rok_button_json := Parsed empty_rok_button_config;
     ui_rok_unit_json := Parsed EmptyString |}.

(** The same disk with a button file that cannot be read (neither missing
    nor malformed JSON: a permission or decoding error). *)
Definition disk_unreadable : Disk :=
  {| ui_weston_json := Parsed config_defaults;
     ui_rok_button_json := Unreadable;
     ui_rok_unit_json := Parsed EmptyString |}.

Definition world0 : World := {| now := 0; polls := 0; log := [] |}.

(** A device on which nothing runs and every capture exits with status 1. *)
Definition device_capture_fails : Device :=
  {| dev_pgrep_waydroid := fun _ => Py.Ok false;
     dev_script_exists := fun _ => false;
     dev_popen := fun _ => Py.Ok tt;
     dev_waydroid_status := fun _ => Py.Ok false;
     dev_is_connected := fun _ => false;
     dev_connect := fun _ => false;
     dev_lock_snapshot := fun _ => Build_LockSnapshot (Py.Ok None) (Py.Ok (1, None));
     dev_is_app_running := fun _ => false;
     dev_current_activity := fun _ => None;
     dev_screenshot := fun _ => None |}.

End Inputs.

(** ** The startup tap sequence as a timetable *)

(** What a run appended to the log, oldest first. *)
Definition appended (w w' : World) (new : list (Z * Action)) : Prop :=
  log w' = rev new ++ log w.

Definition prefix_of {A} (l full : list A) : Prop :=
  exists rest, full = l ++ rest.

(** Move a timetable to an origin. *)
Definition shift (origin : Z) (e : Z * Action) : Z * Action :=
  (origin + fst e, snd e).

(** [n] main-game checks one second apart, the first at [t]. *)
Fixpoint check_log (t : Z) (n : nat) : list (Z * Action) :=
  match n with
  | O => []
  | S k => (t, MainGameCheck) :: check_log (t + 1000) k
  end.

(** The four dispatches of a checkpoint reached at [t]. *)
Definition group_log (cs : Configs) (t : Z) : list (Z * Action) :=
  let w := get_weston_window_geometry cs in
  let tap_xy := get_tap_to_start_position cs in
  [(t, X11Click (center_x w) (center_y w));
   (t + 300, Tap (fst tap_xy) (snd tap_xy));
   (t + 800, Tap (fst tap_xy) (snd tap_xy));
   (t + 1300, Tap (fst tap_xy) (snd tap_xy))].

(** The checkpoint loop when no check succeeds, entered [e] milliseconds
    after [start_time]: its log, in milliseconds from [start_time], and the
    time at which it ends. *)
Fixpoint schedule_log (cs : Configs) (e : Z) (targets : list Z)
  : list (Z * Action) * Z :=
  match targets with
  | [] => ([], e)
  | target_time :: rest =>
      let wait_time := target_time - e in
      let reached := if 0 <? wait_time then target_time else e in
      let later := schedule_log cs (reached + 1800) rest in
      ((e, MainGameCheck)
         :: (if 0 <? wait_time
             then check_log e (Z.to_nat (wait_time / 1000)) else [])
         ++ group_log cs reached ++ fst later,
       snd later)
  end.

(** The initial burst, in milliseconds from the call. *)
Definition burst_log : list (Z * Action) :=
  [(0, X11Click 517 329); (500, X11Click 517 329); (1000, X11Click 517 329);
   (1500, X11Click 517 329); (2000, X11Click 517 329);
   (4500, Tap 512 284); (5500, Tap 512 284); (6500, Tap 512 284)].

(** [start_time] is read when the burst is over. *)
Definition burst_duration : Z := 7500.

(** The whole sequence when no check succeeds, in milliseconds from the
    call: burst, checkpoint loop, final check. *)
Definition startup_log (cs : Configs) : list (Z * Action) :=
  burst_log
  ++ map (shift burst_duration) (fst (schedule_log cs 0 tap_intervals))
  ++ [(burst_duration + snd (schedule_log cs 0 tap_intervals), MainGameCheck)].

Definition is_dispatch (a : Action) : bool :=
  match a with
  | X11Click _ _ | Tap _ _ => true
  | _ => false
  end.

Definition is_main_check (a : Action) : bool :=
  match a with
  | MainGameCheck => true
  | _ => false
  end.

(** Offsets of the dispatches of one checkpoint. *)
Definition group_offsets : list Z := [0; 300; 800; 1300].

(** When, from [start_time], a click or tap may be dispatched. *)
Definition dispatch_times : list Z :=
  flat_map (fun c => map (Z.add c) group_offsets) tap_intervals.

(** When, from [start_time], the main-game check is evaluated if it never
    succeeds: on entering each iteration (at 0, then 1.8 s after each
    checkpoint), once per whole second of the wait that follows, and once
    after the last checkpoint. *)
Definition check_times : list Z :=
  flat_map
    (fun it : Z * Z =>
       let (entered, target_time) := it in
       entered
         :: map (fun k => entered + 1000 * Z.of_nat k)
                (seq 0 (Z.to_nat ((target_time - entered) / 1000))))
    (combine (0 :: map (Z.add 1800) tap_intervals) tap_intervals)
  ++ [81800].

(** The device never lets the main-game check succeed. *)
Definition never_in_main_game (dev : Device) (cs : Configs) : Prop :=
  forall w, fst (is_in_main_game dev cs w) = false.

(** C7 as stated, for one run from [w]: every click or tap after the burst
    is dispatched at a checkpoint, and the sequence ends no later than the
    last checkpoint, 80 s after [start_time]. *)
Definition within_checkpoint_schedule (dev : Device) (cs : Configs)
  (w : World) : Prop :=
  let w' := snd (_perform_startup_taps dev cs w) in
  let start_time := now w + burst_duration in
  (forall t a, In (t, a) (log w') -> is_dispatch a = true ->
               start_time <= t -> In (t - start_time) tap_intervals)
  /\ now w' - start_time <= 80000.

(** How often [_unlock_weston] replays the steps when its first lock check
    reports an unlocked desktop: once if it verifies after each attempt (and
    is allowed an attempt), [max_attempts] times otherwise. *)
Definition replays (cs : Configs) : nat :=
  let n := Z.to_nat (Py.get (max_attempts (get_unlock_sequence cs)) 2) in
  if Py.get (verify_after_each (get_unlock_sequence cs)) false
  then Nat.min 1 n else n.

(** C4 as stated, for one call from [w]: the desktop is reported unlocked,
    so the call succeeds and dispatches no click. *)
Definition unlock_is_noop (dev : Device) (cs : Configs) (w : World) : Prop :=
  weston_locked_on cs (dev_lock_snapshot dev (polls w)) = false ->
  fst (_unlock_weston dev cs w) = true
  /\ forall t a, In (t, a) (log (snd (_unlock_weston dev cs w))) ->
                 In (t, a) (log w) \/ is_dispatch a = false.

(** What the classifier is shown when it looks at the snapshot of a lock
    check: the same configuration document, the same window line and the
    same capture, with the compositor and the session up. *)
Definition desktop_of (cs : Configs) (snap : LockSnapshot) : Desktop :=
  {| weston_running := true; config_on_disk := get_weston_config cs;
     xwininfo := ls_xwininfo snap; capture := ls_capture snap;
     waydroid_running := true |}.

(** C6 as stated, for one call from [w]: when the attempts end without an
    early success, the call succeeds if and only if the classifier does not
    answer [Locked] on what the final check looked at. *)
Definition final_state_decides (fl : Scaling) (dev : Device) (cs : Configs)
  (w : World) : Prop :=
  let n := Z.to_nat (Py.get (max_attempts (get_unlock_sequence cs)) 2) in
  let w1 := snd (unlock_attempts dev cs n w) in
  fst (unlock_attempts dev cs n w) = false ->
  (fst (_unlock_weston dev cs w) = true <->
   detect_weston_screen_state fl
     (desktop_of cs (dev_lock_snapshot dev (polls w1))) <> Locked).

(** ** The path of [start_game] to its wait *)

(** The world in which [start_game] asks whether the game is already
    running: Waydroid is up and the lock has been dealt with. *)
Definition prepared (dev : Device) (cs : Configs) (w : World) : World :=
  snd ((ensure_waydroid_running dev ;;;
        locked <- is_weston_locked dev cs ;;
        if locked then _unlock_weston dev cs else ret false) w).

(** [self.check_game_running() and not force_restart] in that world. *)
Definition resumes (dev : Device) (cs : Configs) (force_restart : bool)
  (w : World) : bool :=
  fst (check_game_running dev (prepared dev cs w)) && negb force_restart.

(** The world in which [start_game] calls [wait_for_game_ready]: after the
    force-stop, the two-second pause and the launch. *)
Definition relaunched (dev : Device) (cs : Configs) (w : World) : World :=
  snd ((check_game_running dev ;;;
        stop_app ;;;
        sleep 2000 ;;;
        start_app None) (prepared dev cs w)).

(** ** Reloading as seen by a reader *)

(** C9 as stated: whatever a reader finds in [self._configs] during a reload
    is the configuration before the call or the one the reload installs. *)
Definition atomic_reload (d : Disk) (old : Configs) : Prop :=
  forall s, In s (reload_states d old) -> s = old \/ reload d old = Py.Ok s.

(** A section is missing, or it is the document just read from its file. *)
Definition fresh_or_missing {A} (f : File A) (empty : A) (section : option A)
  : Prop :=
  match section with
  | None => True
  | Some doc => load_file f empty = Py.Ok doc
  end.

Definition partially_loaded (d : Disk) (s : Configs) : Prop :=
  fresh_or_missing (ui_weston_json d) empty_weston_config (weston s)
  /\ fresh_or_missing (ui_rok_button_json d) empty_rok_button_config (rok_button s)
  /\ fresh_or_missing (ui_rok_unit_json d) EmptyString (rok_unit s).

Definition complete (s : Configs) : Prop :=
  weston s <> None /\ rok_button s <> None /\ rok_unit s <> None.

(** ** The sampler in the words of the specification *)

(** The absolute coordinates of a region around an anchor. *)
Definition region_points (ax ay : Z) (dxs dys : list Z) : list (Z * Z) :=
  flat_map (fun dx => map (fun dy => (ax + dx, ay + dy)) dys) dxs.

(** A sample matches iff its three channels fall within the intervals. *)
Definition channels_within (cr : ColorRange) (fb : Fallback) (p : Pixel) : bool :=
  match p with
  | Bands (r :: g :: b :: _) =>
      within (cr_r cr) (fb_r_min fb) (fb_r_max fb) r
      && within (cr_g cr) (fb_g_min fb) (fb_g_max fb) g
      && within (cr_b cr) (fb_b_min fb) (fb_b_max fb) b
  | _ => false
  end.

Definition inside (f : Frame) (p : Z * Z) : bool := in_bounds f (fst p) (snd p).

Definition matches (f : Frame) (cr : ColorRange) (fb : Fallback) (p : Z * Z)
  : bool :=
  channels_within cr fb (getpixel f (fst p) (snd p)).

(** [match_ratio(frame, anchor, region, color_range) -> (matched, total)]:
    samples outside the frame are skipped, and only samples whose three
    channels are in range are counted as matched. *)
Definition match_ratio (f : Frame) (cr : ColorRange) (fb : Fallback)
  (ax ay : Z) (dxs dys : list Z) : Z * Z :=
  let sampled := filter (inside f) (region_points ax ay dxs dys) in
  (Z.of_nat (List.length (filter (matches f cr fb) sampled)),
   Z.of_nat (List.length sampled)).

(** Every pixel of the frame has at least three bands (RGB or RGBA). *)
Definition three_bands (f : Frame) : Prop :=
  forall x y, exists r g b rest, getpixel f x y = Bands (r :: g :: b :: rest).

(** * The rest of the code *)

(** ** Captures without colour bands *)

(** A single-band capture (PNG modes 1, L and P): [getpixel] returns an
    integer at every point. *)
Definition single_band (f : Frame) : Prop :=
  forall x y, exists v, getpixel f x y = Scalar v.

(** More concrete inputs. *)
Module Cases.

(** A device whose X11 and Android captures are both grayscale. *)
Definition device_grayscale : Device :=
  {| dev_pgrep_waydroid := fun _ => Py.Ok true;
     dev_script_exists := fun _ => true;
     dev_popen := fun _ => Py.Ok tt;
     dev_waydroid_status := fun _ => Py.Ok true;
     dev_is_connected := fun _ => true;
     dev_connect := fun _ => true;
     dev_lock_snapshot := fun _ =>
       Build_LockSnapshot (Py.Ok None) (Py.Ok (0, Some Inputs.frame_mode_l));
     dev_is_app_running := fun _ => true;
     dev_current_activity := fun _ =>
       Some "com.lilithgames.rok.gpkr/com.harry.engine.MainActivity"%string;
     dev_screenshot := fun _ => Some Inputs.frame_mode_l |}.

(** The Weston window where xwininfo usually finds it. *)
Definition window : Window := {| win_x := 5; win_y := 29; win_w := 1024; win_h := 600 |}.

Definition snapshot (f : Frame) : LockSnapshot :=
  {| ls_xwininfo := Py.Ok (Some window); ls_capture := Py.Ok (0, Some f) |}.

Definition desktop (f : Frame) : Desktop :=
  {| weston_running := true; config_on_disk := Inputs.config_defaults;
     xwininfo := Py.Ok (Some window); capture := Py.Ok (0, Some f);
     waydroid_running := true |}.

Definition configs : Configs :=
  {| weston := Some Inputs.config_defaults;
     rok_button := None; rok_unit := None |}.

(** Waydroid is down; the start script brings the session up by the fifth
    query, and ADB connects on the explicit [connect]. *)
Definition device_starting : Device :=
  {| dev_pgrep_waydroid := fun _ => Py.Ok false;
     dev_script_exists := fun _ => true;
     dev_popen := fun _ => Py.Ok tt;
     dev_waydroid_status := fun n => Py.Ok (5 <=? n)%nat;
     dev_is_connected := fun _ => false;
     dev_connect := fun _ => true;
     dev_lock_snapshot := fun _ =>
       Build_LockSnapshot (Py.Ok None) (Py.Ok (0, Some Inputs.gray_frame));
     dev_is_app_running := fun _ => false;
     dev_current_activity := fun _ => None;
     dev_screenshot := fun _ => None |}.

(** A database directory without [ui_weston.json], with a damaged
    [ui_rok_button.json]. *)
Definition disk_empty : Disk :=
  {| ui_weston_json := NotFound; ui_rok_button_json := BadJson;
     ui_rok_unit_json := NotFound |}.

End Cases.

(** ** Colour comparison (rok_controller.py, ui_detector.py) *)

(** [is_color_in_range(color, target_color, tolerance)].  A colour is a
    tuple or [None]; [None] and the empty tuple are false under [not].
    [zip] stops at the shorter tuple. *)
Definition is_color_in_range (color target_color : option (list Z))
  (tolerance : Z) : bool :=
  match color, target_color with
  | Some (c :: cs), Some (t :: ts) =>
      forallb (fun ct => Z.abs (fst ct - snd ct) <=? tolerance)
              (combine (c :: cs) (t :: ts))
  | _, _ => false
  end.

(** ** What a run may append to the log *)

(** [w'] extends the log of [w] by entries whose action satisfies [P]. *)
Definition logged (P : Action -> Prop) (w w' : World) : Prop :=
  exists new, log w' = new ++ log w /\ Forall (fun e => P (snd e)) new.

(** The actions of the unlock sequencer: a click on the centre of the
    configured window, a click on the unlock button, a lock check. *)
Definition unlock_action (cs : Configs) (a : Action) : Prop :=
  a = X11Click (center_x (get_weston_window_geometry cs))
               (center_y (get_weston_window_geometry cs))
  \/ a = X11Click (fst (get_unlock_button_position cs))
                  (snd (get_unlock_button_position cs))
  \/ a = LockCheck.


(** [RoKUIDetector.get_pixel_color(x, y)] on the screenshot it obtained:
    [None] outside the capture and on every exception ([pixel[0]] on an
    integer, [pixel[1]] on a one-band tuple). *)
Definition get_pixel_color (shot : option Frame) (x y : Z) : option (list Z) :=
  match shot with
  | Some f =>
      if in_bounds f x y then
        match getpixel f x y with
        | Scalar _ => None
        | Bands (p0 :: p1 :: rest) =>
            Some [p0; p1; match rest with p2 :: _ => p2 | [] => 0 end]
        | Bands _ => None
        end
      else None
  | None => None
  end.

(** Every run of [m] appends only actions that satisfy [P]. *)
Definition appends_only {A} (P : Action -> Prop) (m : M A) : Prop :=
  forall w, logged P w (snd (m w)).

Definition is_tap (a : Action) : bool :=
  match a with
  | Tap _ _ => true
  | _ => false
  end.

(** An action other than an Android tap. *)
Definition untapped (a : Action) : Prop := is_tap a = false.

(** ** RoKActions (actions.py) *)

Module RoKActions.

Section Actions.

Variable dev : Device.
Variable cs : Configs.

(** Lines 47-66 of [perform_startup_taps]: the burst of the controller's
    [_perform_startup_taps], at the positions of the configuration. *)
Definition initial_burst : M unit :=
  let w := get_weston_window_geometry cs in
  let tap_xy := get_tap_to_start_position cs in
  repeat_m 5 (x11_click (center_x w) (center_y w) ;;; sleep 500) ;;;
  sleep 2000 ;;;
  repeat_m 3 (tap (fst tap_xy) (snd tap_xy) ;;; sleep 1000).

(** The checkpoint loop and the final check are those of the controller:
    [ui_detector.is_in_main_game] is the controller's [is_in_main_game]
    line for line, and the tap group reads the same two positions. *)
Definition perform_startup_taps : M bool :=
  initial_burst ;;;
  start_time <- clock ;;
  found <- tap_schedule dev cs start_time tap_intervals ;;
  if found then ret true else is_in_main_game dev cs.

End Actions.

End RoKActions.

(** The burst of [RoKActions.perform_startup_taps], in milliseconds from the
    call. *)
Definition config_burst_log (cs : Configs) : list (Z * Action) :=
  let w := get_weston_window_geometry cs in
  let tap_xy := get_tap_to_start_position cs in
  let click := X11Click (center_x w) (center_y w) in
  let touch := Tap (fst tap_xy) (snd tap_xy) in
  [(0, click); (500, click); (1000, click); (1500, click); (2000, click);
   (4500, touch); (5500, touch); (6500, touch)].

(** The two errors [_load_all_configs] handles. *)
Definition handled {A} (f : File A) : Prop := f = NotFound \/ f = BadJson.

(** ** SimpleADBController: what it makes of the shell's text (adb_simple.py) *)

(** Python's [str] methods on ASCII text, which is what [adb] prints and
    what the callers pass. *)
Module Str.

Import Ascii.

(** [c.isspace()]: tab to carriage return, the four separators 28-31, and
    the space. *)
Definition is_space (c : ascii) : bool :=
  let n := nat_of_ascii c in
  ((9 <=? n) && (n <=? 13) || (28 <=? n) && (n <=? 32))%nat.

Fixpoint all_chars (p : ascii -> bool) (s : string) : bool :=
  match s with
  | EmptyString => true
  | String c rest => p c && all_chars p rest
  end.

Fixpoint lstrip (s : string) : string :=
  match s with
  | EmptyString => EmptyString
  | String c rest => if is_space c then lstrip rest else s
  end.

(** [s.rstrip()], and [s.rstrip(ch)] for one character, by the same
    recursion: a character goes when it is to be dropped and nothing is left
    after it. *)
Fixpoint rstrip_by (drop : ascii -> bool) (s : string) : string :=
  match s with
  | EmptyString => EmptyString
  | String c rest =>
      match rstrip_by drop rest with
      | EmptyString => if drop c then EmptyString else String c EmptyString
      | kept => String c kept
      end
  end.

Definition rstrip : string -> string := rstrip_by is_space.

(** [s.strip()] *)
Definition strip (s : string) : string := rstrip (lstrip s).

(** [s.split(sep)] for a one-character separator: never an empty list. *)
Fixpoint split (sep : ascii) (s : string) : list string :=
  match s with
  | EmptyString => [EmptyString]
  | String c rest =>
      if Ascii.eqb c sep then EmptyString :: split sep rest
      else match split sep rest with
           | field :: fields => String c field :: fields
           | [] => [String c EmptyString]
           end
  end.

Definition upper_char (c : ascii) : ascii :=
  let n := nat_of_ascii c in
  if ((97 <=? n) && (n <=? 122))%nat then ascii_of_nat (n - 32) else c.

(** [s.upper()] *)
Fixpoint upper (s : string) : string :=
  match s with
  | EmptyString => EmptyString
  | String c rest => String (upper_char c) (upper rest)
  end.

Definition lower_char (c : ascii) : ascii :=
  let n := nat_of_ascii c in
  if ((65 <=? n) && (n <=? 90))%nat then ascii_of_nat (n + 32) else c.

(** [s.lower()] *)
Fixpoint lower (s : string) : string :=
  match s with
  | EmptyString => EmptyString
  | String c rest => String (lower_char c) (lower rest)
  end.

(** [s.replace(old, new)] for a one-character [old]. *)
Fixpoint replace (old : ascii) (new : string) (s : string) : string :=
  match s with
  | EmptyString => EmptyString
  | String c rest =>
      if Ascii.eqb c old then new ++ replace old new rest
      else String c (replace old new rest)
  end.

(** Every ampersand directly follows a backslash; [escaped] tells whether
    the character before the text was one. *)
Fixpoint ampersands_escaped (escaped : bool) (s : string) : bool :=
  match s with
  | EmptyString => true
  | String c rest =>
      (negb (Ascii.eqb c "&") || escaped)
      && ampersands_escaped (Ascii.eqb c "\") rest
  end.

Definition is_digit (c : ascii) : bool :=
  let n := nat_of_ascii c in ((48 <=? n) && (n <=? 57))%nat.

(** A character of a component name: no whitespace, no closing brace. *)
Definition plain (c : ascii) : bool :=
  negb (is_space c) && negb (Ascii.eqb "}" c).

Definition space : ascii := " ".
Definition ampersand : ascii := "&".

(** The text has no space. *)
Definition no_space (s : string) : bool :=
  all_chars (fun c => negb (Ascii.eqb c space)) s.

(** The line feed that ends a line of output. *)
Definition newline : string := String (ascii_of_nat 10) EmptyString.

End Str.

Module SimpleADBController.

Import Ascii.

(** [get_current_activity] on the text [shell] returned for
    [dumpsys window | grep mCurrentFocus]. *)
Definition get_current_activity (result : string) : option string :=
  if negb (String.eqb result EmptyString) && Py.contains "Window{" result then
    Some (Str.rstrip_by (Ascii.eqb "}")
            (Str.strip (last (Str.split " " result) EmptyString)))
  else None.

(** [is_app_running] on the text [shell] returned for [pidof]:
    [bool(result and result.strip())]. *)
Definition is_app_running (result : string) : bool :=
  negb (String.eqb result EmptyString)
  && negb (String.eqb (Str.strip result) EmptyString).

Definition keycodes : list (string * string) :=
  [("BACK", "4"); ("HOME", "3"); ("MENU", "82"); ("POWER", "26");
   ("ENTER", "66")]%string.

(** [d.get(key, default)] on a dictionary with string keys. *)
Fixpoint dict_get (d : list (string * string)) (key default : string) : string :=
  match d with
  | [] => default
  | (k, v) :: rest => if String.eqb k key then v else dict_get rest key default
  end.

(** The key [press_key(keycode)] sends with [input keyevent]. *)
Definition press_key (keycode : string) : string :=
  dict_get keycodes (Str.upper keycode) keycode.

(** The text [input_text(text)] puts between the quotes of [input text]. *)
Definition input_text (text : string) : string :=
  Str.replace "&" "\&" (Str.replace " " "%s" text).

End SimpleADBController.

(** ** The host side: WestonController (weston.py) and the server (main.py) *)

(** Commands of the host besides the controller's [Action]s. *)
Inductive Command : Type :=
| Pkill (force : bool)          (* pkill -x weston, pkill -9 -x weston *)
| KeyEvent (code : Z).          (* adb shell input keyevent <code> *)

(** What the host answers, as scripts indexed by the number of answers
    given so far. *)
Record Host : Type := {
  (* is_weston_running(): pgrep -x weston returned 0; False on an exception *)
  host_weston_running : nat -> bool;
  (* subprocess.run of a command returns, or raises (TimeoutExpired) *)
  host_run : nat -> Py.result unit;
  (* stdout of dumpsys window | grep mCurrentFocus, or an exception *)
  host_focus : nat -> Py.result string
}.

(** The controller's world beside the host's own counters; the clock is the
    world's. *)
Record Session : Type := {
  world : World;
  host_polls : nat;
  host_log : list (Z * Command)          (* newest first *)
}.

Definition HM (A : Type) : Type := Session -> A * Session.

Definition hret {A} (a : A) : HM A := fun s => (a, s).

Definition hbind {A B} (m : HM A) (k : A -> HM B) : HM B :=
  fun s => let (a, s') := m s in k a s'.

Notation "x <~ m ;; k" := (hbind m (fun x => k))
  (at level 100, m at next level, right associativity).
Notation "m ;;~ k" := (hbind m (fun _ => k))
  (at level 100, right associativity).

(** A step of the game controller, or a sleep, inside a session. *)
Definition lift {A} (m : M A) : HM A :=
  fun s => let (a, w') := m (world s) in
           (a, Build_Session w' (host_polls s) (host_log s)).

Definition host_query {A} (script : nat -> A) : HM A :=
  fun s => (script (host_polls s),
            Build_Session (world s) (S (host_polls s)) (host_log s)).

Definition dispatch (c : Command) : HM unit :=
  fun s => (tt, Build_Session (world s) (host_polls s)
                  ((now (world s), c) :: host_log s)).

Module WestonController.

Section Weston.

Variable host : Host.

Definition is_weston_running : HM bool :=
  host_query (host_weston_running host).

(** [for i in range(10): time.sleep(0.5); if not self.is_weston_running():
    return True], with [n] iterations left. *)
Fixpoint await_weston_stopped (n : nat) : HM bool :=
  match n with
  | O => hret false
  | S k =>
      lift (sleep 500) ;;~
      running <~ is_weston_running ;;
      if negb running then hret true else await_weston_stopped k
  end.

Definition stop_weston : HM bool :=
  running <~ is_weston_running ;;
  if negb running then hret true else
  dispatch (Pkill false) ;;~
  killed <~ host_query (host_run host) ;;
  match killed with
  | Py.Raise => hret false
  | Py.Ok _ =>
      stopped <~ await_weston_stopped 10 ;;
      if stopped then hret true else
      dispatch (Pkill true) ;;~
      forced <~ host_query (host_run host) ;;
      match forced with
      | Py.Raise => hret false
      | Py.Ok _ =>
          lift (sleep 1000) ;;~
          running' <~ is_weston_running ;;
          hret (negb running')
      end
  end.

Definition notification_indicators : list string :=
  ["statusbar"; "notificationshade"; "systemui"; "panelview"]%string.

(** The loop over the indicators on the focus line. *)
Definition panel_in_focus (stdout : string) : bool :=
  existsb (fun indicator => Py.contains indicator (Str.lower stdout))
          notification_indicators.

Definition is_notification_panel_shown : HM bool :=
  focus <~ host_query (host_focus host) ;;
  hret (match focus with
        | Py.Ok stdout => panel_in_focus stdout
        | Py.Raise => false
        end).

Definition close_notification_panel : HM bool :=
  dispatch (KeyEvent 4) ;;~
  pressed <~ host_query (host_run host) ;;
  match pressed with
  | Py.Raise => hret false
  | Py.Ok _ =>
      lift (sleep 1000) ;;~
      shown <~ is_notification_panel_shown ;;
      hret (negb shown)
  end.

End Weston.

End WestonController.

(** The end of the [/api/rok/start] endpoint (main.py, lines 257-283). *)
Module Server.

Section Monitor.

Variable dev : Device.
Variable cs : Configs.
Variable host : Host.

(** The body of [if weston_controller.is_notification_panel_shown():]. *)
Definition close_panel_twice : HM unit :=
  WestonController.close_notification_panel host ;;~
  lift (sleep 2000) ;;~
  still <~ WestonController.is_notification_panel_shown host ;;
  if negb still then hret tt
  else WestonController.close_notification_panel host ;;~
       lift (sleep 2000).

(** [for check_count in range(18): ...] with [n] checks left; the [break]
    ends the loop. *)
Fixpoint panel_checks (n : nat) : HM unit :=
  match n with
  | O => hret tt
  | S k =>
      shown <~ WestonController.is_notification_panel_shown host ;;
      (if shown then close_panel_twice else hret tt) ;;~
      inside <~ lift (is_in_main_game dev cs) ;;
      if inside then hret tt
      else lift (sleep 5000) ;;~ panel_checks k
  end.

Definition monitor_notification_panel : HM unit :=
  lift (sleep 10000) ;;~ panel_checks 18.

End Monitor.

End Server.

(** A run from [s] to [s'] that takes at most [dt] milliseconds, presses
    BACK at most [k] times and dispatches nothing else on the host, and
    evaluates the main-game check at most [c] times and dispatches nothing
    else on the device. *)
Definition bounded_run (dt : Z) (k c : nat) (s s' : Session) : Prop :=
  now (world s) <= now (world s') <= now (world s) + dt
  /\ (exists presses,
        host_log s' = presses ++ host_log s
        /\ (List.length presses <= k)%nat
        /\ Forall (fun e => snd e = KeyEvent 4) presses)
  /\ (exists checks,
        log (world s') = checks ++ log (world s)
        /\ (List.length checks <= c)%nat
        /\ Forall (fun e => snd e = MainGameCheck) checks).

(** Concrete hosts and a session to start from. *)
Module Hosts.

(** Weston is gone at the first check and no panel is ever in focus. *)
Definition host_idle : Host :=
  {| host_weston_running := fun _ => false;
     host_run := fun _ => Py.Ok tt;
     host_focus := fun _ => Py.Ok "mCurrentFocus=null"%string |}.

(** Weston survives every signal, and the notification shade stays open. *)
Definition host_stuck : Host :=
  {| host_weston_running := fun _ => true;
     host_run := fun _ => Py.Ok tt;
     host_focus := fun _ =>
       Py.Ok "mCurrentFocus=Window{5e1 u0 NotificationShade}"%string |}.

Definition session0 : Session :=
  {| world := Inputs.world0; host_polls := 0; host_log := [] |}.

End Hosts.
(** * Properties *)

(** ** Sampling *)

Lemma for_each_invariant {A S : Type} (P : S -> Prop)
  (body : A -> S -> Py.result S) (l : list A) :
  (forall a s s', P s -> body a s = Py.Ok s' -> P s') ->
  forall s s', P s -> Py.for_each l body s = Py.Ok s' -> P s'.
Proof.
  intros Hbody. induction l as [|a l IH]; intros s s' Hs Hrun; simpl in Hrun.
  - inversion Hrun; subst; assumption.
  - destruct (body a s) as [s1|] eqn:E; simpl in Hrun; [|discriminate].
    eapply IH; [|eassumption]. eapply Hbody; eassumption.
Qed.

Lemma sample_counters f cr fb x y acc acc' :
  counters_ok acc -> sample f cr fb x y acc = Py.Ok acc' -> counters_ok acc'.
Proof.
  unfold sample, counters_ok. intros H.
  destruct (in_bounds f x y); [|intros E; inversion E; subst; assumption].
  destruct (unpack_rgb (getpixel f x y)) as [rgb|]; simpl; [|discriminate].
  destruct (color_matches cr fb rgb) as [[]|]; simpl; intros E;
    inversion E; subst; simpl; lia.
Qed.

Lemma sample_offsets_counters f cr fb ax ay dxs dys c :
  sample_offsets f cr fb ax ay dxs dys = Py.Ok c -> counters_ok c.
Proof.
  unfold sample_offsets. destruct dxs as [xs|]; simpl; [|discriminate].
  apply for_each_invariant with (P := counters_ok); [|unfold counters_ok; simpl; lia].
  intros dx s s' Hs. destruct dys as [ys|]; simpl; [|discriminate].
  apply for_each_invariant with (P := counters_ok); [|assumption].
  intros dy t t' Ht. apply sample_counters. assumption.
Qed.

(** On an RGB or RGBA frame one sample adds what the specification counts
    for its point. *)
Lemma sample_counts_point f cr fb x y acc :
  three_bands f ->
  sample f cr fb x y acc =
  Py.Ok (fst acc + Z.of_nat (List.length (filter (matches f cr fb)
                                       (filter (inside f) [(x, y)]))),
         snd acc + Z.of_nat (List.length (filter (inside f) [(x, y)]))).
Proof.
  intros Hf. unfold sample, inside, matches. cbn [filter fst snd].
  destruct (in_bounds f x y); cbn [filter List.length fst snd].
  2:{ rewrite !Z.add_0_r. destruct acc; reflexivity. }
  destruct (Hf x y) as (r & g & b & rest & ->).
  cbn [unpack_rgb Py.bind color_matches channels_within].
  destruct (within (cr_r cr) (fb_r_min fb) (fb_r_max fb) r); cbn [andb].
  2:{ cbn [Py.bind List.length]. rewrite Z.add_0_r. reflexivity. }
  destruct (within (cr_g cr) (fb_g_min fb) (fb_g_max fb) g); cbn [andb].
  2:{ cbn [Py.bind List.length]. rewrite Z.add_0_r. reflexivity. }
  cbn [Py.bind].
  destruct (within (cr_b cr) (fb_b_min fb) (fb_b_max fb) b);
    cbn [List.length]; [reflexivity|rewrite Z.add_0_r; reflexivity].
Qed.

Lemma inner_loop_counts f cr fb x ay dys : forall acc,
  three_bands f ->
  Py.for_each dys (fun dy acc' => sample f cr fb x (ay + dy) acc') acc =
  let pts := filter (inside f) (map (fun dy => (x, ay + dy)) dys) in
  Py.Ok (fst acc + Z.of_nat (List.length (filter (matches f cr fb) pts)),
         snd acc + Z.of_nat (List.length pts)).
Proof.
  induction dys as [|dy dys IH]; intros acc Hf; cbn [Py.for_each map].
  - cbn. rewrite !Z.add_0_r. destruct acc; reflexivity.
  - rewrite (sample_counts_point f cr fb x (ay + dy) acc Hf). cbn [Py.bind].
    rewrite (IH _ Hf). cbv zeta. cbn [fst snd].
    change ((x, ay + dy) :: map (fun dy0 => (x, ay + dy0)) dys)
      with ([(x, ay + dy)] ++ map (fun dy0 => (x, ay + dy0)) dys).
    rewrite !filter_app, !length_app, !Nat2Z.inj_add. f_equal; f_equal; lia.
Qed.

(** Refinement: on RGB or RGBA frames the counting loops of the source
    compute [match_ratio]. *)
Lemma sample_offsets_is_match_ratio f cr fb ax ay dxs dys :
  three_bands f ->
  sample_offsets f cr fb ax ay (Py.Ok dxs) (Py.Ok dys)
  = Py.Ok (match_ratio f cr fb ax ay dxs dys).
Proof.
  intros Hf. unfold sample_offsets, match_ratio. cbn [Py.bind].
  assert (H : forall acc,
             Py.for_each dxs
               (fun dx acc0 =>
                  ys <-? Py.Ok dys ;;
                  Py.for_each ys
                    (fun dy acc' => sample f cr fb (ax + dx) (ay + dy) acc') acc0)
               acc
             = let pts := filter (inside f) (region_points ax ay dxs dys) in
               Py.Ok (fst acc + Z.of_nat (List.length (filter (matches f cr fb) pts)),
                      snd acc + Z.of_nat (List.length pts))).
  { induction dxs as [|dx dxs IH]; intros acc; cbn [Py.for_each].
    - cbn. rewrite !Z.add_0_r. destruct acc; reflexivity.
    - cbn [Py.bind]. rewrite (inner_loop_counts f cr fb (ax + dx) ay dys acc Hf).
      cbv zeta. cbn [Py.bind]. rewrite IH. cbv zeta. cbn [fst snd].
      unfold region_points. cbn [flat_map].
      rewrite !filter_app, !length_app, !Nat2Z.inj_add. f_equal; f_equal; lia. }
  rewrite H. cbv zeta. cbn [fst snd]. reflexivity.
Qed.

(** In particular (matched, total) of the black-screen rule are the
    specification's counts over the configured grid. *)
Lemma black_samples_is_match_ratio f det w dxs dys :
  three_bands f ->
  grid_range (x_range (bd_sample_area det)) = Py.Ok dxs ->
  grid_range (y_range (bd_sample_area det)) = Py.Ok dys ->
  black_samples f det w
  = Py.Ok (match_ratio f (bd_color_range det) black_fallback
             (center_x w) (center_y w) dxs dys).
Proof.
  intros Hf Hx Hy. unfold black_samples. rewrite Hx, Hy.
  apply sample_offsets_is_match_ratio. exact Hf.
Qed.

(** The ratio test against the default threshold, in integers. *)
Lemma ratio_exceeds_default matched total (ratio : Q) :
  0 < total -> (ratio == 8 # 10)%Q ->
  ratio_exceeds matched total ratio = true <-> 4 * total < 5 * matched.
Proof.
  intros Hpos Hq. unfold ratio_exceeds. rewrite negb_true_iff.
  rewrite <- not_true_iff_false, Qle_bool_iff, Hq.
  unfold Qle; cbn [Qnum Qden]. rewrite Z2Pos.id by assumption. lia.
Qed.

Lemma ratio_exceeds_zero_total matched (ratio : Q) total :
  total = 0 -> (0 <? total) && ratio_exceeds matched total ratio = false.
Proof. intros ->. reflexivity. Qed.

(** ** The classifier *)

(** The classifier proper returns [Empty] for a stopped session whatever the
    frame, the configuration and the window. *)
Lemma classify_session_stopped fl f cfg w :
  classify fl f cfg w false = Py.Ok Empty.
Proof. reflexivity. Qed.

(** C2.  Whenever the classifier holds a captured frame and the container
    session is not running, it returns [Empty], whatever the pixels of the
    frame and whatever the configuration. *)
Theorem session_stopped_is_empty (fl : Scaling) (d : Desktop)
  (g : option Window) (f : Frame) :
  weston_running d = true ->
  xwininfo d = Py.Ok g ->
  capture d = Py.Ok (0, Some f) ->
  waydroid_running d = false ->
  detect_weston_screen_state fl d = Empty.
Proof.
  intros Hw Hx Hc Hs. unfold detect_weston_screen_state, detect_body.
  rewrite Hw, Hx, Hc, Hs. reflexivity.
Qed.

Lemma session_stopped_is_empty_witness :
  detect_weston_screen_state exact_scaling
    (Inputs.desktop Inputs.config_defaults Inputs.frame_button false) = Empty.
Proof.
  apply (session_stopped_is_empty exact_scaling
           (Inputs.desktop Inputs.config_defaults Inputs.frame_button false)
           None Inputs.frame_button); reflexivity.
Defined.

(** Unfolding of the classifier on a desktop that delivered a frame. *)
Lemma detect_on_frame fl d g f :
  weston_running d = true ->
  xwininfo d = Py.Ok g ->
  capture d = Py.Ok (0, Some f) ->
  detect_weston_screen_state fl d =
  Py.try_except
    (classify fl f (config_on_disk d) (sampled_window d g) (waydroid_running d))
    Unknown.
Proof.
  intros Hw Hx Hc. unfold detect_weston_screen_state, detect_body.
  rewrite Hw, Hx, Hc. reflexivity.
Qed.

(** The states the classifier can report come from the rule that matched. *)
Lemma classify_black fl f cfg w r :
  classify fl f cfg w r = Py.Ok Black -> black_check f cfg w = Py.Ok true.
Proof.
  unfold classify. destruct r; simpl; [|discriminate].
  destruct (black_check f cfg w) as [[]|]; simpl; try discriminate; [reflexivity|].
  destruct (lock_check f cfg) as [[]|]; simpl; try discriminate.
  destruct (loaded_rule fl f w) as [[]|]; simpl; discriminate.
Qed.

Lemma classify_locked fl f cfg w r :
  classify fl f cfg w r = Py.Ok Locked -> lock_check f cfg = Py.Ok true.
Proof.
  unfold classify. destruct r; simpl; [|discriminate].
  destruct (black_check f cfg w) as [[]|]; simpl; try discriminate.
  destruct (lock_check f cfg) as [[]|]; simpl; try discriminate; [reflexivity|].
  destruct (loaded_rule fl f w) as [[]|]; simpl; discriminate.
Qed.

Lemma classify_loaded fl f cfg w r :
  classify fl f cfg w r = Py.Ok Loaded -> loaded_rule fl f w = Py.Ok true.
Proof.
  unfold classify. destruct r; simpl; [|discriminate].
  destruct (black_check f cfg w) as [[]|]; simpl; try discriminate.
  destruct (lock_check f cfg) as [[]|]; simpl; try discriminate.
  destruct (loaded_rule fl f w) as [[]|]; simpl; try discriminate; reflexivity.
Qed.

(** C3, as stated, at the boundary: with every threshold at its default,
    exactly 80% of the black-screen samples (20 of 25) are inside
    (0,0,0)-(10,10,10), and the classifier does not return [Black]. *)
Lemma exactly_80_percent_is_not_black :
  black_screen Inputs.config_defaults = Some no_black_detection
  /\ black_samples Inputs.frame_80 no_black_detection
       (weston_default_window Inputs.config_defaults) = Py.Ok (20, 25)
  /\ 4 * 25 <= 5 * 20
  /\ detect_weston_screen_state exact_scaling
       (Inputs.desktop Inputs.config_defaults Inputs.frame_80 true) = Loading.
Proof.
  split; [reflexivity|]. split; [reflexivity|]. split; [lia|reflexivity].
Qed.

(** C3, amended.  With the black-screen element configured, the ratio
    threshold at its default 0.8 and the session running, a captured frame in
    which strictly more than 80% of the in-bounds black-screen samples are
    inside the colour range is classified [Black]. *)
Theorem mostly_black_is_black (fl : Scaling) (d : Desktop)
  (g : option Window) (f : Frame) (det : BlackDetection) (matched total : Z) :
  weston_running d = true ->
  xwininfo d = Py.Ok g ->
  capture d = Py.Ok (0, Some f) ->
  waydroid_running d = true ->
  black_screen (config_on_disk d) = Some det ->
  (Py.get (bd_ratio det) (8 # 10) == 8 # 10)%Q ->
  black_samples f det (sampled_window d g) = Py.Ok (matched, total) ->
  4 * total < 5 * matched ->
  detect_weston_screen_state fl d = Black.
Proof.
  intros Hw Hx Hc Hs Hdet Hq Hsamples Hratio.
  rewrite (detect_on_frame fl d g f Hw Hx Hc), Hs.
  unfold classify, black_check; simpl. rewrite Hdet.
  unfold black_rule. rewrite Hsamples; simpl.
  pose proof (sample_offsets_counters _ _ _ _ _ _ _ _ Hsamples) as Hc2.
  unfold counters_ok in Hc2; simpl in Hc2.
  assert (Hpos : 0 < total) by lia.
  apply Z.ltb_lt in Hpos as Hpos'. rewrite Hpos'; simpl.
  apply (ratio_exceeds_default matched total _ Hpos Hq) in Hratio.
  rewrite Hratio. reflexivity.
Qed.

Lemma mostly_black_is_black_witness :
  detect_weston_screen_state exact_scaling
    (Inputs.desktop Inputs.config_defaults Inputs.frame_black true) = Black.
Proof.
  apply (mostly_black_is_black exact_scaling
           (Inputs.desktop Inputs.config_defaults Inputs.frame_black true)
           None Inputs.frame_black no_black_detection 25 25);
    reflexivity.
Defined.

(** C5, as stated, on the fall-back configuration (no [button_unlock]
    element): the 3 x 3 default region around (129, 104) holds nine pixels in
    the default green range, the black-screen rule does not fire, and the
    classifier skips the lock rule and returns [Loading]. *)
Lemma green_button_without_element_is_not_locked :
  lock_samples Inputs.frame_button no_unlock_detection 129 104 = Py.Ok (9, 9)
  /\ black_check Inputs.frame_button Inputs.config_fallback
       (weston_default_window Inputs.config_fallback) = Py.Ok false
  /\ detect_weston_screen_state exact_scaling
       (Inputs.desktop Inputs.config_fallback Inputs.frame_button true) = Loading.
Proof. split; [reflexivity|]. split; reflexivity. Qed.

(** C5, amended.  With the session running and the [button_unlock] element
    configured, a captured frame on which the black-screen rule does not fire
    and whose unlock-button region has at least one in-bounds sample and at
    least [min_pixels] (default 1) samples in the green range is classified
    [Locked]. *)
Theorem green_button_is_locked (fl : Scaling) (d : Desktop)
  (g : option Window) (f : Frame) (el : UnlockElement) (matched total : Z) :
  weston_running d = true ->
  xwininfo d = Py.Ok g ->
  capture d = Py.Ok (0, Some f) ->
  waydroid_running d = true ->
  black_check f (config_on_disk d) (sampled_window d g) = Py.Ok false ->
  button_unlock (config_on_disk d) = Some el ->
  lock_samples f (ue_detection el)
    (Py.get (pos_x (ue_position el)) 129)
    (Py.get (pos_y (ue_position el)) 104) = Py.Ok (matched, total) ->
  0 < total ->
  Py.get (ud_min_pixels (ue_detection el)) 1 <= matched ->
  detect_weston_screen_state fl d = Locked.
Proof.
  intros Hw Hx Hc Hs Hblack Hel Hsamples Hpos Hmin.
  rewrite (detect_on_frame fl d g f Hw Hx Hc), Hs.
  unfold classify; simpl. rewrite Hblack; simpl.
  unfold lock_check. rewrite Hel. unfold lock_rule. rewrite Hsamples; simpl.
  apply Z.ltb_lt in Hpos. apply Z.leb_le in Hmin. rewrite Hpos, Hmin.
  reflexivity.
Qed.

Lemma green_button_is_locked_witness :
  detect_weston_screen_state exact_scaling
    (Inputs.desktop Inputs.config_defaults Inputs.frame_button true) = Locked.
Proof.
  apply (green_button_is_locked exact_scaling
           (Inputs.desktop Inputs.config_defaults Inputs.frame_button true)
           None Inputs.frame_button no_unlock_element 9 9);
    try reflexivity; simpl; lia.
Defined.

(** C8.  On a captured frame, a rule whose sample region has no in-bounds
    sample (total = 0) never decides the answer: the classifier does not
    report [Black] from the black-screen rule, [Locked] from the lock-button
    rule, nor [Loaded] from the colourful-pixel heuristic. *)
Theorem zero_samples_never_match (fl : Scaling) (d : Desktop)
  (g : option Window) (f : Frame) (rule : Rule) (matched : Z) :
  xwininfo d = Py.Ok g ->
  capture d = Py.Ok (0, Some f) ->
  rule_samples fl f (config_on_disk d) (sampled_window d g) rule
    = Py.Ok (matched, 0) ->
  detect_weston_screen_state fl d <> rule_state rule.
Proof.
  intros Hx Hc Hzero.
  destruct (weston_running d) eqn:Hw.
  2:{ unfold detect_weston_screen_state, detect_body. rewrite Hw.
      destruct rule; discriminate. }
  rewrite (detect_on_frame fl d g f Hw Hx Hc).
  destruct (classify fl f (config_on_disk d) (sampled_window d g)
              (waydroid_running d)) as [s|] eqn:Hcl; simpl;
    [|destruct rule; discriminate].
  intros ->. destruct rule; simpl in *.
  - apply classify_black in Hcl. unfold black_check in Hcl.
    destruct (black_screen (config_on_disk d)) as [det|]; [|discriminate].
    unfold black_rule in Hcl. rewrite Hzero in Hcl. discriminate.
  - apply classify_locked in Hcl. unfold lock_check in Hcl.
    destruct (button_unlock (config_on_disk d)) as [el|]; [|discriminate].
    unfold lock_rule in Hcl. rewrite Hzero in Hcl. discriminate.
  - apply classify_loaded in Hcl.
    unfold loaded_rule in Hcl. rewrite Hzero in Hcl. discriminate.
Qed.

Lemma zero_samples_never_match_witness :
  detect_weston_screen_state exact_scaling
    (Inputs.desktop Inputs.config_defaults Inputs.frame_tiny true) <> Black.
Proof.
  apply (zero_samples_never_match exact_scaling
           (Inputs.desktop Inputs.config_defaults Inputs.frame_tiny true)
           None Inputs.frame_tiny BlackRule 0);
    reflexivity.
Defined.

(** The same guard in the two checks of [GameController]. *)
Lemma lock_check_needs_a_sample cs f w m1 m2 :
  black_samples f (get_black_screen_detection cs) w = Py.Ok (m1, 0) ->
  lock_samples f (get_unlock_button_detection cs)
    (fst (get_unlock_button_position cs))
    (snd (get_unlock_button_position cs)) = Py.Ok (m2, 0) ->
  weston_locked_on cs (Build_LockSnapshot (Py.Ok (Some w)) (Py.Ok (0, Some f)))
  = false.
Proof.
  intros Hb Hl. unfold weston_locked_on, weston_locked_body.
  cbn [ls_xwininfo ls_capture Py.bind Py.get fst snd Z.eqb].
  unfold black_rule. rewrite Hb.
  cbn [Py.bind fst snd Z.ltb Z.compare andb].
  unfold lock_rule. rewrite Hl. reflexivity.
Qed.

Lemma menu_probe_needs_a_sample cs f m :
  menu_samples cs f = Py.Ok (m, 0) -> menu_probe cs (Some f) = Py.Ok false.
Proof. intros H. unfold menu_probe. rewrite H. reflexivity. Qed.

(** ** The lock check of the controller *)

(** A grayscale capture makes the detection raise at its first sample. *)
Example grayscale_capture_raises :
  Py.raises
    (weston_locked_body no_configs
       (Build_LockSnapshot (Py.Ok None) (Py.Ok (0, Some Inputs.frame_mode_l)))).
Proof. reflexivity. Qed.

(** C10.  When the capture exits with a non-zero status, or when anything in
    the detection raises, [is_weston_locked] returns [False]; a caller that
    unlocks only on [True] then performs the lock check and nothing else. *)
Theorem lock_check_failure_reports_unlocked (dev : Device) (cs : Configs)
  (w : World) :
  (exists rc img,
      ls_capture (dev_lock_snapshot dev (polls w)) = Py.Ok (rc, img) /\ rc <> 0)
  \/ Py.raises (weston_locked_body cs (dev_lock_snapshot dev (polls w))) ->
  fst (is_weston_locked dev cs w) = false
  /\ (locked <- is_weston_locked dev cs ;;
      if locked then _unlock_weston dev cs else ret false) w
     = is_weston_locked dev cs w.
Proof.
  intros H.
  assert (Hoff : weston_locked_on cs (dev_lock_snapshot dev (polls w)) = false).
  { unfold weston_locked_on. destruct H as [(rc & img & Hcap & Hrc)|Hraise].
    - unfold weston_locked_body. rewrite Hcap.
      destruct (ls_xwininfo (dev_lock_snapshot dev (polls w))); simpl;
        [|reflexivity].
      apply Z.eqb_neq in Hrc. rewrite Hrc. reflexivity.
    - rewrite Hraise. reflexivity. }
  unfold is_weston_locked, mbind, emit, query, ret; simpl.
  rewrite Hoff. split; reflexivity.
Qed.

Lemma lock_check_failure_reports_unlocked_witness :
  fst (is_weston_locked Inputs.device_capture_fails no_configs
         (Build_World 0 0 [])) = false.
Proof.
  apply (lock_check_failure_reports_unlocked Inputs.device_capture_fails
           no_configs (Build_World 0 0 [])).
  left. exists 1, None. split; [reflexivity|discriminate].
Defined.

(** ** The startup tap sequence *)

Lemma prefix_of_refl {A} (l : list A) : prefix_of l l.
Proof. exists []. rewrite app_nil_r. reflexivity. Qed.

Lemma prefix_of_cons {A} (a : A) l full :
  prefix_of l full -> prefix_of (a :: l) (a :: full).
Proof. intros [rest ->]. exists rest. reflexivity. Qed.

Lemma prefix_of_one {A} (a : A) full : prefix_of [a] (a :: full).
Proof. exists full. reflexivity. Qed.

Lemma prefix_of_app {A} (l1 l full : list A) :
  prefix_of l full -> prefix_of (l1 ++ l) (l1 ++ full).
Proof. intros [rest ->]. exists rest. rewrite app_assoc. reflexivity. Qed.

Lemma prefix_of_weaken {A} (l full more : list A) :
  prefix_of l full -> prefix_of l (full ++ more).
Proof. intros [rest ->]. exists (rest ++ more). rewrite app_assoc. reflexivity. Qed.

Lemma prefix_of_In {A} (l full : list A) a :
  prefix_of l full -> In a l -> In a full.
Proof. intros [rest ->] H. apply in_or_app. left. assumption. Qed.

Lemma prefix_of_map_inv {A B} (f : A -> B) (l : list B) :
  forall full, prefix_of l (map f full) ->
  exists l', l = map f l' /\ prefix_of l' full.
Proof.
  induction l as [|b l IH]; intros full [rest H].
  - exists []. split; [reflexivity|]. exists full. reflexivity.
  - destruct full as [|a full]; simpl in H; [discriminate|].
    inversion H; subst.
    destruct (IH full) as (l' & -> & Hpre); [exists rest; assumption|].
    exists (a :: l'). split; [reflexivity|]. apply prefix_of_cons. assumption.
Qed.

Lemma appended_nil w : appended w w [].
Proof. reflexivity. Qed.

Lemma appended_trans w1 w2 w3 l1 l2 :
  appended w1 w2 l1 -> appended w2 w3 l2 -> appended w1 w3 (l1 ++ l2).
Proof.
  unfold appended. intros H1 H2. rewrite H2, H1, rev_app_distr, app_assoc.
  reflexivity.
Qed.

Lemma check_log_shift origin t n :
  check_log (origin + t) n = map (shift origin) (check_log t n).
Proof.
  revert t. induction n as [|n IH]; intros t; simpl; [reflexivity|].
  unfold shift at 1; simpl. f_equal.
  replace (origin + t + 1000) with (origin + (t + 1000)) by lia. apply IH.
Qed.

Lemma group_log_shift cs origin t :
  group_log cs (origin + t) = map (shift origin) (group_log cs t).
Proof.
  unfold group_log, shift; simpl.
  repeat (f_equal; try (f_equal; lia)).
Qed.

Lemma schedule_log_end_ge cs targets :
  forall e, e <= snd (schedule_log cs e targets).
Proof.
  induction targets as [|t rest IH]; intros e; simpl; [lia|].
  specialize (IH ((if 0 <? t - e then t else e) + 1800)).
  destruct (0 <? t - e) eqn:E; [apply Z.ltb_lt in E|]; lia.
Qed.

Section StartupTaps.

Variable dev : Device.
Variable cs : Configs.

(** A main-game check reads the device and logs itself; the clock stands. *)
Lemma is_in_main_game_effect w :
  now (snd (is_in_main_game dev cs w)) = now w
  /\ appended w (snd (is_in_main_game dev cs w)) [(now w, MainGameCheck)].
Proof.
  unfold is_in_main_game, appended, mbind, emit, check_game_running,
    get_current_activity, query, ret; simpl.
  destruct (dev_is_app_running dev (polls w)); simpl; [|split; reflexivity].
  destruct (focused (dev_current_activity dev (S (polls w)))); simpl;
    split; reflexivity.
Qed.

Lemma tap_group_effect w :
  fst (tap_group cs w) = tt
  /\ now (snd (tap_group cs w)) = now w + 1800
  /\ appended w (snd (tap_group cs w)) (group_log cs (now w)).
Proof.
  unfold tap_group, appended, group_log, mbind, x11_click, tap, emit, sleep,
    ret; simpl.
  split; [reflexivity|]. split; [lia|].
  repeat (f_equal; try (f_equal; lia)).
Qed.

Lemma wait_checking_S n w :
  wait_checking dev cs (S n) w =
  let (found, w1) := is_in_main_game dev cs w in
  if found then (true, w1)
  else wait_checking dev cs n (Build_World (now w1 + 1000) (polls w1) (log w1)).
Proof.
  cbn [wait_checking]. unfold mbind at 1.
  destruct (is_in_main_game dev cs w) as [[] w1]; reflexivity.
Qed.

(** The wait loop: its log is a prefix of [n] checks one second apart, it
    takes at most [n] seconds, and exactly that when no check succeeds. *)
Lemma wait_checking_spec n : forall w,
  exists new,
    appended w (snd (wait_checking dev cs n w)) new
    /\ prefix_of new (check_log (now w) n)
    /\ now w <= now (snd (wait_checking dev cs n w))
       <= now w + 1000 * Z.of_nat n
    /\ (fst (wait_checking dev cs n w) = false ->
        new = check_log (now w) n
        /\ now (snd (wait_checking dev cs n w)) = now w + 1000 * Z.of_nat n).
Proof.
  induction n as [|n IH]; intros w.
  - exists []. simpl. repeat split; try lia. apply prefix_of_refl.
  - rewrite wait_checking_S.
    destruct (is_in_main_game_effect w) as [Hnow Hlog].
    destruct (is_in_main_game dev cs w) as [found w1]; simpl in Hnow, Hlog.
    destruct found.
    + exists [(now w, MainGameCheck)]. cbn [fst snd check_log].
      split; [assumption|]. split; [apply prefix_of_one|].
      split; [lia|discriminate].
    + set (w2 := Build_World (now w1 + 1000) (polls w1) (log w1)).
      destruct (IH w2) as (new & Happ & Hpre & Htime & Hfull).
      assert (Hw2 : now w2 = now w + 1000) by (simpl; lia).
      rewrite Hw2 in *.
      exists ((now w, MainGameCheck) :: new). cbn [check_log].
      split.
      { apply (appended_trans w w2 _ [(now w, MainGameCheck)] new);
          [exact Hlog|exact Happ]. }
      split; [apply prefix_of_cons; assumption|].
      split; [lia|].
      intros Hf. destruct (Hfull Hf) as [-> ->]. split; [reflexivity|lia].
Qed.

Lemma wait_checking_never n :
  never_in_main_game dev cs ->
  forall w, fst (wait_checking dev cs n w) = false.
Proof.
  intros Hnever. induction n as [|n IH]; intros w; [reflexivity|].
  rewrite wait_checking_S. specialize (Hnever w).
  destruct (is_in_main_game dev cs w) as [found w1]; simpl in Hnever; subst.
  apply IH.
Qed.

Lemma tap_schedule_cons start target_time rest w :
  tap_schedule dev cs start (target_time :: rest) w =
  let (found, w1) := is_in_main_game dev cs w in
  if found then (true, w1) else
  let wait_time := target_time - (now w1 - start) in
  if 0 <? wait_time then
    let (found', w2) :=
      wait_checking dev cs (Z.to_nat (wait_time / 1000)) w1 in
    if found' then (true, w2) else
    tap_schedule dev cs start rest
      (snd (tap_group cs
              (Build_World (now w2 + wait_time mod 1000) (polls w2) (log w2))))
  else tap_schedule dev cs start rest (snd (tap_group cs w1)).
Proof.
  cbn [tap_schedule]. unfold mbind at 1.
  destruct (is_in_main_game dev cs w) as [[] w1]; [reflexivity|].
  unfold mbind at 1. unfold clock at 1. unfold mbind at 1.
  destruct (0 <? target_time - (now w1 - start)).
  - unfold mbind at 1.
    destruct (wait_checking dev cs _ w1) as [[] w2]; [reflexivity|].
    unfold mbind at 1. unfold sleep at 1. unfold ret at 1.
    unfold mbind at 1.
    destruct (tap_group cs _) as [u w4]. reflexivity.
  - unfold ret at 1. unfold mbind at 1.
    destruct (tap_group cs w1) as [u w4]. reflexivity.
Qed.

(** The checkpoint loop entered [e] milliseconds after [start]: its log is a
    prefix of the timetable, it ends no later than the timetable does, and
    it follows the whole timetable when it finds nothing. *)
Lemma tap_schedule_spec start targets : forall e w,
  now w = start + e ->
  exists new,
    appended w (snd (tap_schedule dev cs start targets w)) (map (shift start) new)
    /\ prefix_of new (fst (schedule_log cs e targets))
    /\ now w <= now (snd (tap_schedule dev cs start targets w))
       <= start + snd (schedule_log cs e targets)
    /\ (fst (tap_schedule dev cs start targets w) = false ->
        new = fst (schedule_log cs e targets)
        /\ now (snd (tap_schedule dev cs start targets w))
           = start + snd (schedule_log cs e targets)).
Proof.
  induction targets as [|target_time rest IH]; intros e w He.
  - exists []. cbn [tap_schedule schedule_log ret fst snd map].
    split; [apply appended_nil|]. split; [apply prefix_of_refl|].
    split; [lia|]. intros _. split; [reflexivity|assumption].
  - rewrite tap_schedule_cons. cbn [schedule_log fst snd].
    destruct (is_in_main_game_effect w) as [Hnow1 Hlog1].
    destruct (is_in_main_game dev cs w) as [found w1];
      cbn [fst snd] in Hnow1, Hlog1.
    assert (Hcheck : appended w w1 (map (shift start) [(e, MainGameCheck)])).
    { unfold shift; cbn [map fst snd]. rewrite <- He. exact Hlog1. }
    pose proof (schedule_log_end_ge cs rest) as Hend.
    destruct found.
    { exists [(e, MainGameCheck)]. cbn [fst snd].
      split; [exact Hcheck|]. split; [apply prefix_of_one|].
      split; [|discriminate].
      specialize (Hend ((if 0 <? target_time - e then target_time else e) + 1800)).
      destruct (0 <? target_time - e) eqn:E; [apply Z.ltb_lt in E|]; lia. }
    cbn zeta.
    replace (target_time - (now w1 - start)) with (target_time - e) by lia.
    destruct (0 <? target_time - e) eqn:Hwait.
    + apply Z.ltb_lt in Hwait.
      set (wait_time := target_time - e) in *.
      set (n := Z.to_nat (wait_time / 1000)).
      assert (Hn : 1000 * Z.of_nat n = 1000 * (wait_time / 1000)).
      { unfold n. rewrite Z2Nat.id; [reflexivity|].
        apply Z.div_pos; lia. }
      pose proof (Z.div_mod wait_time 1000 ltac:(lia)) as Hdm.
      pose proof (Z.mod_pos_bound wait_time 1000 ltac:(lia)) as Hmod.
      destruct (wait_checking_spec n w1) as (new1 & Happ1 & Hpre1 & Ht1 & Hfull1).
      assert (Hshift : check_log (now w1) n = map (shift start) (check_log e n)).
      { rewrite <- check_log_shift. f_equal. lia. }
      rewrite Hshift in Hpre1, Hfull1.
      destruct (wait_checking dev cs n w1) as [found' w2];
        cbn [fst snd] in Happ1, Ht1, Hfull1.
      destruct found'.
      * destruct (prefix_of_map_inv _ _ _ Hpre1) as (new1' & -> & Hpre1').
        exists ((e, MainGameCheck) :: new1'). cbn [fst snd].
        split.
        { apply (appended_trans w w1 w2 _ _ Hcheck Happ1). }
        split.
        { apply prefix_of_cons. apply prefix_of_weaken. assumption. }
        split; [|discriminate].
        specialize (Hend (target_time + 1800)). lia.
      * destruct (Hfull1 eq_refl) as [-> Hnow2].
        set (w3 := Build_World (now w2 + wait_time mod 1000) (polls w2) (log w2)).
        assert (Hnow3 : now w3 = start + target_time) by (simpl; lia).
        destruct (tap_group_effect w3) as (_ & Hnow4 & Happ4).
        set (w4 := snd (tap_group cs w3)) in *.
        destruct (IH (target_time + 1800) w4 ltac:(lia))
          as (new_r & Happ_r & Hpre_r & Ht_r & Hfull_r).
        assert (Happ13 : appended w1 w3 (map (shift start) (check_log e n)))
          by exact Happ1.
        rewrite Hnow3, group_log_shift in Happ4.
        exists ((e, MainGameCheck) :: check_log e n
                  ++ group_log cs target_time ++ new_r).
        split.
        { change ((e, MainGameCheck) :: check_log e n
                    ++ group_log cs target_time ++ new_r)
            with ([(e, MainGameCheck)] ++ check_log e n
                    ++ group_log cs target_time ++ new_r).
          rewrite !map_app.
          apply (appended_trans w w1 _ _ _ Hcheck).
          apply (appended_trans w1 w3 _ _ _ Happ13).
          apply (appended_trans w3 w4 _ _ _ Happ4). exact Happ_r. }
        split.
        { apply prefix_of_cons. do 2 apply prefix_of_app. assumption. }
        split; [lia|].
        intros Hf. destruct (Hfull_r Hf) as [-> ->]. split; reflexivity.
    + apply Z.ltb_ge in Hwait.
      destruct (tap_group_effect w1) as (_ & Hnow4 & Happ4).
      set (w4 := snd (tap_group cs w1)) in *.
      destruct (IH (e + 1800) w4 ltac:(lia))
        as (new_r & Happ_r & Hpre_r & Ht_r & Hfull_r).
      replace (now w1) with (start + e) in Happ4 by lia.
      rewrite group_log_shift in Happ4.
      exists ((e, MainGameCheck) :: [] ++ group_log cs e ++ new_r).
      split.
      { change ((e, MainGameCheck) :: [] ++ group_log cs e ++ new_r)
          with ([(e, MainGameCheck)] ++ group_log cs e ++ new_r).
        rewrite !map_app.
        apply (appended_trans w w1 _ _ _ Hcheck).
        apply (appended_trans w1 w4 _ _ _ Happ4). exact Happ_r. }
      split.
      { apply prefix_of_cons. apply (prefix_of_app []).
        apply prefix_of_app. assumption. }
      split; [lia|].
      intros Hf. destruct (Hfull_r Hf) as [-> ->]. split; reflexivity.
Qed.

Lemma tap_schedule_never start targets :
  never_in_main_game dev cs ->
  forall w, fst (tap_schedule dev cs start targets w) = false.
Proof.
  intros Hnever. induction targets as [|t rest IH]; intros w; [reflexivity|].
  rewrite tap_schedule_cons. pose proof (Hnever w) as H1.
  destruct (is_in_main_game dev cs w) as [found w1]; simpl in H1; subst.
  cbn zeta. destruct (0 <? t - (now w1 - start)); [|apply IH].
  match goal with
  | |- context [wait_checking dev cs ?n w1] =>
      pose proof (wait_checking_never n Hnever w1) as H2;
      destruct (wait_checking dev cs n w1) as [found' w2]
  end.
  simpl in H2; subst. apply IH.
Qed.

End StartupTaps.

(** The timetable itself: after the burst, clicks and taps fall on the
    offsets 0, 0.3, 0.8 and 1.3 s of a checkpoint, and the checks on
    [check_times]. *)
Lemma startup_log_dispatches cs t a :
  In (t, a) (startup_log cs) -> is_dispatch a = true -> burst_duration <= t ->
  In (t - burst_duration) dispatch_times.
Proof.
  intros Hin Hd Ht.
  assert (Hall : forallb
            (fun e => implb (is_dispatch (snd e) && (burst_duration <=? fst e))
                        (existsb (Z.eqb (fst e - burst_duration)) dispatch_times))
            (startup_log cs) = true) by (vm_compute; reflexivity).
  rewrite forallb_forall in Hall. specialize (Hall _ Hin). cbn [fst snd] in Hall.
  apply Z.leb_le in Ht. rewrite Hd, Ht in Hall. cbn [andb implb] in Hall.
  apply existsb_exists in Hall. destruct Hall as (x & Hx & Heq).
  apply Z.eqb_eq in Heq. rewrite Heq. exact Hx.
Qed.

Lemma startup_log_checks cs t :
  In (t, MainGameCheck) (startup_log cs) -> In (t - burst_duration) check_times.
Proof.
  intros Hin.
  assert (Hall : forallb
            (fun e => implb (is_main_check (snd e))
                        (existsb (Z.eqb (fst e - burst_duration)) check_times))
            (startup_log cs) = true) by (vm_compute; reflexivity).
  rewrite forallb_forall in Hall. specialize (Hall _ Hin).
  cbn [fst snd is_main_check implb] in Hall.
  apply existsb_exists in Hall. destruct Hall as (x & Hx & Heq).
  apply Z.eqb_eq in Heq. rewrite Heq. exact Hx.
Qed.

Lemma startup_log_times cs :
  map fst (filter (fun e => is_main_check (snd e)) (startup_log cs))
    = map (Z.add burst_duration) check_times
  /\ map fst (filter (fun e => is_dispatch (snd e)) (startup_log cs))
    = map fst burst_log ++ map (Z.add burst_duration) dispatch_times
  /\ snd (schedule_log cs 0 tap_intervals) = 81800.
Proof. split; [|split]; vm_compute; reflexivity. Qed.

Lemma initial_burst_effect w :
  now (snd (initial_burst w)) = now w + burst_duration
  /\ appended w (snd (initial_burst w)) (map (shift (now w)) burst_log).
Proof.
  destruct w as [t p l]. cbv - [Z.add].
  split; [lia|]. repeat (f_equal; try (f_equal; lia)).
Qed.

Lemma _perform_startup_taps_eq dev cs w :
  _perform_startup_taps dev cs w =
  let wb := snd (initial_burst w) in
  let (found, w1) := tap_schedule dev cs (now wb) tap_intervals wb in
  if found then (true, w1) else is_in_main_game dev cs w1.
Proof.
  unfold _perform_startup_taps. unfold mbind at 1.
  destruct (initial_burst w) as [u wb]. unfold mbind at 1. unfold clock at 1.
  unfold mbind at 1. cbn [snd].
  destruct (tap_schedule dev cs (now wb) tap_intervals wb) as [[] w1];
    reflexivity.
Qed.

Lemma map_shift_shift a b l :
  map (shift a) (map (shift b) l) = map (shift (a + b)) l.
Proof.
  rewrite map_map. apply map_ext. intros [t x]. unfold shift; simpl.
  f_equal. lia.
Qed.

(** C7, as stated, on a device where the check never succeeds: the sequence
    returns 81.8 s after [start_time] (89.3 s after the call), later than
    the last checkpoint, and three taps of every checkpoint are dispatched
    0.3, 0.8 and 1.3 s after it. *)
Lemma startup_taps_overrun_the_checkpoints :
  ~ within_checkpoint_schedule Inputs.device_capture_fails no_configs
      Inputs.world0.
Proof.
  intros [_ Hend]. revert Hend. apply Z.lt_nge. vm_compute. reflexivity.
Qed.

(** The same run in figures: it dispatches the first checkpoint's click at
    27.5 s and its taps at 27.8, 28.3 and 28.8 s after the call, evaluates
    the check 76 times, and returns [False] after 89.3 s. *)
Example never_succeeding_run :
  let run := _perform_startup_taps Inputs.device_capture_fails no_configs
               Inputs.world0 in
  fst run = false
  /\ now (snd run) = 89300
  /\ polls (snd run) = 76%nat
  /\ firstn 4 (skipn 8 (filter (fun e => is_dispatch (snd e))
                           (rev (log (snd run)))))
     = [(27500, X11Click 517 329); (27800, Tap 512 284);
        (28300, Tap 512 284); (28800, Tap 512 284)].
Proof. cbv zeta. repeat split; vm_compute; reflexivity. Qed.

(** C7, amended.  Every run of the startup tap sequence, whatever the
    main-game check answers, logs a prefix of one fixed timetable and
    returns within 81.8 s of [start_time], the clock reading taken after the
    initial burst (7.5 s after the call).  In the timetable each checkpoint
    20/30/.../80 s after [start_time] starts a group of one X11 click and
    three taps at +0.3, +0.8 and +1.3 s; the check is evaluated on entering
    each checkpoint iteration, once per whole second of the wait that
    follows, and once after the last group.  When the check never succeeds
    the run follows the whole timetable and returns [False] exactly 81.8 s
    after [start_time]. *)
Theorem startup_taps_follow_timetable (dev : Device) (cs : Configs) (w : World) :
  exists new,
    appended w (snd (_perform_startup_taps dev cs w)) (map (shift (now w)) new)
    /\ prefix_of new (startup_log cs)
    /\ (forall t a, In (t, a) new -> is_dispatch a = true ->
                    burst_duration <= t ->
                    In (t - burst_duration) dispatch_times)
    /\ (forall t, In (t, MainGameCheck) new ->
                  In (t - burst_duration) check_times)
    /\ now w <= now (snd (_perform_startup_taps dev cs w))
       <= now w + burst_duration + 81800
    /\ (never_in_main_game dev cs ->
        fst (_perform_startup_taps dev cs w) = false
        /\ new = startup_log cs
        /\ now (snd (_perform_startup_taps dev cs w))
           = now w + burst_duration + 81800
        /\ map fst (filter (fun e => is_main_check (snd e)) new)
           = map (Z.add burst_duration) check_times
        /\ map fst (filter (fun e => is_dispatch (snd e)) new)
           = map fst burst_log ++ map (Z.add burst_duration) dispatch_times).
Proof.
  rewrite _perform_startup_taps_eq. cbn zeta.
  destruct (initial_burst_effect w) as [Hnowb Happb].
  destruct (initial_burst w) as [u wb]; cbn [snd] in *.
  destruct (startup_log_times cs) as (Hchecks & Hdisp & Hend).
  destruct (tap_schedule_spec dev cs (now wb) tap_intervals 0 wb ltac:(lia))
    as (new1 & Happ1 & Hpre1 & Ht1 & Hfull1).
  rewrite Hend in Ht1, Hfull1.
  pose proof (fun H => tap_schedule_never dev cs (now wb) tap_intervals H wb)
    as Hnever1.
  destruct (tap_schedule dev cs (now wb) tap_intervals wb) as [found w1];
    cbn [fst snd] in Happ1, Ht1, Hfull1, Hnever1.
  rewrite Hnowb in Happ1. rewrite <- map_shift_shift in Happ1.
  assert (Hfacts : forall new, prefix_of new (startup_log cs) ->
            (forall t a, In (t, a) new -> is_dispatch a = true ->
                         burst_duration <= t ->
                         In (t - burst_duration) dispatch_times)
            /\ (forall t, In (t, MainGameCheck) new ->
                          In (t - burst_duration) check_times)).
  { intros new Hpre. split.
    - intros t a Hin. apply startup_log_dispatches with (cs := cs) (a := a).
      eapply prefix_of_In; eassumption.
    - intros t Hin. apply startup_log_checks with (cs := cs).
      eapply prefix_of_In; eassumption. }
  destruct found.
  - exists (burst_log ++ map (shift burst_duration) new1). cbn [fst snd].
    assert (Hpre : prefix_of (burst_log ++ map (shift burst_duration) new1)
                     (startup_log cs)).
    { unfold startup_log. apply prefix_of_app. apply prefix_of_weaken.
      destruct Hpre1 as [rest ->]. exists (map (shift burst_duration) rest).
      apply map_app. }
    split.
    { rewrite map_app. apply (appended_trans w wb w1 _ _ Happb Happ1). }
    split; [exact Hpre|].
    destruct (Hfacts _ Hpre) as [Hd Hc].
    split; [exact Hd|]. split; [exact Hc|].
    split; [unfold burst_duration in *; lia|].
    intros Hnever. specialize (Hnever1 Hnever). discriminate.
  - destruct (Hfull1 eq_refl) as [-> Hnow1].
    destruct (is_in_main_game_effect dev cs w1) as [Hnow2 Happ2].
    exists (startup_log cs).
    split.
    { unfold startup_log. rewrite Hend, !map_app.
      apply (appended_trans w wb _ _ _ Happb).
      apply (appended_trans wb w1 _ _ _ Happ1).
      unfold shift at 1; cbn [map fst snd].
      replace (now w + (burst_duration + 81800)) with (now w1) by lia.
      exact Happ2. }
    split; [apply prefix_of_refl|].
    destruct (Hfacts _ (prefix_of_refl _)) as [Hd Hc].
    split; [exact Hd|]. split; [exact Hc|].
    split; [unfold burst_duration in *; lia|].
    intros Hnever. specialize (Hnever w1).
    split; [exact Hnever|]. split; [reflexivity|].
    split; [lia|]. split; assumption.
Qed.

Lemma startup_taps_follow_timetable_witness :
  fst (_perform_startup_taps Inputs.device_capture_fails no_configs
         Inputs.world0) = false
  /\ now (snd (_perform_startup_taps Inputs.device_capture_fails no_configs
                 Inputs.world0)) = 89300.
Proof.
  destruct (startup_taps_follow_timetable Inputs.device_capture_fails
              no_configs Inputs.world0)
    as (new & _ & _ & _ & _ & _ & Hnever).
  destruct Hnever as (Hr & _ & Hnow & _).
  - intros w. reflexivity.
  - split; [exact Hr|exact Hnow].
Defined.

(** ** The unlock sequencer *)

Section Unlock.

Variable dev : Device.
Variable cs : Configs.

(** Replaying steps dispatches clicks and sleeps; it asks the device
    nothing. *)
Lemma run_step_polls s w : polls (snd (run_step cs s w)) = polls w.
Proof.
  unfold run_step, mbind, x11_click, emit, sleep, ret.
  repeat match goal with
         | |- context [if match ?o with Some _ => _ | None => false end
                       then _ else _] =>
             destruct (match o with Some a => _ | None => false end)
         end;
    cbn [fst snd]; destruct (0 <? Py.get (wait_after s) 0); reflexivity.
Qed.

Lemma run_steps_polls l : forall w, polls (snd (run_steps cs l w)) = polls w.
Proof.
  induction l as [|s l IH]; intros w; [reflexivity|].
  cbn [run_steps]. unfold mbind.
  pose proof (run_step_polls s w) as H.
  destruct (run_step cs s w) as [u w1]. cbn [snd] in *. rewrite IH. exact H.
Qed.

Lemma replay_polls l n : forall w,
  polls (snd (repeat_m n (run_steps cs l) w)) = polls w.
Proof.
  induction n as [|n IH]; intros w; [reflexivity|].
  cbn [repeat_m]. unfold mbind.
  pose proof (run_steps_polls l w) as H.
  destruct (run_steps cs l w) as [u w1]. cbn [snd] in *. rewrite IH. exact H.
Qed.

Lemma unlock_attempts_S n w :
  unlock_attempts dev cs (S n) w =
  let w1 := snd (run_steps cs (steps (get_unlock_sequence cs)) w) in
  if Py.get (verify_after_each (get_unlock_sequence cs)) false then
    let (locked, w2) := is_weston_locked dev cs w1 in
    if negb locked then (true, w2) else unlock_attempts dev cs n w2
  else unlock_attempts dev cs n w1.
Proof.
  cbn [unlock_attempts]. unfold mbind at 1.
  destruct (run_steps cs (steps (get_unlock_sequence cs)) w) as [u w1].
  cbn [snd].
  destruct (Py.get (verify_after_each (get_unlock_sequence cs)) false);
    [|reflexivity].
  unfold mbind at 1.
  destruct (is_weston_locked dev cs w1) as [[] w2]; reflexivity.
Qed.

Lemma _unlock_weston_eq w :
  _unlock_weston dev cs w =
  let (early, w1) :=
    unlock_attempts dev cs
      (Z.to_nat (Py.get (max_attempts (get_unlock_sequence cs)) 2)) w in
  if early then (true, w1)
  else (negb (fst (is_weston_locked dev cs w1)), snd (is_weston_locked dev cs w1)).
Proof.
  unfold _unlock_weston. unfold mbind at 1.
  destruct (unlock_attempts dev cs _ w) as [[] w1]; [reflexivity|].
  unfold mbind at 1. destruct (is_weston_locked dev cs w1); reflexivity.
Qed.

Lemma is_weston_locked_eq w :
  is_weston_locked dev cs w =
  (weston_locked_on cs (dev_lock_snapshot dev (polls w)),
   Build_World (now w) (S (polls w)) ((now w, LockCheck) :: log w)).
Proof. reflexivity. Qed.

(** Without verification the loop replays the steps [n] times and never
    returns early. *)
Lemma unlock_attempts_unverified n : forall w,
  Py.get (verify_after_each (get_unlock_sequence cs)) false = false ->
  unlock_attempts dev cs n w =
  (false, snd (repeat_m n (run_steps cs (steps (get_unlock_sequence cs))) w)).
Proof.
  induction n as [|n IH]; intros w Hv; [reflexivity|].
  rewrite unlock_attempts_S, Hv. cbn zeta. rewrite (IH _ Hv).
  cbn [repeat_m]. unfold mbind.
  destruct (run_steps cs (steps (get_unlock_sequence cs)) w) as [u w1].
  reflexivity.
Qed.

(** A loop that ends without an early success consulted the device once per
    attempt when it verifies, and not at all otherwise. *)
Lemma unlock_attempts_exhausted n : forall w,
  fst (unlock_attempts dev cs n w) = false ->
  polls (snd (unlock_attempts dev cs n w)) =
  (polls w +
   if Py.get (verify_after_each (get_unlock_sequence cs)) false then n else 0)%nat.
Proof.
  induction n as [|n IH]; intros w Hf.
  - cbn. destruct (Py.get _ false); lia.
  - rewrite unlock_attempts_S in *. cbn zeta in *.
    pose proof (run_steps_polls (steps (get_unlock_sequence cs)) w) as Hp.
    set (w1 := snd (run_steps cs (steps (get_unlock_sequence cs)) w)) in *.
    destruct (Py.get (verify_after_each (get_unlock_sequence cs)) false) eqn:Hv.
    + rewrite is_weston_locked_eq in *.
      destruct (weston_locked_on cs (dev_lock_snapshot dev (polls w1)));
        cbn [negb] in *; [|discriminate].
      rewrite (IH _ Hf). cbn [polls]. lia.
    + rewrite (IH _ Hf). lia.
Qed.

End Unlock.

(** C4, as stated, on a configuration with the usual two clicks: the desktop
    is unlocked, the call succeeds, and both clicks were dispatched. *)
Lemma unlock_clicks_an_unlocked_desktop :
  ~ unlock_is_noop Inputs.device_no_menu Inputs.configs Inputs.world0.
Proof.
  intros H. destruct H as [_ Hlog]; [reflexivity|].
  destruct (Hlog 0 (X11Click 517 329)) as [Hin|Hd].
  - vm_compute. right. right. left. reflexivity.
  - destruct Hin.
  - discriminate.
Qed.

(** C4, amended.  When the lock check that [_unlock_weston] evaluates
    reports an unlocked desktop, the call returns [True] after exactly one
    lock check, and after replaying the configured steps, clicks included:
    once when it verifies after each attempt and [max_attempts] is at least
    1, [max_attempts] times when it does not verify. *)
Theorem unlock_of_unlocked_desktop (dev : Device) (cs : Configs) (w : World) :
  weston_locked_on cs (dev_lock_snapshot dev (polls w)) = false ->
  _unlock_weston dev cs w =
  (true,
   snd (is_weston_locked dev cs
          (snd (repeat_m (replays cs)
                  (run_steps cs (steps (get_unlock_sequence cs))) w)))).
Proof.
  intros Hfree. rewrite _unlock_weston_eq. unfold replays.
  set (n := Z.to_nat (Py.get (max_attempts (get_unlock_sequence cs)) 2)).
  set (l := steps (get_unlock_sequence cs)).
  destruct (Py.get (verify_after_each (get_unlock_sequence cs)) false) eqn:Hv.
  - destruct n as [|n].
    + cbn [unlock_attempts ret Nat.min repeat_m snd].
      rewrite is_weston_locked_eq. cbn [fst snd]. rewrite Hfree. reflexivity.
    + rewrite unlock_attempts_S, Hv. cbn zeta. fold l.
      cbn [Nat.min repeat_m]. unfold mbind at 1.
      pose proof (run_steps_polls cs l w) as Hp.
      destruct (run_steps cs l w) as [u w1]. cbn [snd ret] in *.
      rewrite is_weston_locked_eq. rewrite Hp, Hfree. reflexivity.
  - rewrite (unlock_attempts_unverified dev cs n w Hv). fold l.
    pose proof (replay_polls cs l n w) as Hp.
    rewrite is_weston_locked_eq. cbn [fst snd]. rewrite Hp, Hfree. reflexivity.
Qed.

Lemma unlock_of_unlocked_desktop_witness :
  fst (_unlock_weston Inputs.device_no_menu Inputs.configs Inputs.world0) = true.
Proof.
  rewrite (unlock_of_unlocked_desktop Inputs.device_no_menu Inputs.configs
             Inputs.world0); reflexivity.
Defined.

(** C6, as stated, on a desktop that stays black: the attempts are used up,
    the classifier answers [Black] on what the final check looks at, which
    is not [Locked], and [_unlock_weston] returns [False]. *)
Lemma unlock_fails_on_a_black_screen :
  fst (unlock_attempts Inputs.device_locked Inputs.configs 2 Inputs.world0)
  = false
  /\ detect_weston_screen_state exact_scaling
       (desktop_of Inputs.configs (dev_lock_snapshot Inputs.device_locked 2))
     = Black
  /\ fst (_unlock_weston Inputs.device_locked Inputs.configs Inputs.world0)
     = false
  /\ ~ final_state_decides exact_scaling Inputs.device_locked Inputs.configs
        Inputs.world0.
Proof.
  split; [vm_compute; reflexivity|]. split; [vm_compute; reflexivity|].
  split; [vm_compute; reflexivity|].
  intros H. destruct H as [_ H]; [vm_compute; reflexivity|].
  assert (E : fst (_unlock_weston Inputs.device_locked Inputs.configs
                     Inputs.world0) = true).
  { apply H. vm_compute. intros E; discriminate E. }
  vm_compute in E. discriminate E.
Qed.

(** C6, amended.  When the attempts are used up without an early verified
    success, [_unlock_weston] evaluates the lock check of the controller
    exactly once more and returns [True] if and only if that check reports
    the desktop unlocked.  The check is [is_weston_locked], which reports
    locked on a black screen as well as on the unlock button, so success
    means neither of the two, not only the absence of the [Locked] state.
    The loop itself evaluated the check once per attempt when it verifies,
    never otherwise. *)
Theorem unlock_final_check_decides (dev : Device) (cs : Configs) (w : World) :
  fst (unlock_attempts dev cs
         (Z.to_nat (Py.get (max_attempts (get_unlock_sequence cs)) 2)) w) = false ->
  exists w1,
    w1 = snd (unlock_attempts dev cs
                (Z.to_nat (Py.get (max_attempts (get_unlock_sequence cs)) 2)) w)
    /\ polls w1 =
       (polls w +
        if Py.get (verify_after_each (get_unlock_sequence cs)) false
        then Z.to_nat (Py.get (max_attempts (get_unlock_sequence cs)) 2%Z)
        else 0)%nat
    /\ _unlock_weston dev cs w =
       (negb (weston_locked_on cs (dev_lock_snapshot dev (polls w1))),
        Build_World (now w1) (S (polls w1)) ((now w1, LockCheck) :: log w1))
    /\ (fst (_unlock_weston dev cs w) = true <->
        weston_locked_on cs (dev_lock_snapshot dev (polls w1)) = false).
Proof.
  intros Hf. eexists. split; [reflexivity|].
  split; [apply unlock_attempts_exhausted; exact Hf|].
  rewrite _unlock_weston_eq.
  destruct (unlock_attempts dev cs _ w) as [early w1]. cbn [fst snd] in *.
  subst early. rewrite is_weston_locked_eq. cbn [fst snd].
  split; [reflexivity|]. apply negb_true_iff.
Qed.

Lemma unlock_final_check_decides_witness :
  _unlock_weston Inputs.device_locked Inputs.configs Inputs.world0 =
  (false,
   {| now := 3000; polls := 3;
      log := [(3000, LockCheck); (3000, LockCheck); (2000, X11Click 129 104);
              (1500, X11Click 517 329); (1500, LockCheck);
              (500, X11Click 129 104); (0, X11Click 517 329)] |}).
Proof.
  destruct (unlock_final_check_decides Inputs.device_locked Inputs.configs
              Inputs.world0) as (w1 & Hw1 & _ & Heq & _).
  - reflexivity.
  - rewrite Heq, Hw1. reflexivity.
Defined.

(** ** The main-game gate and [start_game] *)

(** The gate passes exactly when its three checks pass, each on the answer
    the device gives when it is consulted. *)
Lemma is_in_main_game_true_iff (dev : Device) (cs : Configs) (w : World) :
  fst (is_in_main_game dev cs w) = true <->
  dev_is_app_running dev (polls w) = true
  /\ focused (dev_current_activity dev (S (polls w))) = true
  /\ menu_probe cs (dev_screenshot dev (S (S (polls w)))) = Py.Ok true.
Proof.
  unfold is_in_main_game, mbind, emit, check_game_running,
    get_current_activity, query, ret; cbn [fst snd polls now log].
  destruct (dev_is_app_running dev (polls w)); cbn [negb fst snd polls now log].
  2:{ split; [intros H; discriminate H|]. intros (H & _). discriminate H. }
  destruct (focused (dev_current_activity dev (S (polls w))));
    cbn [negb fst snd polls now log].
  2:{ split; [intros H; discriminate H|]. intros (_ & H & _). discriminate H. }
  destruct (menu_probe cs (dev_screenshot dev (S (S (polls w))))) as [[]|];
    cbn [Py.try_except fst snd]; split; intros H; try discriminate H; auto;
    destruct H as (_ & _ & H); discriminate H.
Qed.

Lemma wait_for_game_ready_loop_S (dev : Device) fuel start timeout w :
  wait_for_game_ready_loop dev (S fuel) start timeout w =
  if now w - start <? timeout then
    let (running, w1) := check_game_running dev w in
    if negb running then
      wait_for_game_ready_loop dev fuel start timeout
        (Build_World (now w1 + 2000) (polls w1) (log w1))
    else
      let (activity, w2) := get_current_activity dev w1 in
      if focused activity then (true, w2)
      else wait_for_game_ready_loop dev fuel start timeout
             (Build_World (now w2 + 2000) (polls w2) (log w2))
  else (false, w).
Proof.
  cbn [wait_for_game_ready_loop]. unfold mbind at 1. unfold clock at 1.
  destruct (now w - start <? timeout); [|reflexivity].
  unfold mbind at 1. destruct (check_game_running dev w) as [[] w1];
    cbn [negb]; [|reflexivity].
  unfold mbind at 1. destruct (get_current_activity dev w1) as [activity w2].
  destruct (focused activity); reflexivity.
Qed.

(** The waiting loop never needs more fuel than [wait_for_game_ready] gives
    it: once the remaining fuel covers the timeout at two seconds per
    iteration, more fuel changes nothing. *)
Lemma wait_for_game_ready_loop_fuel (dev : Device) (start timeout : Z) :
  forall fuel w,
    timeout <= now w - start + 2000 * Z.of_nat fuel ->
    wait_for_game_ready_loop dev (S fuel) start timeout w
    = wait_for_game_ready_loop dev fuel start timeout w.
Proof.
  induction fuel as [|fuel IH]; intros w Hfuel.
  - rewrite wait_for_game_ready_loop_S.
    assert (E : (now w - start <? timeout) = false) by (apply Z.ltb_ge; lia).
    rewrite E. reflexivity.
  - rewrite (wait_for_game_ready_loop_S dev (S fuel)).
    rewrite (wait_for_game_ready_loop_S dev fuel).
    destruct (now w - start <? timeout); [|reflexivity].
    destruct (check_game_running dev w) as [running w1] eqn:E1.
    assert (Hw1 : now w1 = now w).
    { unfold check_game_running, query in E1. inversion E1. reflexivity. }
    destruct running; cbn [negb].
    + destruct (get_current_activity dev w1) as [activity w2] eqn:E2.
      assert (Hw2 : now w2 = now w1).
      { unfold get_current_activity, query in E2. inversion E2. reflexivity. }
      destruct (focused activity); [reflexivity|].
      apply IH. cbn [now]. lia.
    + apply IH. cbn [now]. lia.
Qed.

(** [wait_for_game_ready(30)] therefore runs its loop to the end. *)
Lemma wait_for_game_ready_total (dev : Device) (w : World) (extra : nat) :
  wait_for_game_ready_loop dev (16 + extra) (now w) 30000 w
  = wait_for_game_ready dev TIMEOUT_APP_START w.
Proof.
  unfold wait_for_game_ready, TIMEOUT_APP_START, mbind, clock.
  change (Z.to_nat (30 / 2 + 1)) with 16%nat. change (30 * 1000) with 30000.
  induction extra as [|extra IH]; [reflexivity|].
  rewrite <- IH. replace (16 + S extra)%nat with (S (16 + extra)) by lia.
  apply wait_for_game_ready_loop_fuel. lia.
Qed.

(** C1, as stated, on a device whose screen never shows the menu marker:
    every evaluation of the gate fails at its third check, and [start_game]
    returns [True]. *)
Lemma start_game_succeeds_without_confirmation :
  (forall n, menu_probe Inputs.configs
               (dev_screenshot Inputs.device_no_menu n) = Py.Ok false)
  /\ never_in_main_game Inputs.device_no_menu Inputs.configs
  /\ fst (start_game Inputs.device_no_menu Inputs.configs true true true
            Inputs.world0) = true.
Proof.
  split; [intros n; reflexivity|]. split; [intros w; reflexivity|].
  vm_compute. reflexivity.
Qed.

(** C1, amended.  The gate [is_in_main_game] returns [True] exactly when
    all three hold: the game process is alive, the foreground activity
    contains the package name, and the menu-marker probe meets its
    threshold.  [start_game] returns a bare boolean, and it returns [False]
    in exactly two cases: Waydroid could not be brought up; or Waydroid is
    up, the game is relaunched (it was not running, or a restart is forced),
    the caller waits, and the wait that follows the launch times out.  In
    the second case the call ends with that wait, before any evaluation of
    the gate: a failed gate never makes [start_game] return [False]. *)
Theorem main_game_gate_and_start_game (dev : Device) (cs : Configs) :
  (forall w,
      fst (is_in_main_game dev cs w) = true <->
      dev_is_app_running dev (polls w) = true
      /\ focused (dev_current_activity dev (S (polls w))) = true
      /\ menu_probe cs (dev_screenshot dev (S (S (polls w)))) = Py.Ok true)
  /\ (forall wait_for_ready auto_tap force_restart w,
         (fst (start_game dev cs wait_for_ready auto_tap force_restart w) = false
          <->
          fst (ensure_waydroid_running dev w) = false
          \/ (fst (ensure_waydroid_running dev w) = true
              /\ resumes dev cs force_restart w = false
              /\ wait_for_ready = true
              /\ fst (wait_for_game_ready dev TIMEOUT_APP_START
                        (relaunched dev cs w)) = false))
         /\ (fst (ensure_waydroid_running dev w) = true ->
             resumes dev cs force_restart w = false ->
             wait_for_ready = true ->
             fst (wait_for_game_ready dev TIMEOUT_APP_START
                    (relaunched dev cs w)) = false ->
             start_game dev cs wait_for_ready auto_tap force_restart w
             = (false,
                snd (wait_for_game_ready dev TIMEOUT_APP_START
                       (relaunched dev cs w))))).
Proof.
  split; [apply is_in_main_game_true_iff|].
  intros wait_for_ready auto_tap force_restart w.
  unfold resumes, relaunched, prepared, start_game. unfold mbind.
  destruct (ensure_waydroid_running dev w) as [up w1]. cbn [fst snd].
  destruct up; cbn [negb].
  2:{ split; [|intros H; discriminate H].
      split; [intros _; left; reflexivity|intros _; reflexivity]. }
  destruct (is_weston_locked dev cs w1) as [locked w2]. cbn [fst snd].
  destruct ((if locked then _unlock_weston dev cs else ret false) w2)
    as [u w3].
  cbn [fst snd].
  destruct (check_game_running dev w3) as [running w4]. cbn [fst snd].
  destruct (running && negb force_restart).
  - destruct (get_current_activity dev w4) as [activity w5].
    destruct (focused activity).
    + destruct ((if auto_tap then _perform_startup_taps dev cs else ret false) w5).
      cbn [ret fst].
      split; [|intros _ H; discriminate H].
      split; [intros H; discriminate H|].
      intros [H|(_ & H & _)]; discriminate H.
    + destruct (start_app _ w5) as [? w6]. destruct (sleep 2000 w6) as [? w7].
      destruct ((if auto_tap then _perform_startup_taps dev cs else ret false) w7).
      cbn [ret fst].
      split; [|intros _ H; discriminate H].
      split; [intros H; discriminate H|].
      intros [H|(_ & H & _)]; discriminate H.
  - destruct (stop_app w4) as [? w5]. cbn [fst snd].
    destruct (sleep 2000 w5) as [? w6]. cbn [fst snd].
    destruct (start_app None w6) as [launched w7] eqn:El.
    assert (launched = true) as -> by (inversion El; reflexivity).
    cbn [negb fst snd]. destruct wait_for_ready.
    2:{ cbn [ret fst]. split; [|intros _ _ H; discriminate H].
        split; [intros H; discriminate H|].
        intros [H|(_ & _ & H & _)]; discriminate H. }
    destruct (wait_for_game_ready dev TIMEOUT_APP_START w7) as [ready w8].
    destruct ready; cbn [negb fst snd].
    + split; [|intros _ _ _ H; discriminate H].
      split; [|intros [H|(_ & _ & _ & H)]; discriminate H].
      destruct (is_in_main_game dev cs w8) as [[] w9];
        [intros H; discriminate H|].
      destruct ((if auto_tap then _perform_startup_taps dev cs else ret false) w9)
        as [[] w10]; [intros H; discriminate H|].
      destruct (wait_checking dev cs 10 w10) as [[] w11];
        intros H; discriminate H.
    + cbn [ret fst]. split; [|intros _ _ _ _; reflexivity].
      split; [intros _; right; repeat split; reflexivity|reflexivity].
Qed.

Lemma main_game_gate_and_start_game_witness :
  fst (is_in_main_game Inputs.device_in_game Inputs.configs Inputs.world0) = true
  /\ fst (start_game Inputs.device_capture_fails Inputs.configs true true false
            Inputs.world0) = false
  /\ start_game Inputs.device_locked Inputs.configs true true true Inputs.world0
     = (false,
        snd (wait_for_game_ready Inputs.device_locked TIMEOUT_APP_START
               (relaunched Inputs.device_locked Inputs.configs Inputs.world0))).
Proof.
  destruct (main_game_gate_and_start_game Inputs.device_in_game Inputs.configs)
    as [Hgate _].
  destruct (main_game_gate_and_start_game Inputs.device_capture_fails
              Inputs.configs) as [_ Hdown].
  destruct (main_game_gate_and_start_game Inputs.device_locked
              Inputs.configs) as [_ Hlate].
  split; [|split].
  - apply Hgate. repeat split; reflexivity.
  - apply (Hdown true true false Inputs.world0). left. reflexivity.
  - apply (Hlate true true true Inputs.world0); vm_compute; reflexivity.
Defined.

(** On a device that shows the menu marker the same call stops at the first
    evaluation of the gate, before any tap. *)
Example start_game_confirms_the_main_screen :
  start_game Inputs.device_in_game Inputs.configs true true true Inputs.world0
  = (true,
     {| now := 4000; polls := 8;
        log := [(4000, MainGameCheck); (2000, StartApp None); (0, StopApp);
                (0, LockCheck)] |}).
Proof. vm_compute. reflexivity. Qed.

(** ** Reloading the configuration *)

(** C9, as stated: between [self._configs = {}] and the first store a
    reader finds no section at all, which is neither the old nor the new
    configuration. *)
Lemma reload_exposes_an_empty_store :
  ~ atomic_reload Inputs.disk Inputs.configs.
Proof.
  intros H. destruct (H no_configs) as [E|E].
  - right. left. reflexivity.
  - discriminate.
  - discriminate.
Qed.

(** No second thread is needed when a file cannot be read: the exception
    leaves [reload] after the first store, and every later reader finds the
    Weston section alone. *)
Example failed_reload_leaves_a_partial_store :
  reload Inputs.disk_unreadable Inputs.configs = Py.Raise
  /\ last (reload_states Inputs.disk_unreadable Inputs.configs) Inputs.configs
     = {| weston := Some Inputs.config_defaults;
          rok_button := None; rok_unit := None |}.
Proof. split; reflexivity. Qed.

Lemma loading_states_partial (d : Disk) (entries : list (Key * string)) :
  forall s s',
    partially_loaded d s ->
    In s' (loading_states d entries s) -> partially_loaded d s'.
Proof.
  induction entries as [|e rest IH]; intros s s' Hs Hin; [destruct Hin|].
  cbn [loading_states] in Hin.
  destruct (load_config d e s) as [s1|] eqn:E; [|destruct Hin].
  assert (H1 : partially_loaded d s1).
  { destruct Hs as (Hw & Hb & Hu). unfold load_config in E.
    destruct (fst e).
    - destruct (load_file (ui_weston_json d) empty_weston_config) eqn:L;
        [|discriminate]. inversion E; subst. repeat split; assumption.
    - destruct (load_file (ui_rok_button_json d) empty_rok_button_config) eqn:L;
        [|discriminate]. inversion E; subst. repeat split; assumption.
    - destruct (load_file (ui_rok_unit_json d) EmptyString) eqn:L;
        [|discriminate]. inversion E; subst. repeat split; assumption. }
  destruct Hin as [<-|Hin]; [exact H1|]. eapply IH; eassumption.
Qed.

(** C9, amended.  A reload is a sequence of stores: during it a reader finds
    the old configuration, or one in which every section is either missing
    (and read as defaults) or the complete document just loaded from its
    file, never an old section beside a new one and never part of a
    document.  A reload that returns leaves all three sections installed. *)
Theorem reload_installs_section_by_section (d : Disk) (old s : Configs) :
  In s (reload_states d old) ->
  (s = old \/ partially_loaded d s)
  /\ (forall new, reload d old = Py.Ok new ->
                  last (reload_states d old) old = new
                  /\ partially_loaded d new /\ complete new).
Proof.
  intros Hin. split.
  - destruct Hin as [<-|[<-|Hin]]; [left; reflexivity|right|right].
    + repeat split.
    + eapply loading_states_partial; [|exact Hin]. repeat split.
  - intros new. unfold reload, _load_all_configs, reload_states.
    cbn [config_files Py.for_each loading_states].
    unfold load_config at 1 4. cbn [fst].
    destruct (load_file (ui_weston_json d) empty_weston_config) as [wd|] eqn:Lw;
      cbn [Py.bind]; [|discriminate].
    unfold load_config at 1 3. cbn [fst].
    destruct (load_file (ui_rok_button_json d) empty_rok_button_config)
      as [bd|] eqn:Lb; cbn [Py.bind]; [|discriminate].
    unfold load_config. cbn [fst].
    destruct (load_file (ui_rok_unit_json d) EmptyString) as [ud|] eqn:Lu;
      cbn [Py.bind]; [|discriminate].
    intros E. inversion E; subst. cbn.
    split; [reflexivity|]. split.
    + repeat split; assumption.
    + repeat split; discriminate.
Qed.

Lemma reload_installs_section_by_section_witness :
  no_configs = Inputs.configs \/ partially_loaded Inputs.disk no_configs.
Proof.
  apply (reload_installs_section_by_section Inputs.disk Inputs.configs
           no_configs).
  right. left. reflexivity.
Defined.

(** * Properties of the rest of the code *)

(** ** The samplers *)

Lemma icon_sample_counters f x y acc acc' :
  counters_ok acc -> icon_sample f x y acc = Py.Ok acc' -> counters_ok acc'.
Proof.
  unfold icon_sample, counters_ok. intros H.
  destruct (in_bounds f x y); [|intros E; inversion E; subst; assumption].
  destruct (unpack_rgb (getpixel f x y)) as [rgb|]; simpl; [|discriminate].
  destruct (colorful rgb) as [[]|]; simpl; intros E;
    inversion E; subst; simpl; lia.
Qed.

Lemma icon_samples_counters fl f w c :
  icon_samples fl f w = Py.Ok c -> counters_ok c.
Proof.
  unfold icon_samples.
  destruct (Py.range _ _ 20) as [xs|]; cbn [Py.bind]; [|discriminate].
  apply for_each_invariant with (P := counters_ok); [|unfold counters_ok; simpl; lia].
  intros x s s' Hs. destruct (Py.range (-20) 21 10) as [ys|]; cbn [Py.bind]; [|discriminate].
  apply for_each_invariant with (P := counters_ok); [|assumption].
  intros dy t t' Ht. apply icon_sample_counters. assumption.
Qed.

(** X1.  On a capture with at least three bands per pixel (RGB, RGBA) the
    counting loops of the black-screen rule, the lock-button rule and the
    menu probe compute the sampler of the specification: total counts the
    region points inside the frame, matched those of them whose three
    channels are in range. *)
Theorem samplers_refine_match_ratio (f : Frame) (cs : Configs)
  (det : BlackDetection) (ud : UnlockDetection) (w : Window) (ux uy : Z) :
  three_bands f ->
  (forall dxs dys,
      grid_range (x_range (bd_sample_area det)) = Py.Ok dxs ->
      grid_range (y_range (bd_sample_area det)) = Py.Ok dys ->
      black_samples f det w
      = Py.Ok (match_ratio f (bd_color_range det) black_fallback
                 (center_x w) (center_y w) dxs dys))
  /\ (exists dxs dys,
         box_range (Py.get (ba_width (ud_sample_area ud)) 3) = Py.Ok dxs
         /\ box_range (Py.get (ba_height (ud_sample_area ud)) 3) = Py.Ok dys
         /\ lock_samples f ud ux uy
            = Py.Ok (match_ratio f (ud_color_range ud) green_fallback
                       ux uy dxs dys))
  /\ menu_samples cs f
     = Py.Ok (match_ratio f (md_color_range (get_menu_button_detection cs))
                blue_fallback
                (fst (get_menu_button_position cs))
                (snd (get_menu_button_position cs))
                (Py.get (md_offsets (get_menu_button_detection cs)) [-2; 0; 2])
                (Py.get (md_offsets (get_menu_button_detection cs)) [-2; 0; 2])).
Proof.
  intros Hf. split; [|split].
  - intros dxs dys Hx Hy. unfold black_samples. rewrite Hx, Hy.
    apply sample_offsets_is_match_ratio. exact Hf.
  - unfold lock_samples, box_range, Py.range. cbn [Z.eqb].
    eexists. eexists. split; [reflexivity|]. split; [reflexivity|].
    apply sample_offsets_is_match_ratio. exact Hf.
  - unfold menu_samples. apply sample_offsets_is_match_ratio. exact Hf.
Qed.

Lemma samplers_refine_match_ratio_witness :
  menu_samples Inputs.configs Inputs.frame_menu = Py.Ok (9, 9).
Proof.
  destruct (samplers_refine_match_ratio Inputs.frame_menu Inputs.configs
              no_black_detection no_unlock_detection
              (Build_Window 0 0 1024 600) 129 104) as (_ & _ & H).
  - intros x y. unfold Inputs.frame_menu; cbn [getpixel].
    destruct ((985 <=? x) && (x <=? 995) && (525 <=? y) && (y <=? 535));
      repeat eexists.
  - rewrite H. reflexivity.
Defined.

(** X2.  Whatever the frame and the configuration, a sampler that returns
    reports [0 <= matched <= total]: this holds for the black-screen, the
    lock-button and the colourful-pixel rule of the classifier and for the
    menu probe of the controller. *)
Theorem matched_never_exceeds_total (fl : Scaling) (f : Frame)
  (cfg : WestonConfig) (cs : Configs) (w : Window) (rule : Rule)
  (matched total : Z) :
  rule_samples fl f cfg w rule = Py.Ok (matched, total)
  \/ menu_samples cs f = Py.Ok (matched, total) ->
  0 <= matched <= total.
Proof.
  intros [H|H].
  - destruct rule; unfold rule_samples in H.
    + destruct (black_screen cfg); [|inversion H; lia].
      unfold black_samples in H. apply sample_offsets_counters in H. exact H.
    + destruct (button_unlock cfg); [|inversion H; lia].
      unfold lock_samples in H. apply sample_offsets_counters in H. exact H.
    + apply icon_samples_counters in H. exact H.
  - unfold menu_samples in H. apply sample_offsets_counters in H. exact H.
Qed.

Lemma matched_never_exceeds_total_witness : 0 <= 20 <= 25.
Proof.
  apply (matched_never_exceeds_total exact_scaling Inputs.frame_80
           Inputs.config_defaults no_configs
           (weston_default_window Inputs.config_defaults) BlackRule 20 25).
  left. reflexivity.
Defined.

(** ** Captures without colour bands *)

Lemma single_band_sample f cr fb x y acc acc' :
  single_band f -> sample f cr fb x y acc = Py.Ok acc' -> acc' = acc.
Proof.
  intros Hf. unfold sample. destruct (in_bounds f x y).
  - destruct (Hf x y) as [v ->]. discriminate.
  - intros E. inversion E. reflexivity.
Qed.

Lemma single_band_sample_offsets f cr fb ax ay dxs dys c :
  single_band f ->
  sample_offsets f cr fb ax ay dxs dys = Py.Ok c -> c = (0, 0).
Proof.
  intros Hf. unfold sample_offsets. destruct dxs as [xs|]; simpl; [|discriminate].
  apply for_each_invariant with (P := fun s => s = (0, 0)); [|reflexivity].
  intros dx s s' Hs. destruct dys as [ys|]; simpl; [|discriminate].
  apply for_each_invariant with (P := fun s => s = (0, 0)); [|assumption].
  intros dy t t' Ht E. apply (single_band_sample _ _ _ _ _ _ _ Hf) in E.
  congruence.
Qed.

Lemma single_band_icon_samples fl f w c :
  single_band f -> icon_samples fl f w = Py.Ok c -> c = (0, 0).
Proof.
  intros Hf. unfold icon_samples.
  destruct (Py.range _ _ 20) as [xs|]; cbn [Py.bind]; [|discriminate].
  apply for_each_invariant with (P := fun s => s = (0, 0)); [|reflexivity].
  intros x s s' Hs. destruct (Py.range (-20) 21 10) as [ys|]; cbn [Py.bind]; [|discriminate].
  apply for_each_invariant with (P := fun s => s = (0, 0)); [|assumption].
  intros dy t t' Ht. unfold icon_sample.
  destruct (in_bounds f x _).
  - destruct (Hf x (win_y w + scale_07 fl (win_h w) + dy)) as [v ->]. discriminate.
  - intros E. inversion E. congruence.
Qed.

(** X3.  A single-band capture (a grayscale or palette PNG, for which
    [getpixel] returns an integer) is never classified [Black], [Locked] or
    [Loaded]: the first sample inside the frame raises and the classifier
    answers [Unknown]; it answers [Loading] only when no rule has a sample
    inside the frame. *)
Theorem single_band_capture_matches_no_rule (fl : Scaling) (d : Desktop)
  (g : option Window) (f : Frame) :
  xwininfo d = Py.Ok g ->
  capture d = Py.Ok (0, Some f) ->
  single_band f ->
  In (detect_weston_screen_state fl d) [Unknown; Empty; Loading]
  /\ (detect_weston_screen_state fl d = Loading ->
      forall rule, exists m,
        rule_samples fl f (config_on_disk d) (sampled_window d g) rule
        = Py.Ok (m, 0)).
Proof.
  intros Hx Hc Hf.
  destruct (weston_running d) eqn:Hw.
  2:{ unfold detect_weston_screen_state, detect_body. rewrite Hw. cbn.
      split; [auto|discriminate]. }
  rewrite (detect_on_frame fl d g f Hw Hx Hc).
  set (cfg := config_on_disk d). set (w := sampled_window d g).
  unfold classify. destruct (waydroid_running d); cbn [negb].
  2:{ cbn. split; [auto|discriminate]. }
  assert (Hb : black_check f cfg w = Py.Raise
               \/ (black_check f cfg w = Py.Ok false
                   /\ exists m, rule_samples fl f cfg w BlackRule = Py.Ok (m, 0))).
  { unfold black_check, rule_samples.
    destruct (black_screen cfg) as [det|]; [|right; split; [reflexivity|eauto]].
    unfold black_rule.
    destruct (black_samples f det w) as [c|] eqn:E; [|left; reflexivity].
    apply (single_band_sample_offsets _ _ _ _ _ _ _ _ Hf) in E as ->.
    right. split; [reflexivity|eauto]. }
  destruct Hb as [->|[-> Hb]]; [cbn; split; [auto|discriminate]|].
  cbn [Py.bind].
  assert (Hl : lock_check f cfg = Py.Raise
               \/ (lock_check f cfg = Py.Ok false
                   /\ exists m, rule_samples fl f cfg w LockRule = Py.Ok (m, 0))).
  { unfold lock_check, rule_samples.
    destruct (button_unlock cfg) as [el|]; [|right; split; [reflexivity|eauto]].
    unfold lock_rule.
    destruct (lock_samples f _ _ _) as [c|] eqn:E; [|left; reflexivity].
    apply (single_band_sample_offsets _ _ _ _ _ _ _ _ Hf) in E as ->.
    right. split; [reflexivity|eauto]. }
  destruct Hl as [->|[-> Hl]]; [cbn; split; [auto|discriminate]|].
  cbn [Py.bind]. unfold loaded_rule.
  destruct (icon_samples fl f w) as [c|] eqn:E;
    [|cbn; split; [auto|discriminate]].
  apply (single_band_icon_samples _ _ _ _ Hf) in E as E'. subst c.
  cbn. split; [auto|]. intros _ [| |]; [exact Hb|exact Hl|].
  exists 0. exact E.
Qed.

Lemma single_band_capture_matches_no_rule_witness :
  In (detect_weston_screen_state exact_scaling
        (Inputs.desktop Inputs.config_defaults Inputs.frame_mode_l true))
     [Unknown; Empty; Loading].
Proof.
  apply (single_band_capture_matches_no_rule exact_scaling
           (Inputs.desktop Inputs.config_defaults Inputs.frame_mode_l true)
           None Inputs.frame_mode_l); try reflexivity.
  intros x y. exists 0. reflexivity.
Defined.

(** X4.  On single-band captures the two checks of the controller always
    answer [False]: the desktop is reported unlocked whatever it shows, and
    the main-game gate never passes. *)
Theorem single_band_capture_fails_both_checks (dev : Device) (cs : Configs)
  (w : World) :
  (forall n rc f, ls_capture (dev_lock_snapshot dev n) = Py.Ok (rc, Some f) ->
                  single_band f) ->
  (forall n f, dev_screenshot dev n = Some f -> single_band f) ->
  fst (is_weston_locked dev cs w) = false
  /\ fst (is_in_main_game dev cs w) = false.
Proof.
  intros Hlock Hshot. split.
  - rewrite is_weston_locked_eq. cbn [fst].
    unfold weston_locked_on, weston_locked_body.
    destruct (ls_xwininfo (dev_lock_snapshot dev (polls w))) as [g|];
      [|reflexivity].
    cbn [Py.bind].
    destruct (ls_capture (dev_lock_snapshot dev (polls w))) as [[rc img]|] eqn:E;
      [|reflexivity].
    cbn [Py.bind fst snd]. destruct (rc =? 0); [|reflexivity].
    destruct img as [f|]; [|reflexivity].
    specialize (Hlock _ _ _ E).
    unfold black_rule.
    destruct (black_samples f _ _) as [c|] eqn:Eb; [|reflexivity].
    apply (single_band_sample_offsets _ _ _ _ _ _ _ _ Hlock) in Eb as ->.
    cbn [Py.bind fst snd Z.ltb Z.compare andb]. unfold lock_rule.
    destruct (lock_samples f _ _ _) as [c|] eqn:El; [|reflexivity].
    apply (single_band_sample_offsets _ _ _ _ _ _ _ _ Hlock) in El as ->.
    reflexivity.
  - destruct (fst (is_in_main_game dev cs w)) eqn:E; [|reflexivity].
    apply is_in_main_game_true_iff in E. destruct E as (_ & _ & E).
    unfold menu_probe in E.
    destruct (dev_screenshot dev (S (S (polls w)))) as [f|] eqn:Es;
      [|discriminate].
    specialize (Hshot _ _ Es).
    destruct (menu_samples cs f) as [c|] eqn:Em; [|discriminate].
    unfold menu_samples in Em.
    apply (single_band_sample_offsets _ _ _ _ _ _ _ _ Hshot) in Em as ->.
    discriminate.
Qed.

Lemma single_band_capture_fails_both_checks_witness :
  fst (is_weston_locked Cases.device_grayscale Inputs.configs Inputs.world0)
  = false
  /\ fst (is_in_main_game Cases.device_grayscale Inputs.configs Inputs.world0)
     = false.
Proof.
  apply (single_band_capture_fails_both_checks Cases.device_grayscale
           Inputs.configs Inputs.world0).
  - intros n rc f E. inversion E. intros x y. exists 0. reflexivity.
  - intros n f E. inversion E. intros x y. exists 0. reflexivity.
Defined.

(** ** The classifier and the lock check side by side *)

Lemma three_bands_sample_offsets f cr fb ax ay dxs dys :
  three_bands f ->
  exists c, sample_offsets f cr fb ax ay (Py.Ok dxs) (Py.Ok dys) = Py.Ok c.
Proof.
  intros Hf. eexists. apply sample_offsets_is_match_ratio. exact Hf.
Qed.

(** X5.  The classifier of weston.py and the lock check of
    rok_controller.py agree in one direction on every RGB or RGBA capture:
    when both read the same configuration, find the same window with
    xwininfo and look at the same frame, a classification [Black] or
    [Locked] implies that [is_weston_locked] returns [True]. *)
Theorem classified_locked_implies_lock_check (fl : Scaling) (d : Desktop)
  (cs : Configs) (snap : LockSnapshot) (w : Window) (f : Frame) :
  three_bands f ->
  xwininfo d = Py.Ok (Some w) ->
  ls_xwininfo snap = Py.Ok (Some w) ->
  capture d = Py.Ok (0, Some f) ->
  ls_capture snap = Py.Ok (0, Some f) ->
  weston cs = Some (config_on_disk d) ->
  detect_weston_screen_state fl d = Black
  \/ detect_weston_screen_state fl d = Locked ->
  weston_locked_on cs snap = true.
Proof.
  intros Hf Hx Hx' Hc Hc' Hcfg Hstate.
  assert (Hw : weston_running d = true).
  { destruct (weston_running d) eqn:E; [reflexivity|].
    unfold detect_weston_screen_state, detect_body in Hstate.
    rewrite E in Hstate. destruct Hstate; discriminate. }
  rewrite (detect_on_frame fl d (Some w) f Hw Hx Hc) in Hstate.
  unfold sampled_window in Hstate. cbn [Py.get] in Hstate.
  set (cfg := config_on_disk d) in *.
  unfold weston_locked_on, weston_locked_body.
  rewrite Hx', Hc'. cbn [Py.bind Py.get fst snd Z.eqb].
  unfold get_black_screen_detection, get_unlock_button_detection,
    get_unlock_button_position, get_weston_config.
  rewrite Hcfg. cbn [Py.get].
  destruct (classify fl f cfg w (waydroid_running d)) as [s|] eqn:Hcl;
    cbn [Py.try_except] in Hstate; [|destruct Hstate; discriminate].
  destruct Hstate as [-> | ->].
  - apply classify_black in Hcl. unfold black_check in Hcl.
    destruct (black_screen cfg) as [det|]; [|discriminate].
    cbn [Py.get]. rewrite Hcl. reflexivity.
  - pose proof (classify_locked _ _ _ _ _ Hcl) as Hlock.
    unfold lock_check in Hlock.
    destruct (button_unlock cfg) as [el|]; [|discriminate].
    cbn [Py.get fst snd]. rewrite Hlock.
    destruct (black_rule f (Py.get (black_screen cfg) no_black_detection) w)
      as [[]|] eqn:Hb; cbn [Py.bind Py.try_except]; try reflexivity.
    exfalso. unfold black_rule in Hb.
    destruct (black_screen cfg) as [det|] eqn:Hdet; cbn [Py.get] in Hb.
    + unfold classify in Hcl. destruct (waydroid_running d); [|discriminate].
      cbn [negb] in Hcl. unfold black_check, black_rule in Hcl.
      rewrite Hdet in Hcl.
      destruct (black_samples f det w); [discriminate|discriminate].
    + rewrite (black_samples_is_match_ratio f no_black_detection w
                 [-10; -5; 0; 5; 10] [-10; -5; 0; 5; 10] Hf eq_refl eq_refl)
        in Hb.
      discriminate.
Qed.

Lemma classified_locked_implies_lock_check_witness :
  weston_locked_on Cases.configs (Cases.snapshot Inputs.frame_black) = true.
Proof.
  apply (classified_locked_implies_lock_check exact_scaling
           (Cases.desktop Inputs.frame_black) Cases.configs
           (Cases.snapshot Inputs.frame_black) Cases.window Inputs.frame_black);
    try reflexivity.
  - intros x y. exists 0, 0, 0, []. reflexivity.
  - left. reflexivity.
Defined.

(** X6.  Conversely, when [is_weston_locked] returns [True] and the
    configuration has both elements, the classifier, run with the session and
    the compositor up on the same window and frame, returns [Black] or
    [Locked]. *)
Theorem lock_check_implies_classified_locked (fl : Scaling) (d : Desktop)
  (cs : Configs) (snap : LockSnapshot) (w : Window) (f : Frame) :
  weston_running d = true ->
  waydroid_running d = true ->
  xwininfo d = Py.Ok (Some w) ->
  ls_xwininfo snap = Py.Ok (Some w) ->
  capture d = Py.Ok (0, Some f) ->
  ls_capture snap = Py.Ok (0, Some f) ->
  weston cs = Some (config_on_disk d) ->
  black_screen (config_on_disk d) <> None ->
  button_unlock (config_on_disk d) <> None ->
  weston_locked_on cs snap = true ->
  detect_weston_screen_state fl d = Black
  \/ detect_weston_screen_state fl d = Locked.
Proof.
  intros Hw Hs Hx Hx' Hc Hc' Hcfg Hblack Hunlock Hlocked.
  rewrite (detect_on_frame fl d (Some w) f Hw Hx Hc), Hs.
  unfold sampled_window. cbn [Py.get].
  set (cfg := config_on_disk d) in *.
  unfold weston_locked_on, weston_locked_body in Hlocked.
  rewrite Hx', Hc' in Hlocked. cbn [Py.bind Py.get fst snd Z.eqb] in Hlocked.
  unfold get_black_screen_detection, get_unlock_button_detection,
    get_unlock_button_position, get_weston_config in Hlocked.
  rewrite Hcfg in Hlocked. cbn [Py.get] in Hlocked.
  destruct (black_screen cfg) as [det|] eqn:Hdet; [|contradiction].
  destruct (button_unlock cfg) as [el|] eqn:Hel; [|contradiction].
  cbn [Py.get fst snd] in Hlocked.
  unfold classify, black_check, lock_check. rewrite Hdet, Hel. cbn [negb].
  destruct (black_rule f det w) as [[]|]; cbn [Py.bind Py.try_except] in *;
    [left; reflexivity| |discriminate].
  destruct (lock_rule f (ue_detection el) _ _) as [[]|];
    cbn [Py.bind Py.try_except] in *; [right; reflexivity|discriminate|discriminate].
Qed.

Lemma lock_check_implies_classified_locked_witness :
  detect_weston_screen_state exact_scaling (Cases.desktop Inputs.frame_button)
  = Black
  \/ detect_weston_screen_state exact_scaling (Cases.desktop Inputs.frame_button)
     = Locked.
Proof.
  apply (lock_check_implies_classified_locked exact_scaling
           (Cases.desktop Inputs.frame_button) Cases.configs
           (Cases.snapshot Inputs.frame_button) Cases.window
           Inputs.frame_button); try reflexivity; discriminate.
Defined.

(** ** Colour comparison *)

Lemma forallb_combine_sym (P : Z -> Z -> bool) :
  (forall a b, P a b = P b a) ->
  forall l1 l2,
    forallb (fun ab => P (fst ab) (snd ab)) (combine l1 l2)
    = forallb (fun ab => P (fst ab) (snd ab)) (combine l2 l1).
Proof.
  intros Hsym. induction l1 as [|a l1 IH]; intros [|b l2]; cbn; try reflexivity.
  rewrite Hsym, IH. reflexivity.
Qed.

(** X7.  [is_color_in_range] is symmetric in the colour and the target,
    for every tolerance and for tuples of any lengths, [None] and the empty
    tuple included. *)
Theorem is_color_in_range_symmetric (color target_color : option (list Z))
  (tolerance : Z) :
  is_color_in_range color target_color tolerance
  = is_color_in_range target_color color tolerance.
Proof.
  destruct color as [[|c cs]|], target_color as [[|t ts]|]; try reflexivity.
  unfold is_color_in_range.
  apply (forallb_combine_sym (fun a b => Z.abs (a - b) <=? tolerance)).
  intros a b. f_equal. lia.
Qed.

Lemma in_range_triangle t1 t2 : forall a b c : list Z,
  (Nat.min (List.length a) (List.length c) <= List.length b)%nat ->
  forallb (fun ct => Z.abs (fst ct - snd ct) <=? t1) (combine a b) = true ->
  forallb (fun ct => Z.abs (fst ct - snd ct) <=? t2) (combine b c) = true ->
  forallb (fun ct => Z.abs (fst ct - snd ct) <=? t1 + t2) (combine a c) = true.
Proof.
  induction a as [|x a IH]; intros b c Hlen Hab Hbc; [reflexivity|].
  destruct c as [|z c]; [reflexivity|].
  destruct b as [|y b]; [cbn in Hlen; lia|].
  cbn [combine forallb fst snd] in *.
  apply andb_true_iff in Hab as [Hxy Hab]. apply andb_true_iff in Hbc as [Hyz Hbc].
  apply Z.leb_le in Hxy. apply Z.leb_le in Hyz.
  apply andb_true_iff. split; [apply Z.leb_le; lia|].
  apply (IH b c); [cbn [List.length] in Hlen; lia|assumption|assumption].
Qed.

(** X8.  Tolerances add up along a chain of comparisons: if [a] is within
    [t1] of [b] and [b] within [t2] of [c], and [b] is not shorter than both
    [a] and [c], then [a] is within [t1 + t2] of [c]. *)
Theorem is_color_in_range_triangle (a b c : list Z) (t1 t2 : Z) :
  (Nat.min (List.length a) (List.length c) <= List.length b)%nat ->
  is_color_in_range (Some a) (Some b) t1 = true ->
  is_color_in_range (Some b) (Some c) t2 = true ->
  is_color_in_range (Some a) (Some c) (t1 + t2) = true.
Proof.
  intros Hlen Hab Hbc.
  destruct a as [|x a]; [discriminate|]. destruct b as [|y b]; [discriminate|].
  destruct c as [|z c]; [discriminate|].
  unfold is_color_in_range in *.
  apply (in_range_triangle t1 t2 (x :: a) (y :: b) (z :: c)); assumption.
Qed.

Lemma is_color_in_range_triangle_witness :
  is_color_in_range (Some [10; 20; 30]) (Some [40; 20; 0]) (30 + 30) = true.
Proof.
  apply (is_color_in_range_triangle [10; 20; 30] [25; 20; 15; 255] [40; 20; 0]);
    [simpl; lia|reflexivity|reflexivity].
Defined.

Lemma combine_app_left {A B} (l extra : list A) (r : list B) :
  (List.length r <= List.length l)%nat ->
  combine (l ++ extra) r = combine l r.
Proof.
  revert r. induction l as [|a l IH]; intros [|b r] H; cbn in *;
    try reflexivity; try lia.
  - destruct extra; reflexivity.
  - f_equal. apply IH. lia.
Qed.

(** X9.  Channels beyond the length of the other tuple are ignored: an RGBA
    pixel compared with an RGB target is judged on red, green and blue
    alone. *)
Theorem is_color_in_range_ignores_extra_channels (color extra target : list Z)
  (tolerance : Z) :
  color <> [] ->
  (List.length target <= List.length color)%nat ->
  is_color_in_range (Some (color ++ extra)) (Some target) tolerance
  = is_color_in_range (Some color) (Some target) tolerance.
Proof.
  intros Hne Hlen. destruct color as [|c cs]; [contradiction|].
  destruct target as [|t ts]; [reflexivity|].
  unfold is_color_in_range. cbn [app combine forallb]. f_equal. f_equal.
  apply combine_app_left. cbn [List.length] in Hlen. lia.
Qed.

Lemma is_color_in_range_ignores_extra_channels_witness :
  is_color_in_range (Some ([30; 100; 140] ++ [255])) (Some [40; 90; 150]) 30
  = is_color_in_range (Some [30; 100; 140]) (Some [40; 90; 150]) 30.
Proof.
  apply (is_color_in_range_ignores_extra_channels [30; 100; 140] [255]
           [40; 90; 150] 30); [discriminate|simpl; lia].
Defined.

(** ** Waiting for the game and for Waydroid *)

Lemma wait_for_game_ready_loop_spec (dev : Device) (start timeout : Z) :
  forall fuel w,
    now w - start < timeout + 2000 ->
    timeout <= now w - start + 2000 * Z.of_nat fuel ->
    log (snd (wait_for_game_ready_loop dev fuel start timeout w)) = log w
    /\ now w <= now (snd (wait_for_game_ready_loop dev fuel start timeout w))
    /\ (fst (wait_for_game_ready_loop dev fuel start timeout w) = true ->
        now (snd (wait_for_game_ready_loop dev fuel start timeout w)) - start
          < timeout
        /\ exists n, (polls w <= n)%nat
                     /\ dev_is_app_running dev n = true
                     /\ focused (dev_current_activity dev (S n)) = true)
    /\ (fst (wait_for_game_ready_loop dev fuel start timeout w) = false ->
        timeout
        <= now (snd (wait_for_game_ready_loop dev fuel start timeout w)) - start
        < timeout + 2000).
Proof.
  induction fuel as [|fuel IH]; intros w Hlate Hfuel.
  - cbn [wait_for_game_ready_loop ret fst snd].
    split; [reflexivity|]. split; [lia|]. split; [discriminate|]. intros _. lia.
  - rewrite wait_for_game_ready_loop_S.
    destruct (now w - start <? timeout) eqn:Hin.
    2:{ apply Z.ltb_ge in Hin. cbn [fst snd].
        split; [reflexivity|]. split; [lia|]. split; [discriminate|]. intros _. lia. }
    apply Z.ltb_lt in Hin.
    unfold check_game_running, get_current_activity, query.
    cbn [fst snd now polls log].
    destruct (dev_is_app_running dev (polls w)) eqn:Hrun; cbn [negb].
    + destruct (focused (dev_current_activity dev (S (polls w)))) eqn:Hfoc.
      * cbn [fst snd now log]. split; [reflexivity|]. split; [lia|].
        split; [|discriminate]. intros _. split; [lia|].
        exists (polls w). auto.
      * match goal with
        | |- context [wait_for_game_ready_loop dev fuel start timeout ?w2] =>
            destruct (IH w2) as (Hlog & Hnow & Ht & Hf);
            [cbn [now]; lia|cbn [now]; lia|]
        end.
        cbn [now log polls] in *.
        split; [exact Hlog|]. split; [lia|]. split; [|exact Hf].
        intros Hr. destruct (Ht Hr) as (Hlt & n & Hn & Hrest).
        split; [exact Hlt|]. exists n. split; [lia|exact Hrest].
    + match goal with
      | |- context [wait_for_game_ready_loop dev fuel start timeout ?w2] =>
          destruct (IH w2) as (Hlog & Hnow & Ht & Hf);
          [cbn [now]; lia|cbn [now]; lia|]
      end.
      cbn [now log polls] in *.
      split; [exact Hlog|]. split; [lia|]. split; [|exact Hf].
      intros Hr. destruct (Ht Hr) as (Hlt & n & Hn & Hrest).
      split; [exact Hlt|]. exists n. split; [lia|exact Hrest].
Qed.

(** X10.  [wait_for_game_ready(timeout)] is a bounded wait that dispatches
    nothing.  It returns [True] before the timeout has elapsed, and only
    after the device reported the game running and, at the next query, in
    the foreground; it returns [False] once the timeout has elapsed, at most
    two seconds late. *)
Theorem wait_for_game_ready_is_bounded (dev : Device) (timeout : Z) (w : World) :
  0 <= timeout ->
  log (snd (wait_for_game_ready dev timeout w)) = log w
  /\ (fst (wait_for_game_ready dev timeout w) = true ->
      0 <= now (snd (wait_for_game_ready dev timeout w)) - now w < timeout * 1000
      /\ exists n, (polls w <= n)%nat
                   /\ dev_is_app_running dev n = true
                   /\ focused (dev_current_activity dev (S n)) = true)
  /\ (fst (wait_for_game_ready dev timeout w) = false ->
      timeout * 1000
      <= now (snd (wait_for_game_ready dev timeout w)) - now w
      < timeout * 1000 + 2000).
Proof.
  intros Hpos. unfold wait_for_game_ready, mbind, clock.
  assert (Hdiv : 0 <= timeout / 2) by (apply Z.div_pos; lia).
  pose proof (Z.div_mod timeout 2 ltac:(lia)) as Hdm.
  pose proof (Z.mod_pos_bound timeout 2 ltac:(lia)) as Hmod.
  destruct (wait_for_game_ready_loop_spec dev (now w) (timeout * 1000)
              (Z.to_nat (timeout / 2 + 1)) w) as (Hlog & Hnow & Ht & Hf).
  - lia.
  - rewrite Z2Nat.id by lia. lia.
  - split; [exact Hlog|]. split; [|exact Hf].
    intros Hr. destruct (Ht Hr) as (Hlt & Hex). split; [lia|exact Hex].
Qed.

Lemma wait_for_game_ready_is_bounded_witness :
  30 * 1000
  <= now (snd (wait_for_game_ready Inputs.device_capture_fails 30 Inputs.world0))
     - now Inputs.world0
  < 30 * 1000 + 2000.
Proof.
  destruct (wait_for_game_ready_is_bounded Inputs.device_capture_fails 30
              Inputs.world0) as (_ & _ & Hf); [lia|].
  apply Hf. vm_compute. reflexivity.
Defined.

Lemma await_waydroid_S (dev : Device) n w :
  await_waydroid dev (S n) w =
  match dev_waydroid_status dev (polls w) with
  | Py.Raise => (Py.Raise, Build_World (now w + 1000) (S (polls w)) (log w))
  | Py.Ok false =>
      await_waydroid dev n (Build_World (now w + 1000) (S (polls w)) (log w))
  | Py.Ok true =>
      if dev_is_connected dev (S (polls w)) then
        (Py.Ok true, Build_World (now w + 1000 + 5000) (S (S (polls w))) (log w))
      else if dev_connect dev (S (S (polls w))) then
        (Py.Ok true,
         Build_World (now w + 1000 + 5000) (S (S (S (polls w)))) (log w))
      else
        await_waydroid dev n
          (Build_World (now w + 1000 + 5000) (S (S (S (polls w)))) (log w))
  end.
Proof.
  cbn [await_waydroid]. unfold mbind at 1 2. unfold sleep at 1. unfold query at 1.
  cbn [fst snd now polls log].
  destruct (dev_waydroid_status dev (polls w)) as [[]|]; try reflexivity.
  unfold mbind at 1 2. unfold sleep at 1. unfold query at 1.
  cbn [fst snd now polls log].
  destruct (dev_is_connected dev (S (polls w))); [reflexivity|].
  unfold mbind at 1. unfold query at 1. cbn [fst snd now polls log].
  destruct (dev_connect dev (S (S (polls w)))); reflexivity.
Qed.

Lemma await_waydroid_spec (dev : Device) : forall n w,
  log (snd (await_waydroid dev n w)) = log w
  /\ now w <= now (snd (await_waydroid dev n w)) <= now w + 6000 * Z.of_nat n
  /\ (fst (await_waydroid dev n w) = Py.Ok true ->
      exists k, (polls w <= k)%nat
                /\ dev_waydroid_status dev k = Py.Ok true
                /\ (dev_is_connected dev (S k) = true
                    \/ dev_connect dev (S (S k)) = true)).
Proof.
  induction n as [|n IH]; intros w.
  - cbn [await_waydroid ret fst snd]. split; [reflexivity|]. split; [lia|].
    discriminate.
  - rewrite await_waydroid_S.
    destruct (dev_waydroid_status dev (polls w)) as [[]|] eqn:Hst.
    + destruct (dev_is_connected dev (S (polls w))) eqn:Hc.
      { cbn [fst snd now log]. split; [reflexivity|]. split; [lia|].
        intros _. exists (polls w). auto. }
      destruct (dev_connect dev (S (S (polls w)))) eqn:Hc'.
      { cbn [fst snd now log]. split; [reflexivity|]. split; [lia|].
        intros _. exists (polls w). auto. }
      match goal with
      | |- context [await_waydroid dev n ?w2] =>
          destruct (IH w2) as (Hlog & Hnow & Hok)
      end.
      cbn [now log polls] in *. split; [exact Hlog|]. split; [lia|].
      intros Hr. destruct (Hok Hr) as (k & Hk & Hrest).
      exists k. split; [lia|exact Hrest].
    + match goal with
      | |- context [await_waydroid dev n ?w2] =>
          destruct (IH w2) as (Hlog & Hnow & Hok)
      end.
      cbn [now log polls] in *. split; [exact Hlog|]. split; [lia|].
      intros Hr. destruct (Hok Hr) as (k & Hk & Hrest).
      exists k. split; [lia|exact Hrest].
    + cbn [fst snd now log]. split; [reflexivity|]. split; [lia|].
      discriminate.
Qed.

Lemma ensure_waydroid_running_eq (dev : Device) (w : World) :
  ensure_waydroid_running dev w =
  if Py.try_except (dev_pgrep_waydroid dev (polls w)) false then
    (true, Build_World (now w) (S (polls w)) (log w))
  else if negb (dev_script_exists dev (S (polls w))) then
    (false, Build_World (now w) (S (S (polls w))) (log w))
  else
    match dev_popen dev (S (S (polls w))) with
    | Py.Raise => (false, Build_World (now w) (S (S (S (polls w)))) (log w))
    | Py.Ok _ =>
        let (r, w') :=
          await_waydroid dev 60
            (Build_World (now w) (S (S (S (polls w))))
               ((now w, StartScript) :: log w)) in
        (Py.try_except r false, w')
    end.
Proof.
  unfold ensure_waydroid_running, is_waydroid_running, start_waydroid.
  unfold mbind at 1 2. unfold query at 1. unfold ret at 1.
  cbn [fst snd now polls log].
  destruct (Py.try_except (dev_pgrep_waydroid dev (polls w)) false);
    [reflexivity|].
  unfold mbind at 1. unfold query at 1. cbn [fst snd now polls log].
  destruct (dev_script_exists dev (S (polls w))); cbn [negb]; [|reflexivity].
  unfold mbind at 1. unfold query at 1. cbn [fst snd now polls log].
  destruct (dev_popen dev (S (S (polls w)))); [|reflexivity].
  unfold mbind at 1 2. unfold emit at 1. cbn [fst snd now polls log].
  destruct (await_waydroid dev 60 _) as [r w']. reflexivity.
Qed.

(** X11.  In simulated time [ensure_waydroid_running] returns within 360 s
    (60 polls of at most 1 + 5 s of sleep) and launches the start script at
    most once.  It returns [True] only if pgrep found Waydroid, or if a
    status query answered RUNNING and ADB was connected right after it. *)
Theorem ensure_waydroid_running_is_bounded (dev : Device) (w : World) :
  now w <= now (snd (ensure_waydroid_running dev w)) <= now w + 360000
  /\ (log (snd (ensure_waydroid_running dev w)) = log w
      \/ log (snd (ensure_waydroid_running dev w)) = (now w, StartScript) :: log w)
  /\ (fst (ensure_waydroid_running dev w) = true ->
      dev_pgrep_waydroid dev (polls w) = Py.Ok true
      \/ exists k, (polls w <= k)%nat
                   /\ dev_waydroid_status dev k = Py.Ok true
                   /\ (dev_is_connected dev (S k) = true
                       \/ dev_connect dev (S (S k)) = true)).
Proof.
  rewrite ensure_waydroid_running_eq.
  destruct (Py.try_except (dev_pgrep_waydroid dev (polls w)) false) eqn:Hp.
  { cbn [fst snd now log]. split; [lia|]. split; [left; reflexivity|].
    intros _. left.
    destruct (dev_pgrep_waydroid dev (polls w)) as [[]|]; [reflexivity| |];
      discriminate. }
  destruct (dev_script_exists dev (S (polls w))) eqn:Hs; cbn [negb].
  2:{ cbn [fst snd now log]. split; [lia|]. split; [left; reflexivity|].
      discriminate. }
  destruct (dev_popen dev (S (S (polls w)))) as [u|].
  2:{ cbn [fst snd now log]. split; [lia|]. split; [left; reflexivity|].
      discriminate. }
  match goal with
  | |- context [await_waydroid dev 60 ?w2] =>
      destruct (await_waydroid_spec dev 60 w2) as (Hlog & Hnow & Hok);
      destruct (await_waydroid dev 60 w2) as [r w3]
  end.
  cbn [fst snd now log polls] in *.
  split; [lia|]. split; [right; exact Hlog|].
  intros Hr. right. destruct r as [[]|]; try discriminate.
  destruct (Hok eq_refl) as (k & Hk & Hrest). exists k. split; [lia|exact Hrest].
Qed.

Lemma ensure_waydroid_running_is_bounded_witness :
  dev_pgrep_waydroid Cases.device_starting 0 = Py.Ok true
  \/ exists k, (0 <= k)%nat
               /\ dev_waydroid_status Cases.device_starting k = Py.Ok true
               /\ (dev_is_connected Cases.device_starting (S k) = true
                   \/ dev_connect Cases.device_starting (S (S k)) = true).
Proof.
  apply (ensure_waydroid_running_is_bounded Cases.device_starting Inputs.world0).
  vm_compute. reflexivity.
Defined.

(** X12.  When pgrep finds no Waydroid (or fails) and the start script is
    missing, [ensure_waydroid_running] returns [False] at once: nothing is
    launched and no time passes. *)
Theorem missing_start_script_fails_at_once (dev : Device) (w : World) :
  dev_pgrep_waydroid dev (polls w) <> Py.Ok true ->
  dev_script_exists dev (S (polls w)) = false ->
  ensure_waydroid_running dev w
  = (false, Build_World (now w) (S (S (polls w))) (log w)).
Proof.
  intros Hp Hs. rewrite ensure_waydroid_running_eq, Hs.
  destruct (dev_pgrep_waydroid dev (polls w)) as [[]|]; try reflexivity.
  exfalso. apply Hp. reflexivity.
Qed.

Lemma missing_start_script_fails_at_once_witness :
  ensure_waydroid_running Inputs.device_capture_fails Inputs.world0
  = (false, Build_World 0 2 []).
Proof.
  apply (missing_start_script_fails_at_once Inputs.device_capture_fails Inputs.world0).
  - intros H; discriminate H.
  - reflexivity.
Defined.

(** ** What the unlock sequencer dispatches *)

Lemma logged_refl P w : logged P w w.
Proof. exists []. split; [reflexivity|constructor]. Qed.

Lemma logged_trans P w1 w2 w3 :
  logged P w1 w2 -> logged P w2 w3 -> logged P w1 w3.
Proof.
  intros (l1 & E1 & F1) (l2 & E2 & F2). exists (l2 ++ l1).
  split; [rewrite E2, E1, app_assoc; reflexivity|].
  apply Forall_app. split; assumption.
Qed.

Lemma logged_one (P : Action -> Prop) w a :
  P a -> logged P w (Build_World (now w) (polls w) ((now w, a) :: log w)).
Proof.
  intros H. exists [(now w, a)]. split; [reflexivity|].
  constructor; [exact H|constructor].
Qed.

Lemma logged_same_log P w w' : log w' = log w -> logged P w w'.
Proof. intros H. exists []. split; [exact H|constructor]. Qed.

Section UnlockLog.

Variable dev : Device.
Variable cs : Configs.

Lemma run_step_logged s w :
  logged (unlock_action cs) w (snd (run_step cs s w))
  /\ now w <= now (snd (run_step cs s w)).
Proof.
  cbv [run_step mbind x11_click emit sleep ret].
  repeat match goal with
         | |- context [if match ?o with Some _ => _ | None => false end
                       then _ else _] =>
             destruct (match o with Some a => _ | None => false end)
         end;
    destruct (0 <? Py.get (wait_after s) 0) eqn:Hw;
    try apply Z.ltb_lt in Hw; cbn [fst snd now polls log];
    (split; [|lia]);
    try (apply logged_same_log; reflexivity).
  - eapply logged_trans;
      [apply (logged_one _ w); left; reflexivity|apply logged_same_log; reflexivity].
  - apply (logged_one _ w); left; reflexivity.
  - eapply logged_trans;
      [apply (logged_one _ w); right; left; reflexivity
      |apply logged_same_log; reflexivity].
  - apply (logged_one _ w); right; left; reflexivity.
Qed.

Lemma run_steps_logged l : forall w,
  logged (unlock_action cs) w (snd (run_steps cs l w))
  /\ now w <= now (snd (run_steps cs l w)).
Proof.
  induction l as [|s l IH]; intros w.
  - split; [apply logged_refl|cbn; lia].
  - cbn [run_steps]. unfold mbind.
    destruct (run_step_logged s w) as [H1 T1].
    destruct (run_step cs s w) as [u w1]. cbn [snd] in *.
    destruct (IH w1) as [H2 T2].
    split; [eapply logged_trans; eassumption|lia].
Qed.

Lemma is_weston_locked_logged w :
  logged (unlock_action cs) w (snd (is_weston_locked dev cs w))
  /\ now (snd (is_weston_locked dev cs w)) = now w
  /\ polls (snd (is_weston_locked dev cs w)) = S (polls w).
Proof.
  rewrite is_weston_locked_eq. cbn [snd now polls].
  split; [|split; reflexivity].
  exists [(now w, LockCheck)]. split; [reflexivity|].
  constructor; [right; right; reflexivity|constructor].
Qed.

Lemma unlock_attempts_logged n : forall w,
  logged (unlock_action cs) w (snd (unlock_attempts dev cs n w))
  /\ now w <= now (snd (unlock_attempts dev cs n w))
  /\ (polls (snd (unlock_attempts dev cs n w)) <= polls w + n)%nat.
Proof.
  induction n as [|n IH]; intros w.
  - cbn. split; [apply logged_refl|]. split; lia.
  - rewrite unlock_attempts_S. cbn zeta.
    destruct (run_steps_logged (steps (get_unlock_sequence cs)) w) as [H1 T1].
    pose proof (run_steps_polls cs (steps (get_unlock_sequence cs)) w) as P1.
    set (w1 := snd (run_steps cs (steps (get_unlock_sequence cs)) w)) in *.
    destruct (Py.get (verify_after_each (get_unlock_sequence cs)) false).
    + destruct (is_weston_locked_logged w1) as (H2 & T2 & P2).
      destruct (is_weston_locked dev cs w1) as [locked w2]. cbn [snd] in *.
      destruct locked; cbn [negb].
      * destruct (IH w2) as (H3 & T3 & P3).
        split; [eapply logged_trans; [exact H1|eapply logged_trans; eassumption]|].
        split; lia.
      * cbn [snd]. split; [eapply logged_trans; eassumption|]. split; lia.
    + destruct (IH w1) as (H3 & T3 & P3).
      split; [eapply logged_trans; eassumption|]. split; lia.
Qed.

End UnlockLog.

(** X13.  The unlock sequencer only ever dispatches X11 clicks on the centre
    of the configured window or on the unlock button: whatever the steps of
    the configuration say, it never taps Android and never starts or stops
    an app.  It evaluates the lock check at most [max_attempts + 1] times
    and never moves the clock back. *)
Theorem unlock_sequencer_only_clicks (dev : Device) (cs : Configs) (w : World) :
  logged (unlock_action cs) w (snd (_unlock_weston dev cs w))
  /\ now w <= now (snd (_unlock_weston dev cs w))
  /\ (polls (snd (_unlock_weston dev cs w))
      <= polls w
         + Z.to_nat (Py.get (max_attempts (get_unlock_sequence cs)) 2%Z) + 1)%nat.
Proof.
  rewrite _unlock_weston_eq.
  destruct (unlock_attempts_logged dev cs
              (Z.to_nat (Py.get (max_attempts (get_unlock_sequence cs)) 2)) w)
    as (H1 & T1 & P1).
  destruct (unlock_attempts dev cs _ w) as [early w1]. cbn [snd] in *.
  destruct early; cbn [snd].
  - split; [exact H1|]. split; lia.
  - destruct (is_weston_locked_logged dev cs w1) as (H2 & T2 & P2).
    split; [eapply logged_trans; eassumption|]. split; lia.
Qed.

(** ** The two startup sequences *)

Lemma config_burst_effect cs w :
  RoKActions.initial_burst cs w
  = (tt, Build_World (now w + burst_duration) (polls w)
           (rev (map (shift (now w)) (config_burst_log cs)) ++ log w)).
Proof.
  destruct w as [t p l].
  cbv - [Z.add get_weston_window_geometry get_tap_to_start_position
         center_x center_y].
  repeat (f_equal; try lia).
Qed.

Lemma hard_coded_burst_effect w :
  initial_burst w
  = (tt, Build_World (now w + burst_duration) (polls w)
           (rev (map (shift (now w)) burst_log) ++ log w)).
Proof.
  destruct w as [t p l]. cbv - [Z.add]. repeat (f_equal; try lia).
Qed.

(** What follows the burst in both sequences. *)
Lemma after_burst_appends dev cs wb :
  exists new,
    log (snd (let (found, w1) := tap_schedule dev cs (now wb) tap_intervals wb in
              if found then (true, w1) else is_in_main_game dev cs w1))
    = new ++ log wb.
Proof.
  destruct (tap_schedule_spec dev cs (now wb) tap_intervals 0 wb ltac:(lia))
    as (new & Happ & _).
  destruct (tap_schedule dev cs (now wb) tap_intervals wb) as [found w1].
  cbn [snd] in Happ. unfold appended in Happ. destruct found.
  - exists (rev (map (shift (now wb)) new)). exact Happ.
  - destruct (is_in_main_game_effect dev cs w1) as (_ & Hc).
    unfold appended in Hc. rewrite Hc, Happ, app_assoc. eexists; reflexivity.
Qed.

Lemma perform_startup_taps_eq dev cs w :
  RoKActions.perform_startup_taps dev cs w =
  let wb := snd (RoKActions.initial_burst cs w) in
  let (found, w1) := tap_schedule dev cs (now wb) tap_intervals wb in
  if found then (true, w1) else is_in_main_game dev cs w1.
Proof.
  unfold RoKActions.perform_startup_taps. unfold mbind at 1.
  destruct (RoKActions.initial_burst cs w) as [u wb].
  unfold mbind at 1. unfold clock at 1. unfold mbind at 1. cbn [snd].
  destruct (tap_schedule dev cs (now wb) tap_intervals wb) as [[] w1];
    reflexivity.
Qed.

Lemma same_burst_same_run dev cs w :
  center_x (get_weston_window_geometry cs) = 517 ->
  center_y (get_weston_window_geometry cs) = 329 ->
  get_tap_to_start_position cs = (512, 284) ->
  RoKActions.perform_startup_taps dev cs w = _perform_startup_taps dev cs w.
Proof.
  intros Hx Hy Ht.
  rewrite perform_startup_taps_eq, _perform_startup_taps_eq.
  rewrite config_burst_effect, hard_coded_burst_effect.
  unfold config_burst_log, burst_log. rewrite Hx, Hy, Ht. reflexivity.
Qed.

(** X14.  [RoKActions.perform_startup_taps] takes the positions of its
    initial burst from the configuration, the controller's
    [_perform_startup_taps] has them hard-coded.  The two sequences do the
    same on every device and from every state exactly when the configured
    window centre is (517, 329) and the configured tap position is
    (512, 284); under any other configuration the two runs differ. *)
Theorem startup_sequences_agree_iff (dev : Device) (cs : Configs) (w : World) :
  RoKActions.perform_startup_taps dev cs w = _perform_startup_taps dev cs w
  <-> (center_x (get_weston_window_geometry cs) = 517
       /\ center_y (get_weston_window_geometry cs) = 329
       /\ get_tap_to_start_position cs = (512, 284)).
Proof.
  rewrite perform_startup_taps_eq, _perform_startup_taps_eq.
  rewrite config_burst_effect, hard_coded_burst_effect. cbn [snd].
  split.
  - intros H.
    match type of H with
    | (let (_, _) := tap_schedule _ _ (now ?wa) _ ?wa in _)
      = (let (_, _) := tap_schedule _ _ (now ?wc) _ ?wc in _) =>
        destruct (after_burst_appends dev cs wa) as (na & Ha);
        destruct (after_burst_appends dev cs wc) as (nc & Hc);
        apply (f_equal (fun r => rev (log (snd r)))) in H;
        cbn beta in H; rewrite Ha, Hc in H
    end.
    cbn [log] in H. rewrite !rev_app_distr, !rev_involutive in H.
    rewrite <- !app_assoc in H. apply app_inv_head in H.
    unfold config_burst_log, burst_log in H. cbn [map shift fst snd app] in H.
    destruct (get_tap_to_start_position cs) as [tx ty]. cbn [fst snd] in H.
    injection H as H1 H2. intros. subst. 
    repeat match goal with
           | E : X11Click _ _ = X11Click _ _ |- _ => injection E as ? ?
           | E : Tap _ _ = Tap _ _ |- _ => injection E as ? ?
           end.
    subst. auto.
  - intros (Hx & Hy & Ht).
    unfold config_burst_log, burst_log. rewrite Hx, Hy, Ht. reflexivity.
Qed.

Lemma startup_sequences_agree_iff_witness :
  RoKActions.perform_startup_taps Inputs.device_in_game no_configs Inputs.world0
  = _perform_startup_taps Inputs.device_in_game no_configs Inputs.world0.
Proof.
  apply (startup_sequences_agree_iff Inputs.device_in_game no_configs
           Inputs.world0).
  split; [reflexivity|]. split; reflexivity.
Defined.

(** X15.  When [ui_weston.json] and [ui_rok_button.json] are missing or are
    not valid JSON, [reload] succeeds and every position getter answers its
    built-in default; the window centre is then (517, 329) and the tap
    position (512, 284), so the two startup sequences coincide. *)
Theorem missing_config_files_mean_defaults (d : Disk) (old : Configs) :
  handled (ui_weston_json d) -> handled (ui_rok_button_json d) ->
  ui_rok_unit_json d <> Unreadable ->
  exists cs,
    reload d old = Py.Ok cs
    /\ get_weston_window_geometry cs = Build_Window 5 29 1024 600
    /\ get_unlock_button_position cs = (129, 104)
    /\ get_menu_button_position cs = (990, 530)
    /\ get_tap_to_start_position cs = (512, 284)
    /\ forall dev w,
         RoKActions.perform_startup_taps dev cs w
         = _perform_startup_taps dev cs w.
Proof.
  intros Hw Hb Hu. destruct d as [fw fb fu]. cbn [ui_weston_json
    ui_rok_button_json ui_rok_unit_json] in *.
  assert (Hdefaults : forall unit_doc,
    let cs := Build_Configs (Some empty_weston_config)
                (Some empty_rok_button_config) (Some unit_doc) in
    get_weston_window_geometry cs = Build_Window 5 29 1024 600
    /\ get_unlock_button_position cs = (129, 104)
    /\ get_menu_button_position cs = (990, 530)
    /\ get_tap_to_start_position cs = (512, 284)
    /\ forall dev w,
         RoKActions.perform_startup_taps dev cs w
         = _perform_startup_taps dev cs w).
  { intros unit_doc cs.
    split; [reflexivity|]. split; [reflexivity|]. split; [reflexivity|].
    split; [reflexivity|].
    intros dev w. apply same_burst_same_run; reflexivity. }
  destruct Hw as [-> | ->], Hb as [-> | ->];
    destruct fu as [doc| | |]; try (exfalso; apply Hu; reflexivity);
    eexists; (split; [reflexivity|]); apply Hdefaults.
Qed.

Lemma missing_config_files_mean_defaults_witness :
  exists cs,
    reload Cases.disk_empty no_configs = Py.Ok cs
    /\ get_weston_window_geometry cs = Build_Window 5 29 1024 600
    /\ get_unlock_button_position cs = (129, 104)
    /\ get_menu_button_position cs = (990, 530)
    /\ get_tap_to_start_position cs = (512, 284)
    /\ forall dev w,
         RoKActions.perform_startup_taps dev cs w
         = _perform_startup_taps dev cs w.
Proof.
  apply (missing_config_files_mean_defaults Cases.disk_empty no_configs).
  - left. reflexivity.
  - right. reflexivity.
  - intros H; discriminate H.
Defined.

(** X16.  The detector's [get_pixel_color] returns a colour only for a point
    inside the capture whose pixel has at least two bands; the colour has
    exactly three channels, the first bands of the pixel, padded with 0 when
    the pixel has only two; and [is_color_in_range] accepts it against
    itself under every non-negative tolerance. *)
Theorem get_pixel_color_is_a_triple (shot : option Frame) (x y : Z)
  (c : list Z) :
  get_pixel_color shot x y = Some c ->
  exists f bs,
    shot = Some f /\ in_bounds f x y = true /\ getpixel f x y = Bands bs
    /\ (2 <= List.length bs)%nat /\ List.length c = 3%nat
    /\ c = firstn 3 (bs ++ [0])
    /\ forall tolerance, 0 <= tolerance ->
         is_color_in_range (Some c) (Some c) tolerance = true.
Proof.
  unfold get_pixel_color. intros H.
  destruct shot as [f|]; [|discriminate].
  destruct (in_bounds f x y) eqn:Hin; [|discriminate].
  destruct (getpixel f x y) as [v|bs] eqn:Hp; [discriminate|].
  destruct bs as [|p0 [|p1 rest]]; try discriminate.
  injection H as <-. exists f, (p0 :: p1 :: rest).
  split; [reflexivity|]. split; [exact Hin|]. split; [exact Hp|].
  split; [cbn [List.length]; lia|]. split; [reflexivity|].
  split; [destruct rest; reflexivity|].
  intros tol Htol. unfold is_color_in_range. cbn [combine forallb fst snd].
  rewrite !Z.sub_diag. cbn [Z.abs].
  assert (E : (0 <=? tol) = true) by (apply Z.leb_le; exact Htol).
  rewrite E. reflexivity.
Qed.

Lemma get_pixel_color_is_a_triple_witness :
  exists f bs,
    Some Inputs.frame_menu = Some f /\ in_bounds f 990 530 = true
    /\ getpixel f 990 530 = Bands bs
    /\ (2 <= List.length bs)%nat /\ List.length [30; 100; 140] = 3%nat
    /\ [30; 100; 140] = firstn 3 (bs ++ [0])
    /\ forall tolerance, 0 <= tolerance ->
         is_color_in_range (Some [30; 100; 140]) (Some [30; 100; 140]) tolerance
         = true.
Proof.
  apply (get_pixel_color_is_a_triple (Some Inputs.frame_menu) 990 530).
  reflexivity.
Defined.

(** ** The shell's text *)

Lemma all_chars_app p a b :
  Str.all_chars p (a ++ b) = Str.all_chars p a && Str.all_chars p b.
Proof.
  induction a as [|c a IH]; [reflexivity|].
  cbn [append Str.all_chars]. rewrite IH, andb_assoc. reflexivity.
Qed.

Lemma all_chars_impl (p q : Ascii.ascii -> bool) s :
  (forall c, p c = true -> q c = true) ->
  Str.all_chars p s = true -> Str.all_chars q s = true.
Proof.
  intros Hpq. induction s as [|c s IH]; [reflexivity|].
  cbn [Str.all_chars]. intros H. apply andb_true_iff in H as [Hc Hs].
  rewrite (Hpq c Hc), (IH Hs). reflexivity.
Qed.

Lemma prefix_app n : forall a b,
  String.prefix n a = true -> String.prefix n (a ++ b) = true.
Proof.
  induction n as [|c n IH]; intros a b H; [destruct a, b; reflexivity|].
  destruct a as [|c' a]; [discriminate H|].
  cbn [append String.prefix] in *.
  destruct (Ascii.ascii_dec c c'); [apply IH; exact H|discriminate H].
Qed.

Lemma contains_app n a b :
  Py.contains n a = true -> Py.contains n (a ++ b) = true.
Proof.
  induction a as [|c a IH]; intros H.
  - cbn [Py.contains] in H. rewrite orb_false_r in H.
    destruct n; [|discriminate H].
    destruct b; reflexivity.
  - cbn [append Py.contains] in *. apply orb_true_iff in H as [H|H].
    + change (String c (a ++ b)) with (String c a ++ b)%string.
      rewrite (prefix_app n (String c a) b H). reflexivity.
    + rewrite (IH H). apply orb_true_r.
Qed.

Lemma split_not_nil sep s : Str.split sep s <> [].
Proof.
  destruct s as [|c s]; cbn [Str.split]; [discriminate|].
  destruct (Ascii.eqb c sep); [discriminate|].
  destruct (Str.split sep s); discriminate.
Qed.

Lemma split_app sep h t :
  Str.split sep (h ++ String sep t) = Str.split sep h ++ Str.split sep t.
Proof.
  induction h as [|c h IH].
  - cbn [append Str.split]. rewrite Ascii.eqb_refl. reflexivity.
  - cbn [append Str.split]. rewrite IH.
    destruct (Ascii.eqb c sep); [reflexivity|].
    pose proof (split_not_nil sep h) as Hne.
    destruct (Str.split sep h) as [|f fs]; [contradiction|reflexivity].
Qed.

Lemma split_one sep t :
  Str.all_chars (fun c => negb (Ascii.eqb c sep)) t = true ->
  Str.split sep t = [t].
Proof.
  induction t as [|c t IH]; [reflexivity|].
  cbn [Str.all_chars Str.split]. intros H.
  apply andb_true_iff in H as [Hc Ht]. apply negb_true_iff in Hc.
  rewrite Hc, (IH Ht). reflexivity.
Qed.

Lemma last_app_one {A} (l : list A) a d : last (l ++ [a]) d = a.
Proof.
  induction l as [|b l IH]; [reflexivity|].
  cbn [app last]. destruct (l ++ [a]) eqn:E; [|exact IH].
  destruct l; discriminate E.
Qed.

Lemma rstrip_by_head drop c b :
  drop c = false -> exists kept, Str.rstrip_by drop (String c b) = String c kept.
Proof.
  intros H. cbn [Str.rstrip_by]. rewrite H.
  destruct (Str.rstrip_by drop b); eexists; reflexivity.
Qed.

Lemma rstrip_by_app drop a c b :
  drop c = false ->
  Str.rstrip_by drop (a ++ String c b) = (a ++ Str.rstrip_by drop (String c b))%string.
Proof.
  intros H. induction a as [|c0 a IH]; [reflexivity|].
  cbn [append]. change (Str.rstrip_by drop (String c0 (a ++ String c b)))
    with (match Str.rstrip_by drop (a ++ String c b) with
          | EmptyString => if drop c0 then EmptyString else String c0 EmptyString
          | kept => String c0 kept
          end).
  rewrite IH. destruct (rstrip_by_head drop c b H) as (kept & ->).
  destruct a; reflexivity.
Qed.

Lemma rstrip_by_dropped drop a c :
  Str.all_chars (fun x => negb (drop x)) a = true -> drop c = true ->
  Str.rstrip_by drop (a ++ String c EmptyString) = a.
Proof.
  intros Ha Hc. induction a as [|c0 a IH].
  - cbn [append Str.rstrip_by]. rewrite Hc. reflexivity.
  - cbn [Str.all_chars] in Ha. apply andb_true_iff in Ha as [H0 Ha].
    apply negb_true_iff in H0.
    cbn [append]. change (Str.rstrip_by drop (String c0 (a ++ String c EmptyString)))
      with (match Str.rstrip_by drop (a ++ String c EmptyString) with
            | EmptyString => if drop c0 then EmptyString else String c0 EmptyString
            | kept => String c0 kept
            end).
    rewrite (IH Ha), H0. destruct a; reflexivity.
Qed.

Lemma lstrip_plain s t :
  Str.all_chars Str.plain s = true -> Str.is_space (Ascii.ascii_of_nat 125) = false ->
  Str.lstrip (s ++ String (Ascii.ascii_of_nat 125) t)
  = (s ++ String (Ascii.ascii_of_nat 125) t)%string.
Proof.
  intros Hs Hb. destruct s as [|c s]; cbn [append Str.lstrip].
  - rewrite Hb. reflexivity.
  - cbn [Str.all_chars] in Hs. apply andb_true_iff in Hs as [Hc _].
    unfold Str.plain in Hc. apply andb_true_iff in Hc as [Hc _].
    apply negb_true_iff in Hc. rewrite Hc. reflexivity.
Qed.

(** X17.  [get_current_activity] recovers the component from a focus line:
    for every line that mentions a window and ends in a space, a component
    name without whitespace or closing brace, the closing brace and a line
    feed, it returns exactly the component name. *)
Theorem get_current_activity_round_trip (head comp : string) :
  Py.contains "Window{" head = true ->
  Str.all_chars Str.plain comp = true ->
  SimpleADBController.get_current_activity
    (head ++ " " ++ comp ++ "}" ++ Str.newline)
  = Some comp.
Proof.
  intros Hwin Hplain. unfold SimpleADBController.get_current_activity.
  rewrite (contains_app _ head _ Hwin).
  assert (Hne : String.eqb (head ++ " " ++ comp ++ "}" ++ Str.newline)
                  EmptyString = false).
  { destruct head; [discriminate Hwin|reflexivity]. }
  rewrite Hne. cbn [negb andb]. f_equal.
  change (head ++ " " ++ comp ++ "}" ++ Str.newline)%string
    with (head ++ String Str.space (comp ++ "}" ++ Str.newline))%string.
  rewrite split_app.
  rewrite (split_one Str.space (comp ++ "}" ++ Str.newline)).
  2:{ rewrite all_chars_app. apply andb_true_iff. split; [|reflexivity].
      apply (all_chars_impl Str.plain); [|exact Hplain].
      intros c Hc. unfold Str.plain in Hc. apply andb_true_iff in Hc as [Hc _].
      destruct (Ascii.eqb c Str.space) eqn:E; [|reflexivity].
      apply Ascii.eqb_eq in E. subst c. discriminate Hc. }
  rewrite last_app_one. unfold Str.strip.
  change (comp ++ "}" ++ Str.newline)%string
    with (comp ++ String (Ascii.ascii_of_nat 125) Str.newline)%string.
  rewrite (lstrip_plain comp Str.newline Hplain eq_refl).
  unfold Str.rstrip. rewrite rstrip_by_app by reflexivity.
  change (Str.rstrip_by Str.is_space (String (Ascii.ascii_of_nat 125) Str.newline))
    with (String (Ascii.ascii_of_nat 125) EmptyString).
  apply rstrip_by_dropped; [|reflexivity].
  apply (all_chars_impl Str.plain); [|exact Hplain].
  intros c Hc. unfold Str.plain in Hc. apply andb_true_iff in Hc as [_ Hc].
  exact Hc.
Qed.

Lemma get_current_activity_round_trip_witness :
  SimpleADBController.get_current_activity
    ("  mCurrentFocus=Window{1f0c2a7 u0" ++ " "
     ++ "com.lilithgames.rok.gpkr/com.harry.engine.MainActivity"
     ++ "}" ++ Str.newline)
  = Some "com.lilithgames.rok.gpkr/com.harry.engine.MainActivity"%string.
Proof.
  apply (get_current_activity_round_trip "  mCurrentFocus=Window{1f0c2a7 u0"
           "com.lilithgames.rok.gpkr/com.harry.engine.MainActivity");
    reflexivity.
Defined.

Lemma strip_empty s :
  String.eqb (Str.strip s) EmptyString = Str.all_chars Str.is_space s.
Proof.
  unfold Str.strip. induction s as [|c s IH]; [reflexivity|].
  cbn [Str.lstrip Str.all_chars]. destruct (Str.is_space c) eqn:Hc.
  - exact IH.
  - destruct (rstrip_by_head Str.is_space c s Hc) as (kept & E).
    unfold Str.rstrip. rewrite E. reflexivity.
Qed.

(** X18.  [is_app_running] takes the output of [pidof] for a running app
    exactly when it has a character that is not whitespace: an empty output
    and an output of line feeds and blanks both read as not running. *)
Theorem is_app_running_iff_visible_output (result : string) :
  SimpleADBController.is_app_running result
  = negb (Str.all_chars Str.is_space result).
Proof.
  unfold SimpleADBController.is_app_running. rewrite strip_empty.
  destruct result; reflexivity.
Qed.

Lemma press_key_cases (keycode : string) :
  SimpleADBController.press_key keycode = keycode
  \/ In (SimpleADBController.press_key keycode)
        ["4"; "3"; "82"; "26"; "66"]%string.
Proof.
  unfold SimpleADBController.press_key, SimpleADBController.keycodes.
  cbn [SimpleADBController.dict_get].
  repeat match goal with
         | |- context [if ?b then _ else _] =>
             destruct b; [right; cbn [In]; tauto|]
         end.
  left. reflexivity.
Qed.

Lemma upper_digits (s : string) :
  Str.all_chars Str.is_digit s = true -> Str.upper s = s.
Proof.
  induction s as [|c s IH]; [reflexivity|].
  cbn [Str.all_chars Str.upper]. intros H. apply andb_true_iff in H as [Hc Hs].
  rewrite (IH Hs). f_equal.
  destruct c as [[] [] [] [] [] [] [] []]; try discriminate Hc; reflexivity.
Qed.

(** X19.  [press_key] resolves the key it sends with [input keyevent] once
    and for all: resolving a resolved key changes nothing, a keycode made of
    digits is sent as it is, and two spellings of one of the five names that
    differ only in case are sent as the same number. *)
Theorem press_key_resolution (keycode other : string) :
  SimpleADBController.press_key (SimpleADBController.press_key keycode)
  = SimpleADBController.press_key keycode
  /\ (Str.all_chars Str.is_digit keycode = true ->
      SimpleADBController.press_key keycode = keycode)
  /\ (Str.upper keycode = Str.upper other ->
      In (Str.upper keycode) (map fst SimpleADBController.keycodes) ->
      SimpleADBController.press_key keycode
      = SimpleADBController.press_key other
      /\ Str.all_chars Str.is_digit (SimpleADBController.press_key keycode)
         = true).
Proof.
  split; [|split].
  - destruct (press_key_cases keycode) as [H|H].
    + rewrite H. exact H.
    + cbn [In] in H.
      destruct H as [H|[H|[H|[H|[H|[]]]]]]; rewrite <- H; reflexivity.
  - intros Hd. unfold SimpleADBController.press_key.
    rewrite (upper_digits keycode Hd).
    destruct keycode as [|c s]; [reflexivity|].
    cbn [Str.all_chars] in Hd. apply andb_true_iff in Hd as [Hc _].
    destruct c as [[] [] [] [] [] [] [] []]; try discriminate Hc; reflexivity.
  - intros Hup Hin. unfold SimpleADBController.press_key. rewrite <- Hup.
    cbn [map fst SimpleADBController.keycodes In] in Hin.
    destruct Hin as [H|[H|[H|[H|[H|[]]]]]]; rewrite <- H;
      split; reflexivity.
Qed.

Lemma press_key_resolution_witness :
  SimpleADBController.press_key "26" = "26"%string
  /\ SimpleADBController.press_key "back" = SimpleADBController.press_key "Back".
Proof.
  destruct (press_key_resolution "26" "26") as (_ & Hd & _).
  destruct (press_key_resolution "back" "Back") as (_ & _ & Hc).
  split; [apply Hd; reflexivity|].
  apply Hc; [reflexivity|]. cbn. tauto.
Defined.

Lemma replace_space_has_no_space (text : string) :
  Str.no_space (Str.replace Str.space "%s" text) = true.
Proof.
  unfold Str.no_space. induction text as [|c text IH]; [reflexivity|].
  cbn [Str.replace]. destruct (Ascii.eqb c Str.space) eqn:E.
  - rewrite all_chars_app, IH. reflexivity.
  - cbn [Str.all_chars]. rewrite E, IH. reflexivity.
Qed.

Lemma replace_ampersand_keeps_no_space (s : string) :
  Str.no_space s = true ->
  Str.no_space (Str.replace Str.ampersand "\&" s) = true.
Proof.
  unfold Str.no_space. induction s as [|c s IH]; [reflexivity|].
  cbn [Str.all_chars Str.replace]. intros H.
  apply andb_true_iff in H as [Hc Hs].
  destruct (Ascii.eqb c Str.ampersand).
  - rewrite all_chars_app, (IH Hs). reflexivity.
  - cbn [Str.all_chars]. rewrite Hc, (IH Hs). reflexivity.
Qed.

Lemma replace_ampersand_escapes (s : string) : forall escaped,
  Str.ampersands_escaped escaped
    (Str.replace Str.ampersand "\&" s) = true.
Proof.
  induction s as [|c s IH]; intros escaped; [reflexivity|].
  cbn [Str.replace]. destruct (Ascii.eqb c Str.ampersand) eqn:E.
  - cbn [append Str.ampersands_escaped]. rewrite IH. reflexivity.
  - cbn [Str.ampersands_escaped].
    unfold Str.ampersand in E. rewrite E, IH. reflexivity.
Qed.

(** X20.  The text [input_text] puts into its shell command has no space
    (each one became [%s]) and no ampersand that does not follow a
    backslash, whatever the text was. *)
Theorem input_text_escapes_spaces_and_ampersands (text : string) :
  Str.no_space (SimpleADBController.input_text text) = true
  /\ Str.ampersands_escaped false (SimpleADBController.input_text text) = true.
Proof.
  unfold SimpleADBController.input_text. split.
  - apply replace_ampersand_keeps_no_space, replace_space_has_no_space.
  - apply replace_ampersand_escapes.
Qed.

(** ** The host side *)

Lemma contains_prefix_self n t : String.prefix n (n ++ t) = true.
Proof.
  induction n as [|c n IH]; [destruct t; reflexivity|].
  cbn [append String.prefix].
  destruct (Ascii.ascii_dec c c) as [_|Hne]; [exact IH|contradiction].
Qed.

Lemma contains_prefix n s : String.prefix n s = true -> Py.contains n s = true.
Proof. intros H. destruct s; cbn [Py.contains]; rewrite H; reflexivity. Qed.

Lemma contains_middle n h t : Py.contains n (h ++ n ++ t) = true.
Proof.
  induction h as [|c h IH].
  - cbn [append]. apply contains_prefix, contains_prefix_self.
  - cbn [append Py.contains]. rewrite IH. apply orb_true_r.
Qed.

Lemma lower_app a b : Str.lower (a ++ b) = (Str.lower a ++ Str.lower b)%string.
Proof.
  induction a as [|c a IH]; [reflexivity|].
  cbn [append Str.lower]. rewrite IH. reflexivity.
Qed.

(** X21.  [is_notification_panel_shown] answers [True] for every focus line
    that mentions one of its four indicators anywhere and in any mix of
    upper and lower case: in particular for every window of the package
    com.android.systemui, panel or not. *)
Theorem panel_indicator_anywhere_any_case (head word tail : string) :
  In (Str.lower word) WestonController.notification_indicators ->
  WestonController.panel_in_focus (head ++ word ++ tail) = true.
Proof.
  intros Hin. unfold WestonController.panel_in_focus.
  apply existsb_exists. exists (Str.lower word). split; [exact Hin|].
  rewrite !lower_app. apply contains_middle.
Qed.

Lemma panel_indicator_anywhere_any_case_witness :
  WestonController.panel_in_focus
    ("  mCurrentFocus=Window{9d1c2f u0 com.android." ++ "SystemUI"
     ++ "/com.android.systemui.volume.VolumeDialog}")
  = true.
Proof.
  apply (panel_indicator_anywhere_any_case
           "  mCurrentFocus=Window{9d1c2f u0 com.android." "SystemUI"
           "/com.android.systemui.volume.VolumeDialog}").
  cbn. tauto.
Defined.

Section StopWeston.

Variable host : Host.

Lemma await_weston_stopped_S n s :
  WestonController.await_weston_stopped host (S n) s =
  if host_weston_running host (host_polls s) then
    WestonController.await_weston_stopped host n
      (Build_Session
         (Build_World (now (world s) + 500) (polls (world s)) (log (world s)))
         (S (host_polls s)) (host_log s))
  else
    (true,
     Build_Session
       (Build_World (now (world s) + 500) (polls (world s)) (log (world s)))
       (S (host_polls s)) (host_log s)).
Proof.
  cbn [WestonController.await_weston_stopped].
  unfold hbind at 1 2. unfold lift at 1. unfold sleep at 1.
  unfold WestonController.is_weston_running at 1. unfold host_query at 1.
  cbn [world host_polls host_log fst snd].
  destruct (host_weston_running host (host_polls s)); reflexivity.
Qed.

Lemma await_weston_stopped_spec n : forall s,
  let r := WestonController.await_weston_stopped host n s in
  host_log (snd r) = host_log s
  /\ log (world (snd r)) = log (world s)
  /\ now (world s) <= now (world (snd r)) <= now (world s) + 500 * Z.of_nat n
  /\ (host_polls (snd r) <= host_polls s + n)%nat
  /\ (fst r = true ->
      exists k, (host_polls s <= k < host_polls s + n)%nat
                /\ host_weston_running host k = false)
  /\ (fst r = false ->
      now (world (snd r)) = now (world s) + 500 * Z.of_nat n
      /\ host_polls (snd r) = (host_polls s + n)%nat
      /\ forall i, (i < n)%nat ->
                   host_weston_running host (host_polls s + i) = true).
Proof.
  induction n as [|n IH]; intros s; cbn zeta.
  - cbn [WestonController.await_weston_stopped hret fst snd].
    repeat split; try reflexivity; try lia; try discriminate.
  - rewrite await_weston_stopped_S.
    destruct (host_weston_running host (host_polls s)) eqn:Hrun.
    + match goal with
      | |- context [WestonController.await_weston_stopped host n ?s2] =>
          destruct (IH s2) as (Hl & Hw & Ht & Hp & Htrue & Hfalse)
      end.
      cbn [world host_polls host_log now log polls] in *.
      split; [exact Hl|]. split; [exact Hw|]. split; [lia|]. split; [lia|].
      split.
      * intros Hr. destruct (Htrue Hr) as (k & Hk & Hk').
        exists k. split; [lia|exact Hk'].
      * intros Hr. destruct (Hfalse Hr) as (Hn & Hpp & Hall).
        split; [lia|]. split; [lia|].
        intros i Hi. destruct i as [|i].
        { rewrite Nat.add_0_r. exact Hrun. }
        replace (host_polls s + S i)%nat with (S (host_polls s) + i)%nat by lia.
        apply Hall. lia.
    + cbn [fst snd world host_polls host_log now log].
      split; [reflexivity|]. split; [reflexivity|]. split; [lia|]. split; [lia|].
      split; [|discriminate].
      intros _. exists (host_polls s). split; [lia|exact Hrun].
Qed.

Lemma stop_weston_eq s :
  WestonController.stop_weston host s =
  let s1 := Build_Session (world s) (S (host_polls s)) (host_log s) in
  if host_weston_running host (host_polls s) then
    let s2 := Build_Session (world s) (S (S (host_polls s)))
                ((now (world s), Pkill false) :: host_log s) in
    match host_run host (S (host_polls s)) with
    | Py.Raise => (false, s2)
    | Py.Ok _ =>
        let (stopped, s3) := WestonController.await_weston_stopped host 10 s2 in
        if stopped then (true, s3) else
        let s4 := Build_Session (world s3) (S (host_polls s3))
                    ((now (world s3), Pkill true) :: host_log s3) in
        match host_run host (host_polls s3) with
        | Py.Raise => (false, s4)
        | Py.Ok _ =>
            (negb (host_weston_running host (S (host_polls s3))),
             Build_Session
               (Build_World (now (world s3) + 1000) (polls (world s3))
                  (log (world s3)))
               (S (S (host_polls s3)))
               ((now (world s3), Pkill true) :: host_log s3))
        end
    end
  else (true, s1).
Proof.
  unfold WestonController.stop_weston.
  unfold hbind at 1. unfold WestonController.is_weston_running at 1.
  unfold host_query at 1. cbn zeta.
  destruct (host_weston_running host (host_polls s)); cbn [negb];
    [|reflexivity].
  unfold hbind at 1 2. unfold dispatch at 1. unfold host_query at 1.
  cbn [world host_polls host_log].
  destruct (host_run host (S (host_polls s))); [|reflexivity].
  unfold hbind at 1.
  destruct (WestonController.await_weston_stopped host 10 _) as [stopped s3].
  destruct stopped; [reflexivity|].
  unfold hbind at 1 2. unfold dispatch at 1. unfold host_query at 1.
  cbn [world host_polls host_log].
  destruct (host_run host (host_polls s3)); [|reflexivity].
  unfold hbind at 1 2. unfold lift at 1. unfold sleep at 1.
  unfold WestonController.is_weston_running at 1. unfold host_query at 1.
  cbn [world host_polls host_log fst snd]. reflexivity.
Qed.

End StopWeston.

(** X22.  In simulated time [stop_weston] returns within 6 s.  It returns
    [True] only after a check found Weston not running.  When Weston is not
    running at the first check it dispatches nothing and returns [True].
    When Weston is running at the first check it dispatches one pkill at
    once; that is all it dispatches when the pkill raises or one of the ten
    checks that follow finds Weston gone; otherwise, after those ten checks
    over 5 s all found Weston still running, it dispatches a second one,
    with -9, and nothing more. *)
Theorem stop_weston_escalates_after_five_seconds (host : Host) (s : Session) :
  let r := WestonController.stop_weston host s in
  now (world s) <= now (world (snd r)) <= now (world s) + 6000
  /\ log (world (snd r)) = log (world s)
  /\ (fst r = true ->
      exists k, (host_polls s <= k)%nat /\ host_weston_running host k = false)
  /\ (host_weston_running host (host_polls s) = false ->
      fst r = true /\ host_log (snd r) = host_log s)
  /\ (host_weston_running host (host_polls s) = true ->
      (host_log (snd r) = (now (world s), Pkill false) :: host_log s
       /\ (host_run host (S (host_polls s)) = Py.Raise
           \/ exists i, (i < 10)%nat
                        /\ host_weston_running host (host_polls s + 2 + i)
                           = false))
      \/ (host_log (snd r)
          = (now (world s) + 5000, Pkill true)
            :: (now (world s), Pkill false) :: host_log s
          /\ host_run host (S (host_polls s)) <> Py.Raise
          /\ forall i, (i < 10)%nat ->
               host_weston_running host (host_polls s + 2 + i) = true)).
Proof.
  cbn zeta. rewrite stop_weston_eq. cbn zeta.
  destruct (host_weston_running host (host_polls s)) eqn:Hrun.
  2:{ cbn [fst snd world host_log]. split; [lia|]. split; [reflexivity|].
      split; [intros _; exists (host_polls s); split; [lia|exact Hrun]|].
      split; [intros _; split; reflexivity|]. intros H; discriminate H. }
  destruct (host_run host (S (host_polls s))) as [u|] eqn:Hkill.
  2:{ cbn [fst snd world host_log]. split; [lia|]. split; [reflexivity|].
      split; [intros H; discriminate H|]. split; [intros H; discriminate H|].
      intros _. left. split; [reflexivity|]. left. reflexivity. }
  match goal with
  | |- context [WestonController.await_weston_stopped host 10 ?s2] =>
      pose proof (await_weston_stopped_spec host 10 s2) as Hspec;
      cbn zeta in Hspec;
      destruct (WestonController.await_weston_stopped host 10 s2)
        as [stopped s3]
  end.
  cbn [fst snd world host_polls host_log] in Hspec.
  destruct Hspec as (Hl & Hw & Ht & Hp & Htrue & Hfalse).
  destruct stopped.
  - destruct (Htrue eq_refl) as (k & Hk & Hk').
    cbn [fst snd]. split; [lia|]. split; [exact Hw|].
    split; [intros _; exists k; split; [lia|exact Hk']|].
    split; [intros H; discriminate H|].
    intros _. left. split; [exact Hl|]. right.
    exists (k - (host_polls s + 2))%nat. split; [lia|].
    replace (host_polls s + 2 + (k - (host_polls s + 2)))%nat with k by lia.
    exact Hk'.
  - destruct (Hfalse eq_refl) as (Hn & Hpp & Hall).
    assert (Hforce : forall i, (i < 10)%nat ->
              host_weston_running host (host_polls s + 2 + i) = true).
    { intros i Hi.
      replace (host_polls s + 2 + i)%nat with (S (S (host_polls s)) + i)%nat
        by lia.
      apply Hall. exact Hi. }
    assert (Hlog : (now (world s3), Pkill true) :: host_log s3
                   = (now (world s) + 5000, Pkill true)
                     :: (now (world s), Pkill false) :: host_log s).
    { rewrite Hl, Hn. repeat f_equal. }
    destruct (host_run host (host_polls s3)) as [u'|].
    + cbn [fst snd world host_log now log]. split; [lia|]. split; [exact Hw|].
      split.
      { intros Hr. apply negb_true_iff in Hr.
        exists (S (host_polls s3)). split; [lia|exact Hr]. }
      split; [intros H; discriminate H|]. intros _. right.
      split; [exact Hlog|]. split; [intros H; discriminate H|exact Hforce].
    + cbn [fst snd world host_log]. split; [lia|]. split; [exact Hw|].
      split; [intros H; discriminate H|]. split; [intros H; discriminate H|].
      intros _. right.
      split; [exact Hlog|]. split; [intros H; discriminate H|exact Hforce].
Qed.

Lemma stop_weston_escalates_after_five_seconds_witness :
  (fst (WestonController.stop_weston Hosts.host_idle Hosts.session0) = true
   /\ host_log (snd (WestonController.stop_weston Hosts.host_idle
                       Hosts.session0)) = [])
  /\ host_log (snd (WestonController.stop_weston Hosts.host_stuck
                      Hosts.session0))
     = [(5000, Pkill true); (0, Pkill false)].
Proof.
  split.
  - apply (stop_weston_escalates_after_five_seconds Hosts.host_idle
             Hosts.session0).
    reflexivity.
  - destruct (stop_weston_escalates_after_five_seconds Hosts.host_stuck
                Hosts.session0) as (_ & _ & _ & _ & Hrunning).
    destruct (Hrunning eq_refl) as [(_ & [Hraise | (i & _ & Hgone)]) | (Hlog & _)].
    + discriminate Hraise.
    + discriminate Hgone.
    + exact Hlog.
Defined.

(** ** The notification watchdog of the start endpoint *)

Lemma bounded_run_refl s : bounded_run 0 0 0 s s.
Proof.
  unfold bounded_run. split; [lia|].
  split; exists []; (split; [reflexivity|]); (split; [cbn; lia|constructor]).
Qed.

Lemma bounded_run_trans d1 k1 c1 d2 k2 c2 s s1 s2 :
  bounded_run d1 k1 c1 s s1 -> bounded_run d2 k2 c2 s1 s2 ->
  bounded_run (d1 + d2) (k1 + k2) (c1 + c2) s s2.
Proof.
  intros (T1 & (p1 & P1 & L1 & F1) & (q1 & Q1 & M1 & G1))
         (T2 & (p2 & P2 & L2 & F2) & (q2 & Q2 & M2 & G2)).
  unfold bounded_run. split; [lia|]. split.
  - exists (p2 ++ p1). rewrite P2, P1, app_assoc. split; [reflexivity|].
    rewrite length_app. split; [lia|]. apply Forall_app. split; assumption.
  - exists (q2 ++ q1). rewrite Q2, Q1, app_assoc. split; [reflexivity|].
    rewrite length_app. split; [lia|]. apply Forall_app. split; assumption.
Qed.

Lemma bounded_run_weaken d k c d' k' c' s s' :
  bounded_run d k c s s' -> d <= d' -> (k <= k')%nat -> (c <= c')%nat ->
  bounded_run d' k' c' s s'.
Proof.
  intros (T & (p & P & L & F) & (q & Q & M & G)) Hd Hk Hc.
  unfold bounded_run. split; [lia|]. split.
  - exists p. split; [exact P|]. split; [lia|exact F].
  - exists q. split; [exact Q|]. split; [lia|exact G].
Qed.

Section Watchdog.

Variable dev : Device.
Variable cs : Configs.
Variable host : Host.

Lemma panel_shown_effect s :
  snd (WestonController.is_notification_panel_shown host s)
  = Build_Session (world s) (S (host_polls s)) (host_log s).
Proof. reflexivity. Qed.

Lemma panel_shown_bounded s :
  bounded_run 0 0 0 s (snd (WestonController.is_notification_panel_shown host s)).
Proof.
  rewrite panel_shown_effect. unfold bounded_run. cbn [world host_log].
  split; [lia|].
  split; exists []; (split; [reflexivity|]); (split; [cbn; lia|constructor]).
Qed.

Lemma sleep_bounded d s :
  0 <= d -> bounded_run d 0 0 s (snd (lift (sleep d) s)).
Proof.
  intros Hd. unfold lift, sleep, bounded_run. cbn [fst snd world host_log now log].
  split; [lia|].
  split; exists []; (split; [reflexivity|]); (split; [cbn; lia|constructor]).
Qed.

Lemma close_panel_bounded s :
  bounded_run 1000 1 0 s (snd (WestonController.close_notification_panel host s)).
Proof.
  unfold WestonController.close_notification_panel.
  unfold hbind at 1 2. unfold dispatch at 1. unfold host_query at 1.
  cbn [world host_polls host_log].
  destruct (host_run host (host_polls s)).
  - unfold hbind at 1 2. unfold lift at 1. unfold sleep at 1.
    cbn [world host_polls host_log fst snd].
    match goal with
    | |- context [WestonController.is_notification_panel_shown host ?s2] =>
        pose proof (panel_shown_effect s2) as E;
        destruct (WestonController.is_notification_panel_shown host s2)
          as [shown s3]
    end.
    cbn [snd] in E. subst s3. unfold hret, bounded_run.
    cbn [fst snd world host_log now log]. split; [lia|]. split.
    + exists [(now (world s), KeyEvent 4)]. split; [reflexivity|].
      split; [cbn; lia|]. constructor; [reflexivity|constructor].
    + exists []. split; [reflexivity|]. split; [cbn; lia|constructor].
  - unfold hret, bounded_run. cbn [fst snd world host_log]. split; [lia|]. split.
    + exists [(now (world s), KeyEvent 4)]. split; [reflexivity|].
      split; [cbn; lia|]. constructor; [reflexivity|constructor].
    + exists []. split; [reflexivity|]. split; [cbn; lia|constructor].
Qed.

Lemma main_check_bounded s :
  bounded_run 0 0 1 s (snd (lift (is_in_main_game dev cs) s)).
Proof.
  unfold lift. destruct (is_in_main_game_effect dev cs (world s)) as (Hn & Ha).
  destruct (is_in_main_game dev cs (world s)) as [inside w'].
  cbn [snd] in *. unfold appended in Ha. unfold bounded_run.
  cbn [world host_log]. split; [lia|]. split.
  - exists []. split; [reflexivity|]. split; [cbn; lia|constructor].
  - exists [(now (world s), MainGameCheck)]. split; [exact Ha|].
    split; [cbn; lia|]. constructor; [reflexivity|constructor].
Qed.

(** The close-and-recheck branch of one iteration. *)
Lemma panel_branch_bounded (shown : bool) s :
  bounded_run 6000 2 0 s
    (snd ((if shown then Server.close_panel_twice host else hret tt) s)).
Proof.
  destruct shown.
  2:{ apply (bounded_run_weaken 0 0 0); [apply bounded_run_refl|lia..]. }
  unfold Server.close_panel_twice. unfold hbind at 1.
  pose proof (close_panel_bounded s) as H1.
  destruct (WestonController.close_notification_panel host s) as [c1 s1].
  cbn [snd] in H1. unfold hbind at 1.
  pose proof (sleep_bounded 2000 s1 ltac:(lia)) as H2.
  destruct (lift (sleep 2000) s1) as [u s2]. cbn [snd] in H2.
  unfold hbind at 1.
  pose proof (panel_shown_bounded s2) as H3.
  destruct (WestonController.is_notification_panel_shown host s2) as [still s3].
  cbn [snd] in H3.
  pose proof (bounded_run_trans _ _ _ _ _ _ _ _ _ H1
                (bounded_run_trans _ _ _ _ _ _ _ _ _ H2 H3)) as H123.
  destruct still; cbn [negb].
  - unfold hbind at 1.
    pose proof (close_panel_bounded s3) as H4.
    destruct (WestonController.close_notification_panel host s3) as [c2 s4].
    cbn [snd] in H4.
    pose proof (sleep_bounded 2000 s4 ltac:(lia)) as H5.
    destruct (lift (sleep 2000) s4) as [u' s5]. cbn [snd] in *.
    pose proof (bounded_run_trans _ _ _ _ _ _ _ _ _ H123
                  (bounded_run_trans _ _ _ _ _ _ _ _ _ H4 H5)) as H.
    apply (bounded_run_weaken _ _ _ _ _ _ _ _ H); lia.
  - cbn [hret snd]. apply (bounded_run_weaken _ _ _ _ _ _ _ _ H123); lia.
Qed.

Lemma panel_checks_S n s :
  Server.panel_checks dev cs host (S n) s =
  let (shown, s1) := WestonController.is_notification_panel_shown host s in
  let s2 := snd ((if shown then Server.close_panel_twice host else hret tt) s1) in
  let (inside, s3) := lift (is_in_main_game dev cs) s2 in
  if inside then (tt, s3)
  else Server.panel_checks dev cs host n
         (Build_Session
            (Build_World (now (world s3) + 5000) (polls (world s3))
               (log (world s3)))
            (host_polls s3) (host_log s3)).
Proof.
  cbn [Server.panel_checks]. unfold hbind at 1.
  destruct (WestonController.is_notification_panel_shown host s) as [shown s1].
  unfold hbind at 1. cbn zeta.
  destruct ((if shown then Server.close_panel_twice host else hret tt) s1)
    as [u s2].
  unfold hbind at 1. cbn [snd].
  destruct (lift (is_in_main_game dev cs) s2) as [inside s3].
  destruct inside; [reflexivity|].
  unfold hbind at 1. unfold lift at 1. unfold sleep at 1. reflexivity.
Qed.

Lemma panel_checks_bounded n : forall s,
  bounded_run (11000 * Z.of_nat n) (2 * n) n s
    (snd (Server.panel_checks dev cs host n s))
  /\ (never_in_main_game dev cs ->
      now (world s) + 5000 * Z.of_nat n
      <= now (world (snd (Server.panel_checks dev cs host n s)))).
Proof.
  induction n as [|n IH]; intros s.
  - cbn [Server.panel_checks hret snd]. split; [|intros _; lia].
    apply (bounded_run_weaken 0 0 0); [apply bounded_run_refl|lia..].
  - rewrite panel_checks_S.
    pose proof (panel_shown_bounded s) as H1.
    destruct (WestonController.is_notification_panel_shown host s) as [shown s1].
    cbn [snd] in H1. cbn zeta.
    pose proof (panel_branch_bounded shown s1) as H2.
    set (s2 := snd ((if shown then Server.close_panel_twice host else hret tt) s1))
      in *. clearbody s2.
    pose proof (main_check_bounded s2) as H3.
    assert (Hinside : never_in_main_game dev cs ->
                      fst (lift (is_in_main_game dev cs) s2) = false).
    { intros Hnever. unfold lift. specialize (Hnever (world s2)).
      destruct (is_in_main_game dev cs (world s2)). exact Hnever. }
    destruct (lift (is_in_main_game dev cs) s2) as [inside s3].
    cbn [fst snd] in *.
    pose proof (bounded_run_trans _ _ _ _ _ _ _ _ _ H1
                  (bounded_run_trans _ _ _ _ _ _ _ _ _ H2 H3)) as H123.
    destruct inside.
    + cbn [snd]. split.
      * apply (bounded_run_weaken _ _ _ _ _ _ _ _ H123); lia.
      * intros Hnever. discriminate (Hinside Hnever).
    + match goal with
      | |- context [Server.panel_checks dev cs host n ?s4] =>
          destruct (IH s4) as [H4 H4'];
          assert (H34 : bounded_run 5000 0 0 s3 s4)
      end.
      { unfold bounded_run. cbn [world host_log now log]. split; [lia|].
        split; exists []; (split; [reflexivity|]); (split; [cbn; lia|constructor]). }
      split.
      * pose proof (bounded_run_trans _ _ _ _ _ _ _ _ _ H123
                      (bounded_run_trans _ _ _ _ _ _ _ _ _ H34 H4)) as H.
        apply (bounded_run_weaken _ _ _ _ _ _ _ _ H); lia.
      * intros Hnever. specialize (H4' Hnever). cbn [world now] in H4'.
        destruct H123 as (T & _). lia.
Qed.

End Watchdog.

(** X23.  The notification watchdog that ends the [/api/rok/start] endpoint
    runs, in simulated time, for at least 10 s and at most 208 s (18 rounds
    of up to 11 s), not the 90 s of its comments.  All it dispatches is the
    BACK key, at most 36 times; it evaluates the main-game check at most 18
    times, and when that check never succeeds it runs for at least 100 s. *)
Theorem notification_watchdog_is_bounded (dev : Device) (cs : Configs)
  (host : Host) (s : Session) :
  let s' := snd (Server.monitor_notification_panel dev cs host s) in
  now (world s) + 10000 <= now (world s')
  /\ bounded_run 208000 36 18 s s'
  /\ (never_in_main_game dev cs -> now (world s) + 100000 <= now (world s')).
Proof.
  cbn zeta. unfold Server.monitor_notification_panel, hbind.
  pose proof (sleep_bounded 10000 s ltac:(lia)) as H1.
  assert (Hnow : now (world (snd (lift (sleep 10000) s))) = now (world s) + 10000)
    by reflexivity.
  destruct (lift (sleep 10000) s) as [u s1]. cbn [snd] in *.
  destruct (panel_checks_bounded dev cs host 18 s1) as [H2 H2'].
  split; [destruct H2 as (T & _); lia|]. split.
  - pose proof (bounded_run_trans _ _ _ _ _ _ _ _ _ H1 H2) as H.
    apply (bounded_run_weaken _ _ _ _ _ _ _ _ H); lia.
  - intros Hnever. specialize (H2' Hnever). lia.
Qed.

Lemma notification_watchdog_is_bounded_witness :
  now (world Hosts.session0) + 100000
  <= now (world (snd (Server.monitor_notification_panel
                        Inputs.device_capture_fails no_configs
                        Hosts.host_stuck Hosts.session0))).
Proof.
  apply (notification_watchdog_is_bounded Inputs.device_capture_fails
           no_configs Hosts.host_stuck Hosts.session0).
  intros w. reflexivity.
Defined.


(** ** Starting the game without the tap sequence *)

Section AppendsOnly.

Variable P : Action -> Prop.

Lemma appends_only_ret {A} (a : A) : appends_only P (ret a).
Proof. intros w. apply logged_refl. Qed.

Lemma appends_only_bind {A B} (m : M A) (k : A -> M B) :
  appends_only P m -> (forall a, appends_only P (k a)) ->
  appends_only P (mbind m k).
Proof.
  intros Hm Hk w. unfold mbind. specialize (Hm w).
  destruct (m w) as [a w1]. cbn [snd] in Hm.
  eapply logged_trans; [exact Hm|apply Hk].
Qed.

Lemma appends_only_sleep ms : appends_only P (sleep ms).
Proof. intros w. apply logged_same_log. reflexivity. Qed.

Lemma appends_only_clock : appends_only P clock.
Proof. intros w. apply logged_refl. Qed.

Lemma appends_only_query {A} (script : nat -> A) : appends_only P (query script).
Proof. intros w. apply logged_same_log. reflexivity. Qed.

Lemma appends_only_emit a : P a -> appends_only P (emit a).
Proof. intros H w. apply (logged_one P w a H). Qed.

End AppendsOnly.

Section NoTap.

Variable dev : Device.
Variable cs : Configs.

Lemma await_waydroid_untapped n : appends_only untapped (await_waydroid dev n).
Proof.
  induction n as [|n IH]; cbn [await_waydroid]; [apply appends_only_ret|].
  apply appends_only_bind; [apply appends_only_sleep|intros ?].
  apply appends_only_bind; [apply appends_only_query|intros status].
  destruct status as [[]|]; [|exact IH|apply appends_only_ret].
  apply appends_only_bind; [apply appends_only_sleep|intros ?].
  apply appends_only_bind; [apply appends_only_query|intros connected].
  destruct connected; [apply appends_only_ret|].
  apply appends_only_bind; [apply appends_only_query|intros connected'].
  destruct connected'; [apply appends_only_ret|exact IH].
Qed.

Lemma ensure_waydroid_running_untapped :
  appends_only untapped (ensure_waydroid_running dev).
Proof.
  unfold ensure_waydroid_running, is_waydroid_running, start_waydroid.
  apply appends_only_bind.
  { apply appends_only_bind; [apply appends_only_query|intros ?].
    apply appends_only_ret. }
  intros running. destruct running; [apply appends_only_ret|].
  apply appends_only_bind; [apply appends_only_query|intros present].
  destruct (negb present); [apply appends_only_ret|].
  apply appends_only_bind; [apply appends_only_query|intros started].
  destruct started; [|apply appends_only_ret].
  apply appends_only_bind; [apply appends_only_emit; reflexivity|intros ?].
  apply appends_only_bind; [apply await_waydroid_untapped|intros ?].
  apply appends_only_ret.
Qed.

Lemma is_weston_locked_untapped : appends_only untapped (is_weston_locked dev cs).
Proof.
  unfold is_weston_locked.
  apply appends_only_bind; [apply appends_only_emit; reflexivity|intros ?].
  apply appends_only_bind; [apply appends_only_query|intros ?].
  apply appends_only_ret.
Qed.

Lemma x11_click_untapped x y : appends_only untapped (x11_click x y).
Proof.
  unfold x11_click.
  apply appends_only_bind; [apply appends_only_emit; reflexivity|intros ?].
  apply appends_only_ret.
Qed.

Lemma run_step_untapped s : appends_only untapped (run_step cs s).
Proof.
  unfold run_step. cbn zeta.
  apply appends_only_bind.
  - repeat match goal with
           | |- context [if ?b then _ else _] => destruct b
           end;
      try apply appends_only_ret;
      (apply appends_only_bind;
       [apply x11_click_untapped|intros ?; apply appends_only_ret]).
  - intros ?. destruct (0 <? Py.get (wait_after s) 0);
      [apply appends_only_sleep|apply appends_only_ret].
Qed.

Lemma run_steps_untapped l : appends_only untapped (run_steps cs l).
Proof.
  induction l as [|s l IH]; cbn [run_steps]; [apply appends_only_ret|].
  apply appends_only_bind; [apply run_step_untapped|intros ?; exact IH].
Qed.

Lemma unlock_attempts_untapped n :
  appends_only untapped (unlock_attempts dev cs n).
Proof.
  induction n as [|n IH]; cbn [unlock_attempts]; [apply appends_only_ret|].
  apply appends_only_bind; [apply run_steps_untapped|intros ?].
  destruct (Py.get (verify_after_each (get_unlock_sequence cs)) false);
    [|exact IH].
  apply appends_only_bind; [apply is_weston_locked_untapped|intros locked].
  destruct (negb locked); [apply appends_only_ret|exact IH].
Qed.

Lemma _unlock_weston_untapped : appends_only untapped (_unlock_weston dev cs).
Proof.
  unfold _unlock_weston.
  apply appends_only_bind; [apply unlock_attempts_untapped|intros early].
  destruct early; [apply appends_only_ret|].
  apply appends_only_bind; [apply is_weston_locked_untapped|intros ?].
  apply appends_only_ret.
Qed.

Lemma is_in_main_game_untapped : appends_only untapped (is_in_main_game dev cs).
Proof.
  unfold is_in_main_game, check_game_running, get_current_activity.
  apply appends_only_bind; [apply appends_only_emit; reflexivity|intros ?].
  apply appends_only_bind; [apply appends_only_query|intros running].
  destruct (negb running); [apply appends_only_ret|].
  apply appends_only_bind; [apply appends_only_query|intros activity].
  destruct (negb (focused activity)); [apply appends_only_ret|].
  apply appends_only_bind; [apply appends_only_query|intros ?].
  apply appends_only_ret.
Qed.

Lemma wait_checking_untapped n : appends_only untapped (wait_checking dev cs n).
Proof.
  induction n as [|n IH]; cbn [wait_checking]; [apply appends_only_ret|].
  apply appends_only_bind; [apply is_in_main_game_untapped|intros found].
  destruct found; [apply appends_only_ret|].
  apply appends_only_bind; [apply appends_only_sleep|intros ?; exact IH].
Qed.

Lemma wait_for_game_ready_loop_untapped fuel start timeout :
  appends_only untapped (wait_for_game_ready_loop dev fuel start timeout).
Proof.
  induction fuel as [|fuel IH]; cbn [wait_for_game_ready_loop];
    [apply appends_only_ret|].
  apply appends_only_bind; [apply appends_only_clock|intros t].
  destruct (t - start <? timeout); [|apply appends_only_ret].
  unfold check_game_running, get_current_activity.
  apply appends_only_bind; [apply appends_only_query|intros running].
  destruct (negb running).
  { apply appends_only_bind; [apply appends_only_sleep|intros ?; exact IH]. }
  apply appends_only_bind; [apply appends_only_query|intros activity].
  destruct (focused activity); [apply appends_only_ret|].
  apply appends_only_bind; [apply appends_only_sleep|intros ?; exact IH].
Qed.

Lemma start_app_untapped activity : appends_only untapped (start_app activity).
Proof.
  unfold start_app.
  apply appends_only_bind; [apply appends_only_emit; reflexivity|intros ?].
  apply appends_only_bind; [apply appends_only_sleep|intros ?].
  apply appends_only_ret.
Qed.

Lemma stop_app_untapped : appends_only untapped stop_app.
Proof.
  unfold stop_app.
  apply appends_only_bind; [apply appends_only_emit; reflexivity|intros ?].
  apply appends_only_ret.
Qed.

End NoTap.

(** X24.  With [auto_tap=False], [start_game] never taps the Android
    screen: whatever the device answers and whatever the other two flags
    are, no [adb.tap] is among the commands it dispatches. *)
Theorem start_game_without_auto_tap_never_taps (dev : Device) (cs : Configs)
  (wait_for_ready force_restart : bool) (w : World) :
  logged untapped w
    (snd (start_game dev cs wait_for_ready false force_restart w)).
Proof.
  revert w.
  change (appends_only untapped
            (start_game dev cs wait_for_ready false force_restart)).
  unfold start_game, check_game_running, get_current_activity,
    wait_for_game_ready.
  apply appends_only_bind; [apply ensure_waydroid_running_untapped|intros up].
  destruct (negb up); [apply appends_only_ret|].
  apply appends_only_bind; [apply is_weston_locked_untapped|intros locked].
  apply appends_only_bind.
  { destruct locked; [apply _unlock_weston_untapped|apply appends_only_ret]. }
  intros ?.
  apply appends_only_bind; [apply appends_only_query|intros running].
  destruct (running && negb force_restart).
  - apply appends_only_bind; [apply appends_only_query|intros activity].
    destruct (focused activity).
    + apply appends_only_bind; [apply appends_only_ret|intros ?].
      apply appends_only_ret.
    + apply appends_only_bind; [apply start_app_untapped|intros ?].
      apply appends_only_bind; [apply appends_only_sleep|intros ?].
      apply appends_only_bind; [apply appends_only_ret|intros ?].
      apply appends_only_ret.
  - apply appends_only_bind; [apply stop_app_untapped|intros ?].
    apply appends_only_bind; [apply appends_only_sleep|intros ?].
    apply appends_only_bind; [apply start_app_untapped|intros launched].
    destruct (negb launched); [apply appends_only_ret|].
    destruct wait_for_ready; [|apply appends_only_ret].
    apply appends_only_bind.
    { apply appends_only_bind; [apply appends_only_clock|intros ?].
      apply wait_for_game_ready_loop_untapped. }
    intros ready. destruct (negb ready); [apply appends_only_ret|].
    apply appends_only_bind; [apply is_in_main_game_untapped|intros inside].
    destruct inside; [apply appends_only_ret|].
    apply appends_only_bind; [apply appends_only_ret|intros entered].
    destruct entered; [apply appends_only_ret|].
    apply appends_only_bind; [apply wait_checking_untapped|intros confirmed].
    destruct confirmed; apply appends_only_ret.
Qed.
